(** * Pandora memory engine: ingestion buffer, ledger and breath scheduler

    A shallow embedding of [backend/pandora_engine.py] and of the request
    handlers of [backend/server.py].  Python objects are
    records, methods are state-passing functions, exceptions are an explicit
    outcome type, and the external world (document store, snapshot files) is
    a record whose failures are chosen by an environment argument. *)

From Stdlib Require Import ZArith String Ascii List Lia DecimalString.
From stdpp Require Import base option list strings gmap.
From Equations Require Import Equations.

Set Warnings "-register-all".

Local Open Scope string_scope.
Local Open Scope list_scope.
Local Open Scope Z_scope.

(** ** Python runtime primitives *)

Module Py.

(** Exceptions that the modelled code can see.  Every constructor is a
    subclass of [Exception]; [JSONDecodeError] is the only one that the
    source catches by name. *)
Inductive exn : Type :=
| JSONDecodeError (msg : string) (lineno colno pos : Z)
| Exception (cls msg : string).

Inductive outcome (A : Type) : Type :=
| Returned (a : A)
| Raised (e : exn).
Arguments Returned {A} a.
Arguments Raised {A} e.

Definition bind {A B} (m : outcome A) (k : A -> outcome B) : outcome B :=
  match m with
  | Returned a => k a
  | Raised e => Raised e
  end.

Definition is_JSONDecodeError (e : exn) : bool :=
  match e with
  | JSONDecodeError _ _ _ _ => true
  | Exception _ _ => false
  end.

(** [try: body except json.JSONDecodeError as e: handler e]; any other
    exception propagates. *)
Definition try_except_json {A} (body : outcome A) (handler : exn -> outcome A)
  : outcome A :=
  match body with
  | Returned a => Returned a
  | Raised e => if is_JSONDecodeError e then handler e else Raised e
  end.

(** [str(n)] for an integer. *)
Definition str_int (n : Z) : string := NilZero.string_of_int (Z.to_int n).

(** [str(e)].  For [JSONDecodeError] this is the message built by its
    constructor: ["%s: line %d column %d (char %d)"]. *)
Definition str_exn (e : exn) : string :=
  match e with
  | JSONDecodeError msg lineno colno pos =>
      (msg ++ ": line " ++ str_int lineno ++ " column " ++ str_int colno
           ++ " (char " ++ str_int pos ++ ")")%string
  | Exception _ msg => msg
  end.

Definition IndexError : exn := Exception "IndexError" "list index out of range".

(** [l[i]]: a negative index counts from the end; out of range raises. *)
Definition getitem {A} (l : list A) (i : Z) : outcome A :=
  let n := Z.of_nat (length l) in
  let j := if i <? 0 then i + n else i in
  if (0 <=? j) && (j <? n) then
    match l !! Z.to_nat j with
    | Some x => Returned x
    | None => Raised IndexError
    end
  else Raised IndexError.

(** Slice bound normalisation for a sequence of length [n]: negative
    bounds count from the end, and every bound is clamped to [0..n]. *)
Definition slice_bound (n : nat) (i : Z) : nat :=
  Z.to_nat (if i <? 0 then Z.max 0 (i + Z.of_nat n)
            else Z.min i (Z.of_nat n)).

(** [l[a:]] *)
Definition slice_from {A} (l : list A) (a : Z) : list A :=
  drop (slice_bound (length l) a) l.

(** [l[:b]] *)
Definition slice_to {A} (l : list A) (b : Z) : list A :=
  take (slice_bound (length l) b) l.

Definition newline : ascii := "010"%char.

(** The double quote character, and a text between double quotes. *)
Definition dquote : ascii := "034"%char.

Definition quoted (s : string) : string :=
  String dquote (s ++ String dquote EmptyString)%string.

(** [s.split('\n')] *)
Fixpoint split_lines (s : string) : list string :=
  match s with
  | EmptyString => [EmptyString]
  | String c rest =>
      if Ascii.eqb c newline then EmptyString :: split_lines rest
      else match split_lines rest with
           | line :: lines => String c line :: lines
           | [] => [String c EmptyString]
           end
  end.

(** ['\n'.join(lines)] *)
Definition join_lines (lines : list string) : string :=
  String.concat (String newline EmptyString) lines.

(** A [str] is held as the bytes of its UTF-8 form, so a character
    outside ASCII takes several bytes: one lead byte followed by
    continuation bytes, which are those between 128 and 191. *)
Definition is_continuation (c : ascii) : bool :=
  let n := N_of_ascii c in ((128 <=? n) && (n <? 192))%N.

(** [len(s)]: the number of characters. *)
Fixpoint str_len (s : string) : nat :=
  match s with
  | EmptyString => O
  | String c rest => if is_continuation c then str_len rest else S (str_len rest)
  end.

(** [s[:k]] for [0 <= k]: the first [k] characters, each with all of its
    bytes. *)
Fixpoint str_slice_to (k : nat) (s : string) : string :=
  match s with
  | EmptyString => EmptyString
  | String c rest =>
      if is_continuation c then String c (str_slice_to k rest)
      else match k with
           | O => EmptyString
           | S k' => String c (str_slice_to k' rest)
           end
  end.

(** [s.index(sub)] when [sub in s], as an option: the offset of the first
    match, counted in bytes. *)
Definition str_find (sub s : string) : option nat := String.index 0 sub s.

(** [s[:k]] for an offset [k] that [str_find] returned for an ASCII
    pattern: the bytes before the match are the characters before it. *)
Definition str_prefix (k : nat) (s : string) : string := String.substring 0 k s.

End Py.
Export Py.

(** ** JSON-like values held by the buffer *)

(** A Python value as produced by [json.loads] or written as a literal in
    the source.  Floats are kept as their lexeme; dictionaries keep
    insertion order. *)
Inductive json : Type :=
| JNull
| JBool (b : bool)
| JInt (n : Z)
| JFloat (lexeme : string)
| JStr (s : string)
| JList (items : list json)
| JDict (pairs : list (string * json)).

(** [d.get(key)] on a dictionary value. *)
Definition dict_get (key : string) (d : json) : option json :=
  match d with
  | JDict pairs =>
      snd <$> List.find (fun kv => String.eqb key (fst kv)) pairs
  | _ => None
  end.

(** ** A model of [json.loads]

    The decoder follows CPython's [json.decoder] and [json.scanner]: the
    same grammar (RFC 8259 plus the constants [NaN], [Infinity] and
    [-Infinity]), the same error messages, and positions counted in
    bytes of the modelled string, which are its characters when the
    document is ASCII.  The recursion over nested values
    runs on fuel, of which twice the length of the document is enough.
    The interpreter's recursion limit is the explicit [depth]: entering an
    object or an array takes one level, as [Py_EnterRecursiveCall] does
    in the scanner, and entering one with no level left raises
    [RecursionError]. *)

Module Json.

Inductive container : Type := AnObject | AnArray.

Inductive parse_error : Type :=
| PErr (msg : string) (pos : nat)
| PDepth (what : container).

Definition presult (A : Type) : Type := (parse_error + A)%type.

Definition is_ws (c : ascii) : bool :=
  Ascii.eqb c " "%char || Ascii.eqb c "009"%char
  || Ascii.eqb c "010"%char || Ascii.eqb c "013"%char.

(** [WHITESPACE.match(s, p).end()] on the suffix of the document. *)
Fixpoint skip_ws (s : string) (p : nat) : string * nat :=
  match s with
  | String c rest => if is_ws c then skip_ws rest (S p) else (s, p)
  | EmptyString => (s, p)
  end.

Definition is_digit (c : ascii) : bool :=
  let n := N_of_ascii c in ((48 <=? n) && (n <=? 57))%N.

Definition hex_value (c : ascii) : option N :=
  let n := N_of_ascii c in
  if ((48 <=? n) && (n <=? 57))%N then Some (n - 48)%N
  else if ((65 <=? n) && (n <=? 70))%N then Some (n - 55)%N
  else if ((97 <=? n) && (n <=? 102))%N then Some (n - 87)%N
  else None.

(** UTF-8 encoding of one code point, the form in which the modelled
    strings hold characters outside ASCII. *)
Definition utf8 (cp : N) : string :=
  let b (n : N) := ascii_of_N n in
  (if cp <? 128 then String (b cp) EmptyString
   else if cp <? 2048 then
     String (b (192 + cp / 64)) (String (b (128 + cp mod 64)) EmptyString)
   else if cp <? 65536 then
     String (b (224 + cp / 4096))
       (String (b (128 + (cp / 64) mod 64))
          (String (b (128 + cp mod 64)) EmptyString))
   else
     String (b (240 + cp / 262144))
       (String (b (128 + (cp / 4096) mod 64))
          (String (b (128 + (cp / 64) mod 64))
             (String (b (128 + cp mod 64)) EmptyString))))%N.

Definition is_high_surrogate (u : N) : bool := ((55296 <=? u) && (u <=? 56319))%N.
Definition is_low_surrogate (u : N) : bool := ((56320 <=? u) && (u <=? 57343))%N.

Definition join_surrogates (hi lo : N) : N :=
  (65536 + ((hi - 55296) * 1024 + (lo - 56320)))%N.

(** Where [scanstring] stands inside a string literal. *)
Inductive scan_state : Type :=
| SNormal
| SEscape
| SHex (remaining : nat) (acc : N) (upos : nat).

(** A high surrogate read from a [\uXXXX] escape waits in [pending] for a
    low surrogate; anything else flushes it as it is. *)
Definition flush (pending : option N) (tail : string) : string :=
  match pending with
  | Some hi => (utf8 hi ++ tail)%string
  | None => tail
  end.

Definition simple_escape (c : ascii) : option ascii :=
  if Ascii.eqb c dquote then Some dquote
  else if Ascii.eqb c "\"%char then Some "\"%char
  else if Ascii.eqb c "/"%char then Some "/"%char
  else if Ascii.eqb c "b"%char then Some "008"%char
  else if Ascii.eqb c "f"%char then Some "012"%char
  else if Ascii.eqb c "n"%char then Some "010"%char
  else if Ascii.eqb c "r"%char then Some "013"%char
  else if Ascii.eqb c "t"%char then Some "009"%char
  else None.

Definition cons_result (pre : string) (r : presult (string * string * nat))
  : presult (string * string * nat) :=
  match r with
  | inr (str, rest, p) => inr ((pre ++ str)%string, rest, p)
  | inl e => inl e
  end.

(** [scanstring(s, end)]: [s] is the suffix after the opening quote, [p]
    its position, [begin] the position of the opening quote.  Returns the
    decoded string, the suffix after the closing quote and its position. *)
Fixpoint scanstring (s : string) (p begin : nat) (st : scan_state)
    (pending : option N) : presult (string * string * nat) :=
  match s with
  | EmptyString =>
      match st with
      | SHex _ _ upos => inl (PErr "Invalid \uXXXX escape" upos)
      | _ => inl (PErr "Unterminated string starting at" begin)
      end
  | String c rest =>
      match st with
      | SNormal =>
          if Ascii.eqb c dquote then inr (flush pending EmptyString, rest, S p)
          else if Ascii.eqb c "\"%char then
            scanstring rest (S p) begin SEscape pending
          else if (N_of_ascii c <? 32)%N then
            inl (PErr "Invalid control character at" p)
          else
            cons_result (flush pending (String c EmptyString))
              (scanstring rest (S p) begin SNormal None)
      | SEscape =>
          if Ascii.eqb c "u"%char then
            scanstring rest (S p) begin (SHex 4 0%N p) pending
          else
            match simple_escape c with
            | Some d =>
                cons_result (flush pending (String d EmptyString))
                  (scanstring rest (S p) begin SNormal None)
            | None => inl (PErr "Invalid \escape" (Nat.pred p))
            end
      | SHex k acc upos =>
          match hex_value c with
          | None => inl (PErr "Invalid \uXXXX escape" upos)
          | Some d =>
              let u := (acc * 16 + d)%N in
              match k with
              | S (S k') => scanstring rest (S p) begin (SHex (S k') u upos) pending
              | _ =>
                  match pending with
                  | Some hi =>
                      if is_low_surrogate u then
                        cons_result (utf8 (join_surrogates hi u))
                          (scanstring rest (S p) begin SNormal None)
                      else if is_high_surrogate u then
                        cons_result (utf8 hi)
                          (scanstring rest (S p) begin SNormal (Some u))
                      else
                        cons_result (utf8 hi ++ utf8 u)%string
                          (scanstring rest (S p) begin SNormal None)
                  | None =>
                      if is_high_surrogate u then
                        scanstring rest (S p) begin SNormal (Some u)
                      else
                        cons_result (utf8 u)
                          (scanstring rest (S p) begin SNormal None)
                  end
              end
          end
      end
  end.

Fixpoint take_digits (s : string) : string * string :=
  match s with
  | String c rest =>
      if is_digit c then
        let '(ds, r) := take_digits rest in (String c ds, r)
      else (EmptyString, s)
  | EmptyString => (EmptyString, s)
  end.

Definition digits_value (ds : string) : Z :=
  fold_left (fun acc c => acc * 10 + Z.of_N (N_of_ascii c - 48)%N)
            (list_ascii_of_string ds) 0.

(** The integer part of [NUMBER_RE]: an optional minus sign, then either
    a single zero or a non-zero digit followed by digits. *)
Definition match_int (s : string) : option (string * string) :=
  let '(sign, body) :=
    match s with
    | String "-"%char rest => ("-"%string, rest)
    | _ => (EmptyString, s)
    end in
  match body with
  | String c rest =>
      if Ascii.eqb c "0"%char then Some ((sign ++ "0")%string, rest)
      else if is_digit c then
        let '(ds, r) := take_digits rest in
        Some ((sign ++ String c ds)%string, r)
      else None
  | EmptyString => None
  end.

(** The optional fraction [(\.[0-9]+)?]. *)
Definition match_frac (s : string) : string * string :=
  match s with
  | String "."%char rest =>
      match take_digits rest with
      | (EmptyString, _) => (EmptyString, s)
      | (ds, r) => (String "."%char ds, r)
      end
  | _ => (EmptyString, s)
  end.

(** The optional exponent [([eE][-+]?[0-9]+)?]. *)
Definition match_exp (s : string) : string * string :=
  match s with
  | String e rest =>
      if Ascii.eqb e "e"%char || Ascii.eqb e "E"%char then
        let '(sign, body) :=
          match rest with
          | String c r =>
              if Ascii.eqb c "-"%char || Ascii.eqb c "+"%char
              then (String c EmptyString, r) else (EmptyString, rest)
          | EmptyString => (EmptyString, rest)
          end in
        match take_digits body with
        | (EmptyString, _) => (EmptyString, s)
        | (ds, r) => ((String e sign ++ ds)%string, r)
        end
      else (EmptyString, s)
  | EmptyString => (EmptyString, s)
  end.

Definition int_value (lexeme : string) : Z :=
  match lexeme with
  | String "-"%char ds => - digits_value ds
  | _ => digits_value lexeme
  end.

Definition match_number (s : string) : option (json * string * nat) :=
  match match_int s with
  | None => None
  | Some (i, r1) =>
      let '(f, r2) := match_frac r1 in
      let '(e, r3) := match_exp r2 in
      let lexeme := (i ++ f ++ e)%string in
      match f, e with
      | EmptyString, EmptyString =>
          Some (JInt (int_value i), r3, String.length lexeme)
      | _, _ => Some (JFloat lexeme, r3, String.length lexeme)
      end
  end.

(** [s[idx:idx+len(w)] == w], returning the suffix after [w]. *)
Fixpoint strip_prefix (w s : string) : option string :=
  match w, s with
  | EmptyString, _ => Some s
  | String a w', String b s' =>
      if Ascii.eqb a b then strip_prefix w' s' else None
  | String _ _, EmptyString => None
  end.

(** [d[k] = v] on an insertion-ordered dictionary. *)
Fixpoint dict_set (k : string) (v : json) (d : list (string * json))
  : list (string * json) :=
  match d with
  | [] => [(k, v)]
  | (k', v') :: rest =>
      if String.eqb k k' then (k, v) :: rest
      else (k', v') :: dict_set k v rest
  end.

(** [dict(pairs)] *)
Definition dict_of_pairs (pairs : list (string * json)) : list (string * json) :=
  fold_left (fun d kv => dict_set (fst kv) (snd kv) d) pairs [].

Definition value_result : Type := presult (json * string * nat).

(** The entry of [JSONObject], up to the first key; [members] is its loop. *)
Definition JSONObject
    (members : string -> nat -> list (string * json) -> value_result)
    (s : string) (p : nat) : value_result :=
  let '(s1, p1) := skip_ws s p in
  match s1 with
  | String c r =>
      if Ascii.eqb c "}"%char then inr (JDict [], r, S p1)
      else if Ascii.eqb c dquote then members r (S p1) []
      else inl (PErr "Expecting property name enclosed in double quotes" p1)
  | EmptyString =>
      inl (PErr "Expecting property name enclosed in double quotes" p1)
  end.

(** The entry of [JSONArray], up to the first item; [items] is its loop. *)
Definition JSONArray (items : string -> nat -> list json -> value_result)
    (s : string) (p : nat) : value_result :=
  let '(s1, p1) := skip_ws s p in
  match s1 with
  | String c r =>
      if Ascii.eqb c "]"%char then inr (JList [], r, S p1)
      else items s1 p1 []
  | EmptyString => items s1 p1 []
  end.

Definition scan_literal (s : string) (p : nat) : value_result :=
  match strip_prefix "null" s with
  | Some r => inr (JNull, r, (p + 4)%nat)
  | None =>
  match strip_prefix "true" s with
  | Some r => inr (JBool true, r, (p + 4)%nat)
  | None =>
  match strip_prefix "false" s with
  | Some r => inr (JBool false, r, (p + 5)%nat)
  | None =>
  match match_number s with
  | Some (v, r, n) => inr (v, r, (p + n)%nat)
  | None =>
  match strip_prefix "NaN" s with
  | Some r => inr (JFloat "NaN", r, (p + 3)%nat)
  | None =>
  match strip_prefix "Infinity" s with
  | Some r => inr (JFloat "Infinity", r, (p + 8)%nat)
  | None =>
  match strip_prefix "-Infinity" s with
  | Some r => inr (JFloat "-Infinity", r, (p + 9)%nat)
  | None => inl (PErr "Expecting value" p)
  end end end end end end end.

(** [scan_once(string, idx)] with the loops of [JSONObject] and
    [JSONArray].  [s] is the suffix of the document at position [p]. *)
Fixpoint scan_once (fuel depth : nat) (s : string) (p : nat) : value_result :=
  match fuel with
  | O => inl (PDepth AnArray)
  | S fuel' =>
      match s with
      | EmptyString => inl (PErr "Expecting value" p)
      | String c rest =>
          if Ascii.eqb c dquote then
            match scanstring rest (S p) p SNormal None with
            | inr (str, r, q) => inr (JStr str, r, q)
            | inl e => inl e
            end
          else if Ascii.eqb c "{"%char then
            match depth with
            | O => inl (PDepth AnObject)
            | S depth' => JSONObject (object_members fuel' depth') rest (S p)
            end
          else if Ascii.eqb c "["%char then
            match depth with
            | O => inl (PDepth AnArray)
            | S depth' => JSONArray (array_items fuel' depth') rest (S p)
            end
          else scan_literal s p
      end
  end
with object_members (fuel depth : nat) (s : string) (p : nat)
    (pairs : list (string * json)) : value_result :=
  match fuel with
  | O => inl (PDepth AnObject)
  | S fuel' =>
      match scanstring s p (Nat.pred p) SNormal None with
      | inl e => inl e
      | inr (key, s1, p1) =>
          let '(s2, p2) := skip_ws s1 p1 in
          match s2 with
          | String ":"%char s3 =>
              let '(s4, p4) := skip_ws s3 (S p2) in
              match scan_once fuel' depth s4 p4 with
              | inl e => inl e
              | inr (v, s5, p5) =>
                  let '(s6, p6) := skip_ws s5 p5 in
                  match s6 with
                  | String "}"%char r =>
                      inr (JDict (dict_of_pairs (pairs ++ [(key, v)])), r, S p6)
                  | String ","%char r =>
                      let '(s7, p7) := skip_ws r (S p6) in
                      match s7 with
                      | String c r' =>
                          if Ascii.eqb c dquote then
                            object_members fuel' depth r' (S p7)
                              (pairs ++ [(key, v)])
                          else
                            inl (PErr
                              "Expecting property name enclosed in double quotes"
                              p7)
                      | EmptyString =>
                          inl (PErr
                            "Expecting property name enclosed in double quotes" p7)
                      end
                  | _ => inl (PErr "Expecting ',' delimiter" p6)
                  end
              end
          | _ => inl (PErr "Expecting ':' delimiter" p2)
          end
      end
  end
with array_items (fuel depth : nat) (s : string) (p : nat)
    (values : list json) : value_result :=
  match fuel with
  | O => inl (PDepth AnArray)
  | S fuel' =>
      match scan_once fuel' depth s p with
      | inl e => inl e
      | inr (v, s1, p1) =>
          let '(s2, p2) := skip_ws s1 p1 in
          match s2 with
          | String "]"%char r => inr (JList (values ++ [v]), r, S p2)
          | String ","%char r =>
              let '(s3, p3) := skip_ws r (S p2) in
              array_items fuel' depth s3 p3 (values ++ [v])
          | _ => inl (PErr "Expecting ',' delimiter" p2)
          end
      end
  end.

(** [JSONDecoder.decode]: one value, surrounded by whitespace only. *)
Definition decode (fuel depth : nat) (doc : string) : presult json :=
  let '(s0, p0) := skip_ws doc 0 in
  match scan_once fuel depth s0 p0 with
  | inl e => inl e
  | inr (v, s1, p1) =>
      let '(s2, p2) := skip_ws s1 p1 in
      match s2 with
      | EmptyString => inr v
      | String _ _ => inl (PErr "Extra data" p2)
      end
  end.

(** [doc.count('\n', 0, pos) + 1] and [pos - doc.rfind('\n', 0, pos)]. *)
Fixpoint line_col (doc : string) (pos : nat) (line col : Z) : Z * Z :=
  match pos, doc with
  | S pos', String c rest =>
      if Ascii.eqb c newline then line_col rest pos' (line + 1) 1
      else line_col rest pos' line (col + 1)
  | _, _ => (line, col)
  end.

Definition decode_error (msg doc : string) (pos : nat) : exn :=
  let '(lineno, colno) := line_col doc pos 1 1 in
  JSONDecodeError msg lineno colno (Z.of_nat pos).

Definition utf8_bom : string :=
  String "239"%char (String "187"%char (String "191"%char EmptyString)).

Definition RecursionError (what : container) : exn :=
  Exception "RecursionError"
    ("maximum recursion depth exceeded while decoding a JSON "
     +:+ match what with AnObject => "object" | AnArray => "array" end
     +:+ " from a unicode string").

(** [json.loads(doc)] for a textual [doc], called where the interpreter
    has [depth] levels of recursion left. *)
Definition loads_within (depth : nat) (doc : string) : outcome json :=
  match strip_prefix utf8_bom doc with
  | Some _ =>
      Raised (decode_error "Unexpected UTF-8 BOM (decode using utf-8-sig)" doc 0)
  | None =>
      match decode (2 * String.length doc + 2) depth doc with
      | inr v => Returned v
      | inl (PErr msg pos) => Raised (decode_error msg doc pos)
      | inl (PDepth what) => Raised (RecursionError what)
      end
  end.

(** [json.loads(doc)] where the recursion limit is out of reach: a
    document cannot nest deeper than it is long. *)
Definition loads (doc : string) : outcome json :=
  loads_within (String.length doc) doc.

(** A text of [n] opening brackets. *)
Definition open_brackets (n : nat) : string :=
  string_of_list_ascii (repeat "["%char n).

End Json.

(** ** FloJsonOutputCollector *)

Record FloJsonOutputCollector : Type := mkCollector {
  buffer : list json;
  strict_mode : bool;
  comment_strip : bool;
  reverse_order : bool
}.

Module Collector.

(** [__init__] *)
Definition init : FloJsonOutputCollector :=
  {| buffer := []; strict_mode := false; comment_strip := true;
     reverse_order := true |}.

Definition set_buffer (self : FloJsonOutputCollector) (b : list json)
  : FloJsonOutputCollector :=
  {| buffer := b; strict_mode := strict_mode self;
     comment_strip := comment_strip self;
     reverse_order := reverse_order self |}.

(** [self.buffer.append(x)] *)
Definition append (self : FloJsonOutputCollector) (x : json)
  : FloJsonOutputCollector :=
  set_buffer self (buffer self ++ [x]).

(** Every method returns its result together with the collector it
    leaves behind.  The lines that the collector writes to the log are
    left out: nothing in the program reads them. *)

Definition peek (self : FloJsonOutputCollector)
  : option json * FloJsonOutputCollector :=
  (last (buffer self), self).

Definition pop (self : FloJsonOutputCollector)
  : option json * FloJsonOutputCollector :=
  match last (buffer self) with
  | Some x => (Some x, set_buffer self (removelast (buffer self)))
  | None => (None, self)
  end.

Definition fetch (self : FloJsonOutputCollector) (depth : Z)
  : list json * FloJsonOutputCollector :=
  if (depth <=? 0) || (match buffer self with [] => true | _ => false end)
  then ([], self)
  else if reverse_order self
       then (slice_from (buffer self) (- depth), self)
       else (slice_to (buffer self) depth, self).

Definition rewind (self : FloJsonOutputCollector)
    (callback : option (json -> json)) (depth : Z)
  : list json * FloJsonOutputCollector :=
  let items :=
    if depth =? -1 then buffer self
    else if 0 <? depth then slice_from (buffer self) (- depth)
    else [] in
  match callback with
  | Some f => (map f items, self)
  | None => (items, self)
  end.

(** The per-line step of [strip_comments]. *)
Definition strip_line (line : string) : string :=
  match str_find "//" line with
  | Some k => str_prefix k line
  | None => line
  end.

Definition strip_comments (self : FloJsonOutputCollector) (json_str : string)
  : string :=
  if negb (comment_strip self) then json_str
  else join_lines (map strip_line (split_lines json_str)).

(** The loop condition of [iter_q]:
    [idx >= 0 if self.reverse_order else idx < len(self.buffer)]. *)
Definition iter_q_cond (self : FloJsonOutputCollector) (idx : Z) : bool :=
  if reverse_order self then 0 <=? idx
  else idx <? Z.of_nat (length (buffer self)).

Definition iter_q_next (self : FloJsonOutputCollector) (idx : Z) : Z :=
  if reverse_order self then idx - 1 else idx + 1.

Definition iter_q_measure (self : FloJsonOutputCollector) (idx : Z) : nat :=
  Z.to_nat (if reverse_order self then idx + 1
            else Z.of_nat (length (buffer self)) - idx).

Definition inspect {A} (a : A) : {b : A | a = b} := exist _ a eq_refl.

(** The [while] loop of the hybrid path, with its two locals. *)
Equations? iter_q_loop (self : FloJsonOutputCollector) (idx : Z)
    (result : list json) : outcome (list json)
  by wf (iter_q_measure self idx) lt :=
  iter_q_loop self idx result with inspect (iter_q_cond self idx) := {
    | exist _ false _ := Returned result
    | exist _ true Hc with getitem (buffer self) idx := {
        | Raised e := Raised e
        | Returned item :=
            iter_q_loop self (iter_q_next self idx) (result ++ [item]) } }.
Proof.
  unfold iter_q_measure, iter_q_next, iter_q_cond in *.
  destruct (reverse_order self); lia.
Qed.

(** [iter_q].  On the direct path with [reverse_order] clear the source
    returns the buffer object itself; the model returns its contents. *)
Definition iter_q (self : FloJsonOutputCollector) (hybrid_mode : bool)
  : outcome (list json * FloJsonOutputCollector) :=
  if negb hybrid_mode then
    Returned (if reverse_order self then rev (buffer self) else buffer self,
              self)
  else
    let idx := if reverse_order self
               then Z.of_nat (length (buffer self)) - 1 else 0 in
    bind (iter_q_loop self idx [])
         (fun result => Returned (result, self)).

(** What [collect] is given: a text or an already structured value.
    Python has one [str] type, so the structured value [JStr s] is the
    text [s]: [as_text] is the test [isinstance(data, str)]. *)
Inductive collect_input : Type :=
| Text (s : string)
| Value (v : json).

Definition as_text (data : collect_input) : option string :=
  match data with
  | Text s => Some s
  | Value (JStr s) => Some s
  | Value _ => None
  end.

(** The value that [data] is when it is not a text. *)
Definition as_value (data : collect_input) : json :=
  match data with
  | Text s => JStr s
  | Value v => v
  end.

Section Collect.

(** The two builtins [collect] calls: [json.loads] and [str] on a
    structured value. *)
Variable json_loads : string -> outcome json.
Variable py_str : json -> outcome string.

(** [str(data)]: a text is its own [str]. *)
Definition str_input (data : collect_input) : outcome string :=
  match as_text data with
  | Some s => Returned s
  | None => py_str (as_value data)
  end.

(** The degraded record appended in tolerant mode. *)
Definition partial_state_record (text error : string) : json :=
  JDict [("partial_state", JStr text); ("error", JStr error)].

Definition collect (self : FloJsonOutputCollector) (data : collect_input)
  : outcome (bool * FloJsonOutputCollector) :=
  try_except_json
    (bind (match as_text data with
           | Some s => json_loads (strip_comments self s)
           | None => Returned (as_value data)
           end)
          (fun parsed_data => Returned (true, append self parsed_data)))
    (fun e =>
       if negb (strict_mode self) then
         bind (str_input data) (fun text =>
           Returned (true, append self (partial_state_record text (str_exn e))))
       else Returned (false, self)).

End Collect.

End Collector.

(** ** QInfinityMemoryLine *)

Module MemoryLine.

(** The dataclass.  [timestamp] is held in the ISO-8601 form that
    [to_dict] gives it. *)
Record QInfinityMemoryLine : Type := mk {
  id : string;
  timestamp : string;
  stage : string;
  state : string;
  identity : string;
  memory : list string;
  semantic_tags : list string;
  hash_value : string;
  breath_cycle : Z
}.

(** The field defaults of the dataclass that are constants. *)
Definition default_hash_value : string := "∞".
Definition default_breath_cycle : Z := 0.

(** [memory_line.state = s] *)
Definition set_state (l : QInfinityMemoryLine) (s : string) : QInfinityMemoryLine :=
  mk (id l) (timestamp l) (stage l) s (identity l) (memory l)
     (semantic_tags l) (hash_value l) (breath_cycle l).

(** [memory_line.memory.append(m)] *)
Definition memory_append (l : QInfinityMemoryLine) (m : string) : QInfinityMemoryLine :=
  mk (id l) (timestamp l) (stage l) (state l) (identity l) (memory l ++ [m])
     (semantic_tags l) (hash_value l) (breath_cycle l).

(** [tag in line.semantic_tags] *)
Definition has_tag (tag : string) (l : QInfinityMemoryLine) : bool :=
  existsb (String.eqb tag) (semantic_tags l).

End MemoryLine.

Abbreviation QInfinityMemoryLine := MemoryLine.QInfinityMemoryLine.

(** One entry of the memory reel: a dictionary read with
    [.get(key, default)], so each key may be absent.  The engine is
    modelled on reels that are lists of such dictionaries.  The loader
    also lets through other documents that have a length; on an entry
    without [.get] the source raises [AttributeError] out of
    [bootstrap_memory], which is outside this model. *)
Record StageDescriptor : Type := mkStage {
  sd_stage : option string;
  sd_state : option string;
  sd_identity : option string;
  sd_memory : option (list string)
}.

(** ** The world outside the process *)

Inductive log_level : Type := DEBUG | INFO | WARNING | ERROR.

Inductive delay : Type :=
| BreathInterval   (* [asyncio.sleep(self.breath_interval)] *)
| Backoff.         (* [asyncio.sleep(1)] *)

(** The document written by [json.dump(snapshot_data, f, indent=2)]. *)
Record Snapshot : Type := mkSnapshot {
  snap_timestamp : string;
  snap_breath_cycle : Z;
  snap_memory_lines : list QInfinityMemoryLine;
  snap_collector_buffer : list json;
  snap_config : json;
  snap_context_window_usage : Z;
  snap_semantic_state : list (string * Z)
}.

(** A file opened with mode ['w'] is emptied first, so a dump that raises
    leaves an incomplete file behind. *)
Inductive file_content : Type :=
| Complete (snap : Snapshot)
| Incomplete.

Inductive effect : Type :=
| ELog (level : log_level) (msg : string)
| EInsert (doc : QInfinityMemoryLine)
| EMkdir (path : string)
| EOpen (path : string)
| EDump (path : string)
| ESleep (d : delay).

Record World : Type := mkWorld {
  db_pandora_memory : list QInfinityMemoryLine;
  files : gmap string file_content;
  trace : list effect
}.

(** What the environment decides for one write of a snapshot target. *)
Inductive write_result : Type :=
| WriteOk
| MkdirRaises (e : exn)
| OpenRaises (e : exn)
| DumpRaises (e : exn).

(** What the environment supplies to one commit: the clock and the fate
    of the write to each path. *)
Record commit_env : Type := mkCommitEnv {
  commit_now : string;
  target_result : string -> write_result
}.

(** What the environment supplies to the creation of one memory line:
    [uuid.uuid4()], [datetime.now()] and the fate of [insert_one]. *)
Record line_env : Type := mkLineEnv {
  fresh_id : string;
  now : string;
  insert_result : option exn
}.

(** ** PandoraMemoryEngine *)

Module Engine.

(** The fields of the engine.  [self.db] is the document store of the
    world below; [breath_interval] is the length of the sleep between
    ticks, which the model records as [BreathInterval]. *)
Record PandoraMemoryEngine : Type := mk {
  collector : FloJsonOutputCollector;
  memory_lines : list QInfinityMemoryLine;
  breath_cycle_count : Z;
  is_running : bool;
  context_window_size : Z;
  semantic_tags : list string;
  checkpoints : list string;
  config : json;
  memory_reel : list StageDescriptor
}.

(** [__init__], given what the two loaders returned. *)
Definition init (config : json) (memory_reel : list StageDescriptor)
  : PandoraMemoryEngine :=
  {| collector := Collector.init;
     memory_lines := [];
     breath_cycle_count := 0;
     is_running := false;
     context_window_size := 128000;
     semantic_tags := ["ancestral"; "emotional"; "symbolic"];
     checkpoints := ["genesis"; "awakening"; "reflection"; "5.0"; "5.1"];
     config := config;
     memory_reel := memory_reel |}.

Definition set_collector (c : FloJsonOutputCollector) (e : PandoraMemoryEngine) :=
  mk c (memory_lines e) (breath_cycle_count e) (is_running e)
     (context_window_size e) (semantic_tags e) (checkpoints e) (config e)
     (memory_reel e).

Definition set_memory_lines (ls : list QInfinityMemoryLine) (e : PandoraMemoryEngine) :=
  mk (collector e) ls (breath_cycle_count e) (is_running e)
     (context_window_size e) (semantic_tags e) (checkpoints e) (config e)
     (memory_reel e).

Definition set_breath_cycle_count (n : Z) (e : PandoraMemoryEngine) :=
  mk (collector e) (memory_lines e) n (is_running e)
     (context_window_size e) (semantic_tags e) (checkpoints e) (config e)
     (memory_reel e).

Definition set_is_running (b : bool) (e : PandoraMemoryEngine) :=
  mk (collector e) (memory_lines e) (breath_cycle_count e) b
     (context_window_size e) (semantic_tags e) (checkpoints e) (config e)
     (memory_reel e).

(** The engine together with the world it acts on. *)
Record System : Type := mkSystem {
  engine : PandoraMemoryEngine;
  world : World
}.

(** *** The monad of the engine's methods

    A method takes the system, returns or raises, and leaves a system
    behind in both cases: what was written before an exception stays
    written. *)

Definition M (A : Type) : Type := System -> outcome A * System.

Definition ret {A} (a : A) : M A := fun s => (Returned a, s).

Definition raise {A} (e : exn) : M A := fun s => (Raised e, s).

Definition mbind {A B} (m : M A) (k : A -> M B) : M B :=
  fun s =>
    match m s with
    | (Returned a, s') => k a s'
    | (Raised e, s') => (Raised e, s')
    end.

(** [try: m except Exception as e: h e] *)
Definition try_catch {A} (m : M A) (h : exn -> M A) : M A :=
  fun s =>
    match m s with
    | (Returned a, s') => (Returned a, s')
    | (Raised e, s') => h e s'
    end.

Definition lift {A} (o : outcome A) : M A := fun s => (o, s).

Definition gets {A} (f : PandoraMemoryEngine -> A) : M A :=
  fun s => (Returned (f (engine s)), s).

Definition modify (f : PandoraMemoryEngine -> PandoraMemoryEngine) : M unit :=
  fun s => (Returned tt, mkSystem (f (engine s)) (world s)).

Definition modify_world (f : World -> World) : M unit :=
  fun s => (Returned tt, mkSystem (engine s) (f (world s))).

Definition emit (ev : effect) : M unit :=
  modify_world (fun w =>
    mkWorld (db_pandora_memory w) (files w) (trace w ++ [ev])).

Definition logger (level : log_level) (msg : string) : M unit :=
  emit (ELog level msg).

Declare Scope engine_scope.
Delimit Scope engine_scope with M.
Notation "x <- m ;; k" := (mbind m (fun x => k))
  (at level 100, m at next level, right associativity) : engine_scope.
Notation "m ;; k" := (mbind m (fun _ => k))
  (at level 100, right associativity) : engine_scope.
Local Open Scope engine_scope.

(** [for x in xs: body x] *)
Fixpoint for_each {A} (body : A -> M unit) (xs : list A) : M unit :=
  match xs with
  | [] => ret tt
  | x :: rest => body x ;; for_each body rest
  end.

(** [for i, x in enumerate(xs, start): body i x] *)
Fixpoint for_each_from {A} (body : nat -> A -> M unit) (start : nat)
    (xs : list A) : M unit :=
  match xs with
  | [] => ret tt
  | x :: rest => body start x ;; for_each_from body (S start) rest
  end.

Definition MNT_PATH : string := "/mnt/data/qinfinity_memory.json".
Definition APP_PATH : string := "/app/data/qinfinity_memory.json".

(** The two snapshot targets, in the order the source lists them. *)
Definition snapshot_paths : list string := [MNT_PATH; APP_PATH].

(** [len([line for line in self.memory_lines if tag in line.semantic_tags])] *)
Definition tag_count (tag : string) (ls : list QInfinityMemoryLine) : Z :=
  Z.of_nat (length (List.filter (MemoryLine.has_tag tag) ls)).

Section Runtime.

(** Builtins of the interpreter that the engine calls: [json.loads],
    [str] on a structured value (which can raise, for instance
    [RecursionError] on a deeply nested one) and [str] on the list of
    memory lines (the dataclass [repr]). *)
Variable json_loads : string -> outcome json.
Variable py_str : json -> outcome string.
Variable repr_lines : list QInfinityMemoryLine -> string.

(** [self.collector.collect(data)] *)
Definition collector_collect (data : Collector.collect_input) : M bool :=
  c <- gets collector ;;
  r <- lift (Collector.collect json_loads py_str c data) ;;
  modify (set_collector (snd r)) ;;
  ret (fst r).

(** [self.collector.iter_q(hybrid_mode)] *)
Definition collector_iter_q (hybrid_mode : bool) : M (list json) :=
  c <- gets collector ;;
  r <- lift (Collector.iter_q c hybrid_mode) ;;
  modify (set_collector (snd r)) ;;
  ret (fst r).

(** [self.memory_lines.append(line)] *)
Definition append_line (line : QInfinityMemoryLine) : M unit :=
  modify (fun e => set_memory_lines (memory_lines e ++ [line]) e).

(** The answer to an insert that is under way: the document is stored,
    or the call raises. *)
Definition insert_lands (result : option exn) (doc : QInfinityMemoryLine)
  : M unit :=
  match result with
  | None =>
      modify_world (fun w =>
        mkWorld (db_pandora_memory w ++ [doc]) (files w) (trace w))
  | Some e => raise e
  end.

(** [await self.db.pandora_memory.insert_one(doc)]: the request goes out,
    the caller is suspended, and it resumes with the answer. *)
Definition insert_one (result : option exn) (doc : QInfinityMemoryLine) : M unit :=
  emit (EInsert doc) ;;
  insert_lands result doc.

Definition _persist_memory_line (result : option exn)
    (memory_line : QInfinityMemoryLine) : M unit :=
  try_catch
    (insert_one result memory_line ;;
     logger DEBUG ("Persisted memory line: " +:+ MemoryLine.id memory_line))
    (fun e => logger ERROR ("Error persisting memory line: " +:+ str_exn e)).

(** What [insert_one] adds to the store for a document. *)
Definition stored (result : option exn) (doc : QInfinityMemoryLine)
  : list QInfinityMemoryLine :=
  match result with
  | None => [doc]
  | Some _ => []
  end.

(** The entry that [_persist_memory_line] writes to the log. *)
Definition persist_log (result : option exn) (memory_line : QInfinityMemoryLine)
  : effect :=
  match result with
  | None => ELog DEBUG ("Persisted memory line: " +:+ MemoryLine.id memory_line)
  | Some e => ELog ERROR ("Error persisting memory line: " +:+ str_exn e)
  end.

(** [_persist_memory_line] from the point where its insert is under way
    and the caller is suspended. *)
Definition persist_resume (result : option exn)
    (memory_line : QInfinityMemoryLine) : M unit :=
  try_catch
    (insert_lands result memory_line ;;
     logger DEBUG ("Persisted memory line: " +:+ MemoryLine.id memory_line))
    (fun e => logger ERROR ("Error persisting memory line: " +:+ str_exn e)).

Definition bootstrap_line (tags : list string) (env : line_env)
    (stage_data : StageDescriptor) : QInfinityMemoryLine :=
  {| MemoryLine.id := fresh_id env;
     MemoryLine.timestamp := now env;
     MemoryLine.stage := default EmptyString (sd_stage stage_data);
     MemoryLine.state := default EmptyString (sd_state stage_data);
     MemoryLine.identity := default EmptyString (sd_identity stage_data);
     MemoryLine.memory := default [] (sd_memory stage_data);
     MemoryLine.semantic_tags := tags;
     MemoryLine.hash_value := MemoryLine.default_hash_value;
     MemoryLine.breath_cycle := MemoryLine.default_breath_cycle |}.

(** [bootstrap_memory]; [env i] serves the line made for the descriptor
    at index [i] of the reel. *)
Definition bootstrap_memory (env : nat -> line_env) : M unit :=
  logger INFO "Bootstrapping Pandora memory..." ;;
  reel <- gets memory_reel ;;
  for_each_from
    (fun i stage_data =>
       tags <- gets semantic_tags ;;
       let memory_line := bootstrap_line tags (env i) stage_data in
       append_line memory_line ;;
       _persist_memory_line (insert_result (env i)) memory_line)
    0%nat reel ;;
  n <- gets (fun e => length (memory_lines e)) ;;
  logger INFO ("Bootstrap complete: " +:+ str_int (Z.of_nat n)
               +:+ " memory lines loaded").

(** The lines that [bootstrap_memory] makes from a reel whose first
    descriptor has index [start]. *)
Fixpoint bootstrap_lines (tags : list string) (env : nat -> line_env)
    (start : nat) (reel : list StageDescriptor) : list QInfinityMemoryLine :=
  match reel with
  | [] => []
  | d :: rest =>
      bootstrap_line tags (env start) d :: bootstrap_lines tags env (S start) rest
  end.

Definition set_file (path : string) (c : file_content) : M unit :=
  modify_world (fun w =>
    mkWorld (db_pandora_memory w) (<[path := c]> (files w)) (trace w)).

(** One pass of the loop over the targets: [mkdir], [open(path, 'w')],
    [json.dump]. *)
Definition write_snapshot (env : commit_env) (snapshot_data : Snapshot)
    (path : string) : M unit :=
  emit (EMkdir path) ;;
  match target_result env path with
  | MkdirRaises e => raise e
  | OpenRaises e => emit (EOpen path) ;; raise e
  | DumpRaises e =>
      emit (EOpen path) ;; set_file path Incomplete ;;
      emit (EDump path) ;; raise e
  | WriteOk =>
      emit (EOpen path) ;; set_file path Incomplete ;;
      emit (EDump path) ;; set_file path (Complete snapshot_data)
  end.

Definition snapshot_of (env : commit_env) (e : PandoraMemoryEngine) : Snapshot :=
  {| snap_timestamp := commit_now env;
     snap_breath_cycle := breath_cycle_count e;
     snap_memory_lines := memory_lines e;
     snap_collector_buffer := buffer (collector e);
     snap_config := config e;
     snap_context_window_usage :=
       Z.of_nat (str_len (repr_lines (memory_lines e)));
     snap_semantic_state :=
       [("ancestral", tag_count "ancestral" (memory_lines e));
        ("emotional", tag_count "emotional" (memory_lines e));
        ("symbolic", tag_count "symbolic" (memory_lines e))] |}.

Definition commit_memory_snapshot (env : commit_env) : M bool :=
  try_catch
    (snapshot_data <- gets (snapshot_of env) ;;
     for_each (write_snapshot env snapshot_data) snapshot_paths ;;
     n <- gets (fun e => length (memory_lines e)) ;;
     c <- gets breath_cycle_count ;;
     logger INFO ("Memory snapshot committed: " +:+ str_int (Z.of_nat n)
                  +:+ " lines, cycle " +:+ str_int c) ;;
     ret true)
    (fun e =>
       logger ERROR ("Error committing memory snapshot: " +:+ str_exn e) ;;
       ret false).

(** The dictionary that [promise_then_this_chain] returns on success. *)
Definition promise_result_of (count : Z) (n_lines : nat) (line_id : string) : json :=
  JDict
    [("then", JList
        [JDict [("action", JStr "process_input"); ("result", JStr "data collected")];
         JDict [("action", JStr "apply_qchain"); ("result", JStr "chain resolved")];
         JDict [("action", JStr "braid_memory"); ("result", JStr "memory braided")];
         JDict [("action", JStr "commit_state"); ("result", JStr "state committed")]]);
     ("this", JList
        [JDict [("commit", JStr ("breath_cycle = " +:+ str_int count));
                ("memory", JStr ("runtime " +:+ str_int (Z.of_nat n_lines)
                                 +:+ " lines"))];
         JDict [("commit", JStr "semantic_braid");
                ("memory", JStr "ancestral-emotional-symbolic tags")];
         JDict [("loopback", JStr "promise → this → then → this");
                ("reconciled", JBool true)]]);
     ("final", JDict
        [("resolution", JStr "this.then().then(this).resolve()");
         ("hash", JStr "∞");
         ("status", JStr "fulfilled");
         ("runtime", JStr "persistent");
         ("memory_line_id", JStr line_id)])].

(** The dictionary that it returns from its [except] branch. *)
Definition error_result (e : exn) : json :=
  JDict [("error", JStr (str_exn e)); ("status", JStr "failed")].

Definition promise_then_this_chain (env : line_env) (input_data : json) : M json :=
  try_catch
    (text <- lift (py_str input_data) ;;
     tags <- gets semantic_tags ;;
     count <- gets breath_cycle_count ;;
     let memory_line :=
       {| MemoryLine.id := fresh_id env;
          MemoryLine.timestamp := now env;
          MemoryLine.stage := "promise_chain";
          MemoryLine.state := "processing";
          MemoryLine.identity := "Flo-integrated Nexus";
          MemoryLine.memory :=
            ["Processing input: " +:+ str_slice_to 100 text +:+ "..."];
          MemoryLine.semantic_tags := tags;
          MemoryLine.hash_value := MemoryLine.default_hash_value;
          MemoryLine.breath_cycle := count |} in
     n_lines <- gets (fun e => length (memory_lines e)) ;;
     let promise_result :=
       promise_result_of count n_lines (MemoryLine.id memory_line) in
     collector_collect (Collector.Value promise_result) ;;
     let memory_line := MemoryLine.set_state memory_line "completed" in
     let memory_line :=
       MemoryLine.memory_append memory_line "Promise chain resolved successfully" in
     append_line memory_line ;;
     ret promise_result)
    (fun e =>
       logger ERROR ("Error in promise chain: " +:+ str_exn e) ;;
       ret (error_result e)).

(** The memory line that the tick numbered [count] creates. *)
Definition breath_line (env : line_env) (count : Z) : QInfinityMemoryLine :=
  {| MemoryLine.id := fresh_id env;
     MemoryLine.timestamp := now env;
     MemoryLine.stage := "breath";
     MemoryLine.state := "active_cycle";
     MemoryLine.identity := "Pandora Q Breath";
     MemoryLine.memory :=
       ["Cycle " +:+ str_int count; "Introspective traversal"; "Memory braid sync"];
     MemoryLine.semantic_tags := ["ancestral"];
     MemoryLine.hash_value := MemoryLine.default_hash_value;
     MemoryLine.breath_cycle := count |}.

(** What the environment supplies to one tick. *)
Record tick_env : Type := mkTickEnv {
  tick_line : line_env;
  tick_commit : commit_env
}.

(** The body of the tick up to the call of [_persist_memory_line]:
    increment, log, create, append. *)
Definition tick_issue (env : tick_env) : M QInfinityMemoryLine :=
  modify (fun e => set_breath_cycle_count (breath_cycle_count e + 1) e) ;;
  count <- gets breath_cycle_count ;;
  n <- gets (fun e => length (memory_lines e)) ;;
  logger INFO ("Breath cycle " +:+ str_int count +:+ " - Memory lines: "
               +:+ str_int (Z.of_nat n)) ;;
  let breath_memory := breath_line (tick_line env) count in
  append_line breath_memory ;;
  ret breath_memory.

(** The body of the tick up to the return of [_persist_memory_line]. *)
Definition tick_begin (env : tick_env) : M unit :=
  breath_memory <- tick_issue env ;;
  _persist_memory_line (insert_result (tick_line env)) breath_memory.

(** The rest of the body: the commit every tenth cycle, then the sleep. *)
Definition tick_end (env : tick_env) : M unit :=
  count <- gets breath_cycle_count ;;
  (if count mod 10 =? 0
   then commit_memory_snapshot (tick_commit env) ;; ret tt
   else ret tt) ;;
  emit (ESleep BreathInterval).

(** One pass of the [while] loop of [breath_cycle], with its handler. *)
Definition breath_iteration (env : tick_env) : M unit :=
  try_catch
    (tick_begin env ;; tick_end env)
    (fun e =>
       logger ERROR ("Error in breath cycle: " +:+ str_exn e) ;;
       emit (ESleep Backoff)).

(** [breath_cycle], run for as long as the environment's list of ticks
    lasts and [is_running] holds. *)
Fixpoint breath_cycle (envs : list tick_env) : M unit :=
  match envs with
  | [] => ret tt
  | env :: rest =>
      running <- gets is_running ;;
      if running then breath_iteration env ;; breath_cycle rest
      else ret tt
  end.

(** [start_runtime], up to the creation of the breath task. *)
Definition start_runtime (env : nat -> line_env) : M unit :=
  logger INFO "Starting Pandora 5o runtime..." ;;
  modify (set_is_running true) ;;
  ls <- gets memory_lines ;;
  (match ls with
   | [] => bootstrap_memory env
   | _ :: _ => ret tt
   end) ;;
  logger INFO "Pandora 5o runtime is active".

Definition stop_runtime (env : commit_env) : M unit :=
  logger INFO "Stopping Pandora 5o runtime..." ;;
  modify (set_is_running false) ;;
  commit_memory_snapshot env ;;
  logger INFO "Pandora 5o runtime stopped".

Definition get_runtime_status : M json :=
  e <- gets (fun e => e) ;;
  ret (JDict
    [("status", JStr (if is_running e then "active" else "inactive"));
     ("breath_cycle", JInt (breath_cycle_count e));
     ("memory_lines", JInt (Z.of_nat (length (memory_lines e))));
     ("context_window_usage",
      JStr (str_int (Z.of_nat (str_len (repr_lines (memory_lines e))))
            +:+ "/" +:+ str_int (context_window_size e)));
     ("semantic_distribution", JDict
        [("ancestral", JInt (tag_count "ancestral" (memory_lines e)));
         ("emotional", JInt (tag_count "emotional" (memory_lines e)));
         ("symbolic", JInt (tag_count "symbolic" (memory_lines e)))]);
     ("last_checkpoint",
      JStr (match last (memory_lines e) with
            | Some line => MemoryLine.stage line
            | None => "none"
            end));
     ("collector_buffer_size", JInt (Z.of_nat (length (buffer (collector e)))))]).

(** The memory line that [introspective_traversal] creates. *)
Definition traversal_line (env : line_env) (query : string) (n_items : nat)
    (count : Z) : QInfinityMemoryLine :=
  {| MemoryLine.id := fresh_id env;
     MemoryLine.timestamp := now env;
     MemoryLine.stage := "introspection";
     MemoryLine.state := "traversal_active";
     MemoryLine.identity := "flo_core.mirror";
     MemoryLine.memory :=
       ["Query: " +:+ query;
        "Traversed " +:+ str_int (Z.of_nat n_items) +:+ " items";
        "Marshmallow logic applied"];
     MemoryLine.semantic_tags := ["emotional"; "symbolic"];
     MemoryLine.hash_value := MemoryLine.default_hash_value;
     MemoryLine.breath_cycle := count |}.

(** [traversal_result[-10:] if len(traversal_result) > 10 else traversal_result] *)
Definition last_ten (traversal_result : list json) : list json :=
  if (10 <? length traversal_result)%nat
  then slice_from traversal_result (-10)
  else traversal_result.

Definition introspective_traversal (env : line_env) (query : string) : M json :=
  logger INFO ("Performing introspective traversal: " +:+ query) ;;
  traversal_result <- collector_iter_q true ;;
  count <- gets breath_cycle_count ;;
  let traversal_memory :=
    traversal_line env query (length traversal_result) count in
  append_line traversal_memory ;;
  _persist_memory_line (insert_result env) traversal_memory ;;
  count' <- gets breath_cycle_count ;;
  ret (JDict
    [("query", JStr query);
     ("traversal_items", JInt (Z.of_nat (length traversal_result)));
     ("memory_line_id", JStr (MemoryLine.id traversal_memory));
     ("breath_cycle", JInt count');
     ("results", JList (last_ten traversal_result))]).

End Runtime.

End Engine.

(** ** Schedules: ticks interleaved with on-demand operations

    The breath task and the request handlers share one thread of control.
    A tick yields twice: inside [_persist_memory_line], while its insert
    is under way, and in its sleep.  A round is one tick together with the
    operations that run at these points.  Nothing orders the tick's
    insert and the insert of an operation that starts while it is under
    way: the operations in [racing] reach the store before the tick's
    document, those in [during] after it.  An operation itself runs as
    one step. *)

Module Schedule.

Import Engine.
Local Open Scope engine_scope.

Inductive op : Type :=
| OpPromise (env : line_env) (input_data : json)
| OpTraverse (env : line_env) (query : string)
| OpCommit (env : commit_env)
| OpStatus.

Record round : Type := mkRound {
  before : list op;      (* while the task sleeps *)
  round_tick : tick_env;
  racing : list op;      (* while the insert is under way *)
  during : list op       (* after its answer, before the task resumes *)
}.

(** The calls of [commit_memory_snapshot] that a trace records: each call
    starts its writes with [mkdir] for the first target, and nothing else
    touches that path. *)
Definition is_commit_start (ev : effect) : bool :=
  match ev with
  | EMkdir path => String.eqb path MNT_PATH
  | _ => false
  end.

Definition commit_invocations (tr : list effect) : nat :=
  length (List.filter is_commit_start tr).

(** The writes that a trace attempts on one target. *)
Definition is_attempt (path : string) (ev : effect) : bool :=
  match ev with
  | EMkdir p => String.eqb p path
  | _ => false
  end.

Definition attempted (path : string) (tr : list effect) : bool :=
  existsb (is_attempt path) tr.

Definition is_breath (l : QInfinityMemoryLine) : bool :=
  String.eqb (MemoryLine.stage l) "breath".

(** The ticks numbered [first], [first + 1], ... create these lines. *)
Fixpoint breath_lines (first : Z) (envs : list tick_env)
  : list QInfinityMemoryLine :=
  match envs with
  | [] => []
  | env :: rest =>
      breath_line (tick_line env) first :: breath_lines (first + 1) rest
  end.

(** The lines of these ticks that reach the store: those whose insert
    does not raise. *)
Fixpoint stored_breath_lines (first : Z) (envs : list tick_env)
  : list QInfinityMemoryLine :=
  match envs with
  | [] => []
  | env :: rest =>
      stored (insert_result (tick_line env)) (breath_line (tick_line env) first)
      ++ stored_breath_lines (first + 1) rest
  end.

(** What an on-demand operation may change: it leaves the cycle counter
    and the breath lines alone, in the ledger and in the store, and it
    takes no commit back. *)
Definition op_step (s s' : System) : Prop :=
  breath_cycle_count (engine s') = breath_cycle_count (engine s) /\
  List.filter is_breath (memory_lines (engine s'))
  = List.filter is_breath (memory_lines (engine s)) /\
  (commit_invocations (trace (world s))
   <= commit_invocations (trace (world s')))%nat /\
  List.filter is_breath (db_pandora_memory (world s'))
  = List.filter is_breath (db_pandora_memory (world s)).

(** A world in which nothing has happened yet. *)
Definition empty_world : World := mkWorld [] ∅ [].

(** An environment in which the directory of the first snapshot target
    cannot be created and the second target is writable. *)
Definition first_target_unwritable : commit_env :=
  mkCommitEnv "2026-01-01T00:00:00+00:00"
    (fun path =>
       if String.eqb path MNT_PATH
       then MkdirRaises
              (Exception "PermissionError"
                 "[Errno 13] Permission denied: '/mnt/data'")
       else WriteOk).

Section Runtime.

Variable json_loads : string -> outcome json.
Variable py_str : json -> outcome string.
Variable repr_lines : list QInfinityMemoryLine -> string.

Definition run_op (o : op) : M unit :=
  match o with
  | OpPromise env input_data =>
      promise_then_this_chain json_loads py_str env input_data ;; ret tt
  | OpTraverse env query => introspective_traversal env query ;; ret tt
  | OpCommit env => commit_memory_snapshot repr_lines env ;; ret tt
  | OpStatus => get_runtime_status repr_lines ;; ret tt
  end.

Definition run_round (r : round) : M unit :=
  for_each run_op (before r) ;;
  breath_memory <- tick_issue (round_tick r) ;;
  emit (EInsert breath_memory) ;;
  for_each run_op (racing r) ;;
  persist_resume (insert_result (tick_line (round_tick r))) breath_memory ;;
  for_each run_op (during r) ;;
  tick_end repr_lines (round_tick r).

Definition run_rounds (rs : list round) : M unit := for_each run_round rs.

End Runtime.

End Schedule.

(** ** The loaders of the configuration and of the memory reel *)

Module Loader.

Import Engine.
Local Open Scope engine_scope.

(** What the file system answers for one path: [Path.exists()], and the
    text that [open] and reading the file give. *)
Record file_env : Type := mkFileEnv {
  path_exists : outcome bool;
  file_text : outcome string
}.

Definition no_len (type_name : string) : exn :=
  Exception "TypeError" ("object of type '" +:+ type_name +:+ "' has no len()").

(** [len(x)] on a parsed document: strings, lists and dictionaries have a
    length, the other values raise. *)
Definition py_len (v : json) : outcome Z :=
  match v with
  | JStr s => Returned (Z.of_nat (str_len s))
  | JList items => Returned (Z.of_nat (length items))
  | JDict pairs => Returned (Z.of_nat (length pairs))
  | JNull => Raised (no_len "NoneType")
  | JBool _ => Raised (no_len "bool")
  | JInt _ => Raised (no_len "int")
  | JFloat _ => Raised (no_len "float")
  end.

Section Parsers.

(** The two parsers: [json.load] and [yaml.safe_load], on the text of the
    file. *)
Variable json_loads : string -> outcome json.
Variable yaml_safe_load : string -> outcome json.

Definition _load_this_then_config (env : file_env) : M json :=
  try_catch
    (present <- lift (path_exists env) ;;
     if (present : bool) then
       text <- lift (file_text env) ;;
       config <- lift (yaml_safe_load text) ;;
       logger INFO "Loaded this-then.yaml configuration" ;;
       ret config
     else
       logger WARNING "this-then.yaml not found, using default config" ;;
       ret (JDict []))
    (fun e =>
       logger ERROR ("Error loading this-then.yaml: " +:+ str_exn e) ;;
       ret (JDict [])).

Definition _load_memory_reel (env : file_env) : M json :=
  try_catch
    (present <- lift (path_exists env) ;;
     if (present : bool) then
       text <- lift (file_text env) ;;
       reel <- lift (json_loads text) ;;
       n <- lift (py_len reel) ;;
       logger INFO ("Loaded memory reel with " +:+ str_int n +:+ " stages") ;;
       ret reel
     else
       logger WARNING "pandora_memory_reel.json not found" ;;
       ret (JList []))
    (fun e =>
       logger ERROR ("Error loading memory reel: " +:+ str_exn e) ;;
       ret (JList [])).

End Parsers.

End Loader.

(** ** What every operation keeps: the ledger, the buffer and the store
    only grow *)

Module Growth.

Import Engine.

(** The tags that the source ever writes on a line. *)
Definition vocabulary : list string := ["ancestral"; "emotional"; "symbolic"].

Definition tags_within (allowed : list string) (l : QInfinityMemoryLine) : Prop :=
  forall t, t ∈ MemoryLine.semantic_tags l -> t ∈ allowed.

(** The fields that are set once, in [__init__]. *)
Definition same_settings (e e' : PandoraMemoryEngine) : Prop :=
  config e' = config e /\
  memory_reel e' = memory_reel e /\
  semantic_tags e' = semantic_tags e /\
  checkpoints e' = checkpoints e /\
  context_window_size e' = context_window_size e /\
  strict_mode (collector e') = strict_mode (collector e) /\
  comment_strip (collector e') = comment_strip (collector e) /\
  reverse_order (collector e') = reverse_order (collector e).

(** From [s] to [s']: lines were only appended to the ledger, items only
    appended to the buffer, documents only appended to the store, each
    stored document being one of the new lines; the new lines carry tags
    of the vocabulary or of [semantic_tags]; the settings are the same
    and the cycle counter did not go back. *)
Definition grows (s s' : System) : Prop :=
  same_settings (engine s) (engine s') /\
  breath_cycle_count (engine s) <= breath_cycle_count (engine s') /\
  (exists items,
     buffer (collector (engine s')) = buffer (collector (engine s)) ++ items) /\
  exists new stored,
    memory_lines (engine s') = memory_lines (engine s) ++ new /\
    db_pandora_memory (world s') = db_pandora_memory (world s) ++ stored /\
    (forall d, d ∈ stored -> d ∈ new) /\
    Forall (tags_within (vocabulary ++ semantic_tags (engine s))) new.

(** The part of [grows] that a caller sees: the ledger, the buffer and
    the store kept what they had, as their front part, and the settings
    are the same. *)
Definition appends_only (s s' : System) : Prop :=
  memory_lines (engine s) `prefix_of` memory_lines (engine s') /\
  buffer (collector (engine s)) `prefix_of` buffer (collector (engine s')) /\
  db_pandora_memory (world s) `prefix_of` db_pandora_memory (world s') /\
  same_settings (engine s) (engine s').

(** What one snapshot target holds after a write with the given fate. *)
Definition file_after (r : write_result) (snap : Snapshot)
    (before : option file_content) : option file_content :=
  match r with
  | WriteOk => Some (Complete snap)
  | DumpRaises _ => Some Incomplete
  | MkdirRaises _ | OpenRaises _ => before
  end.

Definition is_insert (ev : effect) : bool :=
  match ev with
  | EInsert _ => true
  | _ => false
  end.

(** The engine that [start_runtime] leaves: running, and bootstrapped
    from the reel if its ledger was empty. *)
Definition started (env : nat -> line_env) (e : PandoraMemoryEngine)
  : PandoraMemoryEngine :=
  match memory_lines e with
  | [] =>
      set_memory_lines
        (bootstrap_lines (semantic_tags e) env 0 (memory_reel e))
        (set_is_running true e)
  | _ :: _ => set_is_running true e
  end.

(** The operation always returns, and the system grows through it. *)
Definition keeps {A} (m : M A) : Prop :=
  forall s, exists a s', m s = (Returned a, s') /\ grows s s'.

(** Every document of the store is a line of the ledger. *)
Definition store_mirrors_ledger (s : System) : Prop :=
  forall d,
    d ∈ db_pandora_memory (world s) -> d ∈ memory_lines (engine s).

End Growth.

(** ** The request handlers of [server.py] *)

Module Server.

Import Engine.
Local Open Scope engine_scope.

(** [fastapi.HTTPException] *)
Inductive http_exn : Type :=
| HTTPException (status_code : Z) (detail : string).

(** What the body of a handler can raise: an exception of the engine or
    an [HTTPException] of its own. *)
Inductive raised : Type :=
| EngineError (e : exn)
| HttpError (h : http_exn).

(** A handler body, and a handler as the framework sees it. *)
Definition H (A : Type) : Type := System -> (raised + A) * System.
Definition handler : Type := System -> (http_exn + json) * System.

Definition of_engine {A} (m : M A) : H A :=
  fun s =>
    match m s with
    | (Returned a, s') => (inr a, s')
    | (Raised e, s') => (inl (EngineError e), s')
    end.

Definition hbind {A B} (m : H A) (k : A -> H B) : H B :=
  fun s =>
    match m s with
    | (inr a, s') => k a s'
    | (inl r, s') => (inl r, s')
    end.

Definition hret {A} (a : A) : H A := fun s => (inr a, s).

(** [raise HTTPException(status_code=..., detail=...)] *)
Definition hraise {A} (status_code : Z) (detail : string) : H A :=
  fun s => (inl (HttpError (HTTPException status_code detail)), s).

(** [QInfinityMemoryLine.to_dict] *)
Definition to_dict (l : QInfinityMemoryLine) : json :=
  JDict
    [("id", JStr (MemoryLine.id l));
     ("timestamp", JStr (MemoryLine.timestamp l));
     ("stage", JStr (MemoryLine.stage l));
     ("state", JStr (MemoryLine.state l));
     ("identity", JStr (MemoryLine.identity l));
     ("memory", JList (map JStr (MemoryLine.memory l)));
     ("semantic_tags", JList (map JStr (MemoryLine.semantic_tags l)));
     ("hash_value", JStr (MemoryLine.hash_value l));
     ("breath_cycle", JInt (MemoryLine.breath_cycle l))].

Section Handlers.

Variable json_loads : string -> outcome json.
Variable py_str : json -> outcome string.
Variable repr_lines : list QInfinityMemoryLine -> string.

(** [str(e)] for an [HTTPException], which depends on the version of the
    framework. *)
Variable str_http : http_exn -> string.

Definition str_raised (r : raised) : string :=
  match r with
  | EngineError e => str_exn e
  | HttpError h => str_http h
  end.

(** [try: body except Exception as e:
     raise HTTPException(status_code=500, detail=prefix + str(e))] *)
Definition guarded (prefix : string) (body : H json) : handler :=
  fun s =>
    match body s with
    | (inr a, s') => (inr a, s')
    | (inl r, s') => (inl (HTTPException 500 (prefix +:+ str_raised r)), s')
    end.

Definition get_pandora_status : handler :=
  guarded "Status retrieval error: " (of_engine (get_runtime_status repr_lines)).

Definition stop_pandora_runtime (env : commit_env) : handler :=
  guarded "Runtime stop error: "
    (hbind (of_engine (stop_runtime repr_lines env)) (fun _ =>
     hret (JDict [("status", JStr "stopped");
                  ("message", JStr "Pandora 5o runtime has been stopped");
                  ("final_snapshot", JStr "committed")]))).

Definition pandora_query (env : line_env) (query action : string) : handler :=
  guarded "Query error: "
    (if String.eqb action "introspect" then
       of_engine (introspective_traversal env query)
     else if String.eqb action "status" then
       of_engine (get_runtime_status repr_lines)
     else hraise 400 ("Unknown action: " +:+ action)).

Definition pandora_promise_chain (env : line_env) (data : json) : handler :=
  guarded "Promise chain error: "
    (of_engine (promise_then_this_chain json_loads py_str env data)).

Definition get_pandora_memory (limit : Z) : handler :=
  guarded "Memory retrieval error: "
    (of_engine
       (lines <- gets memory_lines ;;
        let recent_lines :=
          if limit <? Z.of_nat (length lines)
          then slice_from lines (- limit) else lines in
        ret (JDict
          [("total_memory_lines", JInt (Z.of_nat (length lines)));
           ("returned_lines", JInt (Z.of_nat (length recent_lines)));
           ("memory_lines", JList (map to_dict recent_lines))]))).

Definition commit_pandora_snapshot (env : commit_env) : handler :=
  guarded "Snapshot error: "
    (hbind (of_engine (commit_memory_snapshot repr_lines env)) (fun success =>
     if (success : bool) then
       hret (JDict [("status", JStr "committed");
                    ("message", JStr "Memory snapshot committed successfully");
                    ("location", JStr "/mnt/data/qinfinity_memory.json")])
     else hraise 500 "Snapshot commit failed")).

End Handlers.

End Server.

(** ** Predicates on texts *)

Module Text.

(** The text has no occurrence of the comment marker. *)
Definition slash_free (s : string) : Prop := str_find "//" s = None.

(** The text has no line break. *)
Fixpoint newline_free (s : string) : bool :=
  match s with
  | EmptyString => true
  | String c rest => negb (Ascii.eqb c newline) && newline_free rest
  end.

Definition starts_with_slash (s : string) : bool :=
  match s with
  | String c _ => Ascii.eqb c "/"%char
  | EmptyString => false
  end.

End Text.

(** * Properties *)

(** ** Texts, lines and comment markers *)

Module TextFacts.

Import Collector Text.

(** [s[:k]] is the front part of [s] and has [min(k, len(s))]
    characters, whatever number of bytes they take. *)
Lemma str_slice_to_prefix (k : nat) (s : string) :
  exists rest, s = str_slice_to k s +:+ rest.
Proof.
  revert k. induction s as [|c s IH]; intros k; [exists EmptyString; reflexivity|].
  cbn [str_slice_to]. destruct (is_continuation c).
  - destruct (IH k) as [rest E]. exists rest.
    change (String c (str_slice_to k s) +:+ rest)
      with (String c (str_slice_to k s +:+ rest)).
    rewrite <- E. reflexivity.
  - destruct k as [|k]; [exists (String c s); reflexivity|].
    destruct (IH k) as [rest E]. exists rest.
    change (String c (str_slice_to k s) +:+ rest)
      with (String c (str_slice_to k s +:+ rest)).
    rewrite <- E. reflexivity.
Qed.

Lemma str_slice_to_len (k : nat) (s : string) :
  str_len (str_slice_to k s) = Nat.min k (str_len s).
Proof.
  revert k. induction s as [|c s IH]; intros k; [destruct k; reflexivity|].
  cbn [str_slice_to str_len]. destruct (is_continuation c) eqn:Hc.
  - cbn [str_len]. rewrite Hc. apply IH.
  - destruct k as [|k]; [reflexivity|].
    cbn [str_len]. rewrite Hc, IH. reflexivity.
Qed.

(** Three characters of three bytes each, cut after the second. *)
Example str_slice_to_example :
  str_slice_to 2 "∞∞∞" = "∞∞" /\
  str_len "∞∞∞" = 3%nat /\
  String.length (str_slice_to 2 "∞∞∞") = 6%nat.
Proof. repeat split; reflexivity. Qed.

Lemma find_slashes_cons (c : ascii) (rest : string) :
  str_find "//" (String c rest)
  = if String.prefix "//" (String c rest) then Some 0%nat
    else S <$> str_find "//" rest.
Proof. reflexivity. Qed.

Lemma prefix_cons (a b : ascii) (s1 s2 : string) :
  String.prefix (String a s1) (String b s2)
  = if ascii_dec a b then String.prefix s1 s2 else false.
Proof. reflexivity. Qed.

Lemma prefix_empty (s : string) : String.prefix EmptyString s = true.
Proof. destruct s; reflexivity. Qed.

Lemma slash_dec_eqb (a : ascii) (x y : bool) :
  (if ascii_dec "/" a then x else y) = if Ascii.eqb a "/"%char then x else y.
Proof.
  destruct (ascii_dec "/" a) as [<-|Hne].
  - rewrite Ascii.eqb_refl. reflexivity.
  - replace (Ascii.eqb a "/"%char) with false; [reflexivity|].
    symmetry. apply Ascii.eqb_neq. congruence.
Qed.

Lemma prefix_slashes_cons (c : ascii) (rest : string) :
  String.prefix "//" (String c rest)
  = Ascii.eqb c "/"%char && starts_with_slash rest.
Proof.
  rewrite prefix_cons, slash_dec_eqb.
  destruct rest as [|b rest].
  - destruct (Ascii.eqb c "/"%char); reflexivity.
  - rewrite prefix_cons, slash_dec_eqb, prefix_empty.
    cbn [starts_with_slash].
    destruct (Ascii.eqb c "/"%char), (Ascii.eqb b "/"%char); reflexivity.
Qed.

Lemma slash_free_cons (c : ascii) (rest : string) :
  slash_free (String c rest) <->
  Ascii.eqb c "/"%char && starts_with_slash rest = false /\ slash_free rest.
Proof.
  unfold slash_free. rewrite find_slashes_cons, prefix_slashes_cons.
  destruct (Ascii.eqb c "/"%char && starts_with_slash rest).
  - split; [discriminate | intros [? _]; discriminate].
  - destruct (str_find "//" rest); cbn; split;
      try (intros [_ ?]); try intros ?; try discriminate; auto.
Qed.

Lemma starts_with_slash_substring (k : nat) (s : string) :
  starts_with_slash (String.substring 0 k s) = true ->
  starts_with_slash s = true.
Proof. destruct k, s; cbn; auto; discriminate. Qed.

(** A stripped line has no comment marker left. *)
Lemma strip_line_slash_free (line : string) : slash_free (strip_line line).
Proof.
  induction line as [|c rest IH]; [reflexivity|].
  unfold strip_line in *. rewrite find_slashes_cons, prefix_slashes_cons.
  destruct (Ascii.eqb c "/"%char && starts_with_slash rest) eqn:P;
    [reflexivity|].
  destruct (str_find "//" rest) as [k|] eqn:F; cbn [fmap option_fmap option_map].
  - unfold str_prefix in *. cbn [String.substring].
    apply slash_free_cons. split; [|exact IH].
    destruct (Ascii.eqb c "/"%char); [|reflexivity]. cbn in *.
    destruct (starts_with_slash (String.substring 0 k rest)) eqn:S;
      [|reflexivity].
    apply starts_with_slash_substring in S. congruence.
  - apply slash_free_cons. split; [exact P|exact F].
Qed.

Lemma strip_line_id (line : string) : slash_free line -> strip_line line = line.
Proof. unfold slash_free, strip_line. intros ->. reflexivity. Qed.

(** Lines, joined and split again. *)

Lemma split_lines_nonempty (s : string) : split_lines s <> [].
Proof.
  destruct s as [|c rest]; cbn; [discriminate|].
  destruct (Ascii.eqb c newline); [discriminate|].
  destruct (split_lines rest); discriminate.
Qed.

Lemma join_split_lines (s : string) : join_lines (split_lines s) = s.
Proof.
  unfold join_lines. induction s as [|c rest IH]; [reflexivity|].
  cbn [split_lines]. destruct (Ascii.eqb_spec c newline) as [->|Hc].
  - pose proof (split_lines_nonempty rest) as Hne.
    destruct (split_lines rest) as [|l ls]; [congruence|].
    cbn [String.concat] in *. rewrite IH. reflexivity.
  - pose proof (split_lines_nonempty rest) as Hne.
    destruct (split_lines rest) as [|l ls]; [congruence|].
    destruct ls as [|l' ls]; cbn [String.concat] in *; rewrite <- IH;
      reflexivity.
Qed.

Lemma split_lines_newline_free (s : string) :
  Forall (fun l => newline_free l = true) (split_lines s).
Proof.
  induction s as [|c rest IH]; [repeat constructor|].
  cbn [split_lines]. destruct (Ascii.eqb c newline) eqn:Hc.
  - constructor; [reflexivity | exact IH].
  - destruct (split_lines rest) as [|l ls]; [repeat constructor; cbn; rewrite Hc; reflexivity|].
    inversion IH; subst. constructor; [|assumption].
    cbn. rewrite Hc. assumption.
Qed.

Lemma split_newline_free (s : string) :
  newline_free s = true -> split_lines s = [s].
Proof.
  induction s as [|c rest IH]; [reflexivity|].
  cbn. destruct (Ascii.eqb c newline); [discriminate|]. cbn.
  intros H. rewrite (IH H). reflexivity.
Qed.

Lemma split_lines_app (x rest : string) :
  newline_free x = true ->
  split_lines (x ++ String newline rest)%string = x :: split_lines rest.
Proof.
  induction x as [|c x IH]; intros H.
  - reflexivity.
  - cbn in H.
    change (String c x +:+ String newline rest)
      with (String c (x +:+ String newline rest)).
    cbn [split_lines].
    destruct (Ascii.eqb c newline); [discriminate|]. cbn in H.
    rewrite (IH H). reflexivity.
Qed.

Lemma join_lines_two (x y : string) (ls : list string) :
  join_lines (x :: y :: ls) = (x +:+ String newline (join_lines (y :: ls))).
Proof. reflexivity. Qed.

Lemma split_join_lines (ls : list string) :
  ls <> [] ->
  Forall (fun l => newline_free l = true) ls ->
  split_lines (join_lines ls) = ls.
Proof.
  induction ls as [|x ls IH]; [congruence|].
  intros _ HF. inversion HF as [|? ? Hx Hls]; subst.
  destruct ls as [|y ls]; [apply split_newline_free; exact Hx|].
  rewrite join_lines_two, split_lines_app by exact Hx.
  rewrite IH; [reflexivity | discriminate | exact Hls].
Qed.

Lemma substring_newline_free (k : nat) (s : string) :
  newline_free s = true -> newline_free (String.substring 0 k s) = true.
Proof.
  revert k. induction s as [|c s IH]; intros [|k] H; try reflexivity.
  cbn in *. apply andb_true_iff in H as [Hc Hs].
  rewrite Hc. cbn. apply IH. exact Hs.
Qed.

Lemma strip_line_newline_free (line : string) :
  newline_free line = true -> newline_free (strip_line line) = true.
Proof.
  intros H. unfold strip_line. destruct (str_find "//" line); [|exact H].
  apply substring_newline_free. exact H.
Qed.

Lemma stripped_lines_split (text : string) :
  split_lines (join_lines (map strip_line (split_lines text)))
  = map strip_line (split_lines text).
Proof.
  apply split_join_lines.
  - pose proof (split_lines_nonempty text).
    destruct (split_lines text); [congruence | discriminate].
  - apply Forall_map. eapply Forall_impl; [apply split_lines_newline_free|].
    intros l. apply strip_line_newline_free.
Qed.

(** Joining lines without a marker gives a text without a marker. *)
Lemma slash_free_join_two (a b : string) :
  slash_free a -> slash_free b ->
  slash_free (a ++ String newline b)%string.
Proof.
  intros Ha Hb. induction a as [|c a IH].
  - change (EmptyString +:+ String newline b) with (String newline b).
    apply slash_free_cons. split; [reflexivity|exact Hb].
  - apply slash_free_cons in Ha as [P Ha].
    change (String c a +:+ String newline b)
      with (String c (a +:+ String newline b)).
    apply slash_free_cons. split; [|exact (IH Ha)].
    destruct (Ascii.eqb c "/"%char); [|reflexivity]. cbn [andb] in *.
    destruct a; [reflexivity | exact P].
Qed.

Lemma slash_free_join (ls : list string) :
  Forall slash_free ls -> slash_free (join_lines ls).
Proof.
  induction ls as [|x ls IH]; intros HF; [reflexivity|].
  inversion HF as [|? ? Hx Hls]; subst.
  destruct ls as [|y ls]; [exact Hx|].
  rewrite join_lines_two.
  apply slash_free_join_two; [exact Hx | exact (IH Hls)].
Qed.

Lemma split_lines_head (c : ascii) (s line : string) (lines : list string) :
  split_lines s = String c line :: lines -> exists r, s = String c r.
Proof.
  destruct s as [|b rest]; cbn; [discriminate|].
  destruct (Ascii.eqb b newline); [discriminate|].
  destruct (split_lines rest); intros H; injection H as -> _ _; eauto.
Qed.

Lemma split_lines_slash_free (s : string) :
  slash_free s -> Forall slash_free (split_lines s).
Proof.
  induction s as [|c rest IH]; intros H; [repeat constructor|].
  apply slash_free_cons in H as [P Hrest]. specialize (IH Hrest).
  cbn [split_lines]. destruct (Ascii.eqb c newline).
  - constructor; [reflexivity | exact IH].
  - destruct (split_lines rest) as [|line lines] eqn:Hs.
    + constructor; [|constructor]. apply slash_free_cons. split; [|reflexivity].
      destruct (Ascii.eqb c "/"%char); reflexivity.
    + inversion IH as [|? ? Hl Hls]; subst. constructor; [|exact Hls].
      apply slash_free_cons. split; [|exact Hl].
      destruct (Ascii.eqb c "/"%char); [|reflexivity]. cbn in *.
      destruct line as [|b line]; [reflexivity|].
      destruct (split_lines_head _ _ _ _ Hs) as [r ->]. exact P.
Qed.

(** A text without a marker is left as it is. *)
Lemma strip_comments_slash_free (self : FloJsonOutputCollector) (text : string) :
  slash_free text -> strip_comments self text = text.
Proof.
  intros H. unfold strip_comments. destruct (comment_strip self); [|reflexivity].
  cbn [negb]. rewrite <- (join_split_lines text) at 2. f_equal.
  pose proof (split_lines_slash_free text H) as HF.
  induction HF as [|l ls Hl _ IH]; [reflexivity|].
  cbn [map]. rewrite (strip_line_id l Hl), IH. reflexivity.
Qed.

Lemma open_brackets_slash_free (n : nat) : slash_free (Json.open_brackets n).
Proof.
  induction n as [|n IH]; [reflexivity|].
  change (Json.open_brackets (S n)) with (String "["%char (Json.open_brackets n)).
  apply slash_free_cons. split; [reflexivity | exact IH].
Qed.

End TextFacts.

(** ** The ingestion buffer *)

Module CollectorFacts.

Import TextFacts.

Import Collector.

(** The recursive equation of the hybrid loop: test, read, append, step. *)
Lemma iter_q_loop_unfold (self : FloJsonOutputCollector) idx result :
  iter_q_loop self idx result =
  if iter_q_cond self idx then
    match getitem (buffer self) idx with
    | Returned item => iter_q_loop self (iter_q_next self idx) (result ++ [item])
    | Raised e => Raised e
    end
  else Returned result.
Proof.
  rewrite iter_q_loop_equation_1.
  remember (if iter_q_cond self idx then _ else _) as rhs eqn:Hrhs.
  destruct (inspect (iter_q_cond self idx)) as [[] H]; simpl.
  - destruct (getitem (buffer self) idx) eqn:G; simpl; subst rhs;
      rewrite H; reflexivity.
  - subst rhs. rewrite H. reflexivity.
Qed.

Lemma getitem_lookup {A} (l : list A) (i : nat) x :
  l !! i = Some x -> getitem l (Z.of_nat i) = Returned x.
Proof.
  intros H. unfold getitem.
  pose proof (lookup_lt_Some _ _ _ H) as Hlt.
  destruct (Z.ltb_spec (Z.of_nat i) 0); [lia|].
  destruct (Z.leb_spec 0 (Z.of_nat i)); [|lia].
  destruct (Z.ltb_spec (Z.of_nat i) (Z.of_nat (length l))); [|lia].
  simpl. rewrite Nat2Z.id, H. reflexivity.
Qed.

(** Forward traversal: with [k] items left, the loop appends them in
    buffer order and stops. *)
Lemma iter_q_loop_forward (self : FloJsonOutputCollector) (k : nat) result :
  reverse_order self = false ->
  (k <= length (buffer self))%nat ->
  iter_q_loop self (Z.of_nat (length (buffer self) - k)) result
  = Returned (result ++ drop (length (buffer self) - k) (buffer self)).
Proof.
  intros Hr. revert result. induction k as [|k IH]; intros result Hk.
  - rewrite iter_q_loop_unfold. unfold iter_q_cond. rewrite Hr.
    destruct (Z.ltb_spec (Z.of_nat (length (buffer self) - 0))
                (Z.of_nat (length (buffer self)))); [lia|].
    rewrite Nat.sub_0_r, drop_all, app_nil_r. reflexivity.
  - rewrite iter_q_loop_unfold. unfold iter_q_cond, iter_q_next. rewrite Hr.
    destruct (Z.ltb_spec (Z.of_nat (length (buffer self) - S k))
                (Z.of_nat (length (buffer self)))); [|lia].
    destruct (lookup_lt_is_Some_2 (buffer self) (length (buffer self) - S k))
      as [x Hx]; [lia|].
    rewrite (getitem_lookup _ _ _ Hx).
    replace (Z.of_nat (length (buffer self) - S k) + 1)
      with (Z.of_nat (length (buffer self) - k)) by lia.
    rewrite IH by lia.
    rewrite (drop_S _ _ _ Hx).
    replace (S (length (buffer self) - S k))
      with (length (buffer self) - k)%nat by lia.
    rewrite <- app_assoc. reflexivity.
Qed.

(** Backward traversal: from index [k - 1] the loop appends the first [k]
    items in reverse and stops. *)
Lemma iter_q_loop_backward (self : FloJsonOutputCollector) (k : nat) result :
  reverse_order self = true ->
  (k <= length (buffer self))%nat ->
  iter_q_loop self (Z.of_nat k - 1) result
  = Returned (result ++ rev (take k (buffer self))).
Proof.
  intros Hr. revert result. induction k as [|k IH]; intros result Hk.
  - rewrite iter_q_loop_unfold. unfold iter_q_cond. rewrite Hr.
    simpl. rewrite app_nil_r. reflexivity.
  - rewrite iter_q_loop_unfold. unfold iter_q_cond, iter_q_next. rewrite Hr.
    destruct (Z.leb_spec 0 (Z.of_nat (S k) - 1)); [|lia].
    destruct (lookup_lt_is_Some_2 (buffer self) k) as [x Hx]; [lia|].
    replace (Z.of_nat (S k) - 1) with (Z.of_nat k) by lia.
    rewrite (getitem_lookup _ _ _ Hx).
    rewrite IH by lia.
    rewrite (take_S_r _ _ _ Hx), rev_app_distr. simpl.
    rewrite <- app_assoc. reflexivity.
Qed.

(** The hybrid path returns the buffer in the configured direction and
    leaves the collector untouched. *)
Lemma iter_q_hybrid_returns (self : FloJsonOutputCollector) :
  iter_q self true
  = Returned (if reverse_order self then rev (buffer self) else buffer self,
              self).
Proof.
  unfold iter_q. simpl.
  destruct (reverse_order self) eqn:Hr.
  - rewrite (iter_q_loop_backward self (length (buffer self)) [] Hr) by lia.
    rewrite firstn_all. reflexivity.
  - pose proof (iter_q_loop_forward self (length (buffer self)) [] Hr) as H.
    rewrite Nat.sub_diag in H. change (Z.of_nat 0) with 0 in H.
    rewrite H by lia. reflexivity.
Qed.

(** C2.  For every collector (any buffer, either [reverse_order]), the
    hybrid [while] traversal and the direct path of [iter_q] both return,
    they return the same sequence (the buffer reversed when
    [reverse_order] is set, the buffer itself otherwise), and both leave
    the collector as it was. *)
Theorem iter_q_hybrid_equals_direct (self : FloJsonOutputCollector) :
  exists items,
    iter_q self true = Returned (items, self) /\
    iter_q self false = Returned (items, self) /\
    items = if reverse_order self then rev (buffer self) else buffer self.
Proof.
  eexists. split; [apply iter_q_hybrid_returns|].
  split; reflexivity.
Qed.

Lemma slice_from_neg {A} (l : list A) (depth : Z) :
  0 < depth ->
  slice_from l (- depth)
  = drop (length l - Nat.min (Z.to_nat depth) (length l)) l.
Proof.
  intros Hd. unfold slice_from, slice_bound.
  destruct (Z.ltb_spec (- depth) 0); [|lia].
  f_equal. lia.
Qed.

(** C6.  [fetch(depth)] returns the empty list when [depth <= 0] and when
    the buffer is empty; with [reverse_order] set and [depth > 0] it
    returns the last [min(depth, M)] elements of a buffer of size [M], in
    buffer order (the buffer is some older part followed by exactly the
    fetched items); and in every case the collector is left as it was. *)
Theorem fetch_spec (self : FloJsonOutputCollector) (depth : Z) :
  (depth <= 0 \/ buffer self = [] -> fst (fetch self depth) = []) /\
  (reverse_order self = true -> 0 < depth ->
   exists older,
     buffer self = older ++ fst (fetch self depth) /\
     length (fst (fetch self depth))
     = Nat.min (Z.to_nat depth) (length (buffer self))) /\
  snd (fetch self depth) = self.
Proof.
  unfold fetch. repeat split.
  - intros [Hd | He].
    + destruct (Z.leb_spec depth 0); [reflexivity | lia].
    + rewrite He, orb_true_r. reflexivity.
  - intros Hr Hd. rewrite Hr.
    destruct (Z.leb_spec depth 0); [lia|]. simpl.
    destruct (buffer self) as [|x xs] eqn:Hb.
    + exists []. split; [reflexivity|]. simpl. lia.
    + rewrite <- Hb. simpl fst. rewrite slice_from_neg by lia.
      exists (take (length (buffer self)
                    - Nat.min (Z.to_nat depth) (length (buffer self)))
                   (buffer self)).
      split; [symmetry; apply take_drop|].
      rewrite length_drop. lia.
  - destruct (_ || _); [reflexivity|].
    destruct (reverse_order self); reflexivity.
Qed.

(** Where too few levels of recursion are left, a text of opening
    brackets makes the decoder raise [RecursionError] before it reaches
    the end of the text. *)
Lemma scan_once_open_brackets (depth fuel n p : nat) :
  (depth < n)%nat -> (2 * depth < fuel)%nat ->
  Json.scan_once fuel depth (Json.open_brackets n) p
  = inl (Json.PDepth Json.AnArray).
Proof.
  revert fuel n p. induction depth as [|depth IH]; intros fuel n p Hn Hf.
  - destruct fuel as [|fuel]; [lia|]. destruct n as [|n]; [lia|]. reflexivity.
  - destruct fuel as [|[|fuel]]; [lia|lia|].
    destruct n as [|[|n]]; [lia|lia|].
    change (Json.open_brackets (S (S n)))
      with (String "["%char (Json.open_brackets (S n))).
    cbn [Json.scan_once]. cbn [Ascii.eqb Bool.eqb dquote andb].
    change (Json.open_brackets (S n))
      with (String "["%char (Json.open_brackets n)).
    unfold Json.JSONArray.
    change (Json.skip_ws (String "["%char (Json.open_brackets n)) (S p))
      with (String "["%char (Json.open_brackets n), S p).
    cbv iota beta.
    change (Ascii.eqb "["%char "]"%char) with false. cbv iota.
    cbn [Json.array_items].
    change (String "["%char (Json.open_brackets n))
      with (Json.open_brackets (S n)).
    pose proof (IH fuel (S n) (S p) ltac:(lia) ltac:(lia)) as E.
    rewrite E. reflexivity.
Qed.

Lemma open_brackets_length (n : nat) :
  String.length (Json.open_brackets n) = n.
Proof.
  induction n as [|n IH]; [reflexivity|].
  change (Json.open_brackets (S n)) with (String "["%char (Json.open_brackets n)).
  cbn [String.length]. rewrite IH. reflexivity.
Qed.

Lemma loads_within_open_brackets (depth : nat) :
  Json.loads_within depth (Json.open_brackets (S depth))
  = Raised (Json.RecursionError Json.AnArray).
Proof.
  unfold Json.loads_within.
  change (Json.strip_prefix Json.utf8_bom (Json.open_brackets (S depth)))
    with (@None string).
  unfold Json.decode.
  change (Json.skip_ws (Json.open_brackets (S depth)) 0)
    with (Json.open_brackets (S depth), 0%nat).
  cbv iota beta.
  rewrite scan_once_open_brackets; [reflexivity|lia|].
  rewrite open_brackets_length. lia.
Qed.

(** C5, counterexample.  Not every text that fails structured parsing is
    degraded or rejected.  A text of 1001 opening brackets is no JSON
    document: a decoder that could recurse without limit rejects it at
    its end.  Where the interpreter has 1000 levels of recursion left,
    its parse fails with [RecursionError], which [collect] does not
    catch: in tolerant mode the call raises instead of returning true.
    The same holds for every recursion limit, on a text one bracket
    deeper. *)
Lemma collect_raises_on_deep_nesting :
  Json.loads (Json.open_brackets 1001)
  = Raised (JSONDecodeError "Expecting value" 1 1002 1001) /\
  Json.loads_within 1000 (Json.open_brackets 1001)
  = Raised (Json.RecursionError Json.AnArray) /\
  strict_mode Collector.init = false /\
  collect (Json.loads_within 1000) (fun _ => Returned EmptyString)
    Collector.init (Text (Json.open_brackets 1001))
  = Raised (Json.RecursionError Json.AnArray) /\
  forall (depth : nat) (py_str : json -> outcome string)
         (self : FloJsonOutputCollector),
    collect (Json.loads_within depth) py_str self
      (Text (Json.open_brackets (S depth)))
    = Raised (Json.RecursionError Json.AnArray).
Proof.
  split; [vm_compute; reflexivity|].
  split; [apply loads_within_open_brackets|].
  split; [reflexivity|]. split.
  - unfold collect. cbn [as_text].
    rewrite strip_comments_slash_free by apply open_brackets_slash_free.
    rewrite loads_within_open_brackets. reflexivity.
  - intros depth py_str self. unfold collect. cbn [as_text].
    rewrite strip_comments_slash_free by apply open_brackets_slash_free.
    rewrite loads_within_open_brackets. reflexivity.
Qed.

(** C5, as the code has it.  Let the parse inside [collect] fail on a
    text.  When the failure is a [JSONDecodeError]: in tolerant mode
    [collect] returns true and the buffer grows by exactly one entry, the
    degraded record whose [partial_state] is the original text and whose
    [error] is the non-empty message of the exception; in strict mode it
    returns false and the collector is unchanged.  When the failure is
    any other exception, [collect] raises it in either mode. *)
Theorem collect_parse_failure
    (json_loads : string -> outcome json) (py_str : json -> outcome string)
    (self : FloJsonOutputCollector) (text : string) (e : exn) :
  json_loads (strip_comments self text) = Raised e ->
  if is_JSONDecodeError e then
    (if strict_mode self
     then collect json_loads py_str self (Text text) = Returned (false, self)
     else exists self',
         collect json_loads py_str self (Text text) = Returned (true, self') /\
         buffer self' =
           buffer self ++ [JDict [("partial_state", JStr text);
                                  ("error", JStr (str_exn e))]]) /\
    str_exn e <> EmptyString
  else collect json_loads py_str self (Text text) = Raised e.
Proof.
  intros Hloads. unfold collect. cbn [as_text]. rewrite Hloads.
  destruct e as [msg l c p|cls msg]; cbn.
  - split.
    + destruct (strict_mode self); cbn; [reflexivity|].
      eexists. split; reflexivity.
    + destruct msg; discriminate.
  - reflexivity.
Qed.

(** The theorem at the text of the specification, in both modes. *)
Lemma collect_parse_failure_witness :
  (exists self',
     collect Json.loads (fun _ => Returned EmptyString) Collector.init (Text "{bad json")
     = Returned (true, self') /\
     buffer self' =
       [JDict [("partial_state", JStr "{bad json");
               ("error", JStr "Expecting property name enclosed in double quotes: line 1 column 2 (char 1)")]]) /\
  collect Json.loads (fun _ => Returned EmptyString)
    (mkCollector [] true true true) (Text "{bad json")
  = Returned (false, mkCollector [] true true true).
Proof.
  split.
  - exact (proj1 (collect_parse_failure Json.loads (fun _ => Returned EmptyString)
                    Collector.init "{bad json"
                    (JSONDecodeError
                       "Expecting property name enclosed in double quotes" 1 2 1)
                    eq_refl)).
  - exact (proj1 (collect_parse_failure Json.loads (fun _ => Returned EmptyString)
                    (mkCollector [] true true true) "{bad json"
                    (JSONDecodeError
                       "Expecting property name enclosed in double quotes" 1 2 1)
                    eq_refl)).
Defined.

(** C9.  A syntactically valid JSON text whose string value contains
    [//]: [json.loads] accepts it, yet [collect] with [comment_strip] set
    and [strict_mode] clear appends the degraded record for it and not the
    parsed value, because [strip_comments] cuts the line at the [//]
    inside the string literal. *)
Theorem comment_strip_degrades_valid_json :
  exists text parsed,
    Json.loads text = Returned parsed /\
    forall (py_str : json -> outcome string) (buf : list json) (rev_order : bool),
      let self := mkCollector buf false true rev_order in
      strip_comments self text
      = "{" +:+ quoted "url" +:+ ": " +:+ String dquote "http:" /\
      exists error,
        collect Json.loads py_str self (Text text)
        = Returned (true, append self (partial_state_record text error)) /\
        error <> EmptyString /\
        partial_state_record text error <> parsed.
Proof.
  exists ("{" +:+ quoted "url" +:+ ": " +:+ quoted "http://example.org/a" +:+ "}").
  exists (JDict [("url", JStr "http://example.org/a")]).
  split; [vm_compute; reflexivity|].
  intros py_str buf rev_order self. split; [vm_compute; reflexivity|].
  exists "Unterminated string starting at: line 1 column 9 (char 8)".
  split; [|split; discriminate].
  subst self. vm_compute. reflexivity.
Qed.

(** [peek] and [pop] see the item appended last; [pop] takes it away. *)
Lemma peek_append (self : FloJsonOutputCollector) (x : json) :
  peek (append self x) = (Some x, append self x).
Proof. unfold peek, append. cbn. rewrite last_snoc. reflexivity. Qed.

Lemma pop_append (self : FloJsonOutputCollector) (x : json) :
  pop (append self x) = (Some x, self).
Proof.
  unfold pop, append. cbn. rewrite last_snoc, removelast_last.
  destruct self; reflexivity.
Qed.

(** [rewind] with its defaults hands back the whole buffer. *)
Lemma rewind_default (self : FloJsonOutputCollector) :
  rewind self None (-1) = (buffer self, self).
Proof. reflexivity. Qed.

(** The methods on small buffers. *)

Example strip_comments_example :
  strip_comments Collector.init
    ("[1, // first" +:+ String newline " 2] // done")
  = "[1, " +:+ String newline " 2] ".
Proof. reflexivity. Qed.

Example collect_example :
  collect Json.loads (fun _ => Returned EmptyString) Collector.init
    (Text ("[1, // first" +:+ String newline " 2] // done"))
  = Returned (true, mkCollector [JList [JInt 1; JInt 2]] false true true).
Proof. reflexivity. Qed.

Example iter_q_reverse_example :
  iter_q (mkCollector [JInt 1; JInt 2; JInt 3] false true true) true
  = Returned ([JInt 3; JInt 2; JInt 1],
              mkCollector [JInt 1; JInt 2; JInt 3] false true true).
Proof. vm_compute. reflexivity. Qed.

Example iter_q_forward_example :
  iter_q (mkCollector [JInt 1; JInt 2; JInt 3] false true false) true
  = Returned ([JInt 1; JInt 2; JInt 3],
              mkCollector [JInt 1; JInt 2; JInt 3] false true false).
Proof. vm_compute. reflexivity. Qed.

Example fetch_examples :
  fst (fetch (mkCollector [JInt 1; JInt 2; JInt 3] false true true) 2)
  = [JInt 2; JInt 3] /\
  fst (fetch (mkCollector [JInt 1; JInt 2; JInt 3] false true true) 5)
  = [JInt 1; JInt 2; JInt 3] /\
  fst (fetch (mkCollector [JInt 1; JInt 2; JInt 3] false true false) 2)
  = [JInt 1; JInt 2] /\
  fst (fetch (mkCollector [JInt 1; JInt 2; JInt 3] false true true) (-1))
  = [].
Proof. repeat split; reflexivity. Qed.

End CollectorFacts.

(** ** The engine *)

Module EngineFacts.

Import Engine Schedule.
Local Open Scope engine_scope.

#[local] Arguments String.append : simpl never.
#[local] Arguments str_int : simpl never.
#[local] Arguments str_exn : simpl never.
#[local] Arguments commit_invocations : simpl never.

Lemma commit_invocations_app tr1 tr2 :
  commit_invocations (tr1 ++ tr2)
  = (commit_invocations tr1 + commit_invocations tr2)%nat.
Proof. unfold commit_invocations. rewrite List.filter_app, length_app. reflexivity. Qed.

Lemma mbind_returned {A B} (m : M A) (k : A -> M B) s a s' :
  m s = (Returned a, s') -> mbind m k s = k a s'.
Proof. intros H. unfold mbind. rewrite H. reflexivity. Qed.

Lemma mbind_returned_eq {A B} (m : M A) (k : A -> M B) s a s' r :
  m s = (Returned a, s') -> k a s' = r -> mbind m k s = r.
Proof. intros H <-. apply mbind_returned. exact H. Qed.

Lemma commit_invocations_snoc (tr : list effect) (ev : effect) :
  is_commit_start ev = false ->
  commit_invocations (tr ++ [ev]) = commit_invocations tr.
Proof.
  intros H. rewrite commit_invocations_app. unfold commit_invocations.
  cbn. rewrite H. cbn. lia.
Qed.

(** [_persist_memory_line] never raises: the document reaches the store
    when the insert succeeds, and the log tells which way it went. *)
Lemma persist_effects (result : option exn) (line : QInfinityMemoryLine)
    (s : System) :
  _persist_memory_line result line s
  = (Returned tt,
     mkSystem (engine s)
       (mkWorld (db_pandora_memory (world s) ++ stored result line)
          (files (world s))
          (trace (world s) ++ [EInsert line; persist_log result line]))).
Proof.
  destruct s as [e [db fs tr]].
  destruct result as [err|];
    cbv -[String.append str_exn app MemoryLine.id];
    rewrite <- ?app_assoc, ?app_nil_r; reflexivity.
Qed.

Lemma persist_resume_effects (result : option exn) (line : QInfinityMemoryLine)
    (s : System) :
  persist_resume result line s
  = (Returned tt,
     mkSystem (engine s)
       (mkWorld (db_pandora_memory (world s) ++ stored result line)
          (files (world s))
          (trace (world s) ++ [persist_log result line]))).
Proof.
  destruct s as [e [db fs tr]].
  destruct result as [err|];
    cbv -[String.append str_exn app MemoryLine.id];
    rewrite ?app_nil_r; reflexivity.
Qed.

Lemma tick_issue_effects (env : tick_env) (s : System) :
  tick_issue env s
  = (Returned (breath_line (tick_line env) (breath_cycle_count (engine s) + 1)),
     mkSystem
       (set_memory_lines
          (memory_lines (engine s)
           ++ [breath_line (tick_line env) (breath_cycle_count (engine s) + 1)])
          (set_breath_cycle_count (breath_cycle_count (engine s) + 1) (engine s)))
       (mkWorld (db_pandora_memory (world s)) (files (world s))
          (trace (world s)
           ++ [ELog INFO
                 ("Breath cycle " +:+ str_int (breath_cycle_count (engine s) + 1)
                  +:+ " - Memory lines: "
                  +:+ str_int (Z.of_nat (length (memory_lines (engine s)))))]))).
Proof. destruct s as [e [db fs tr]]. reflexivity. Qed.

Lemma persist_spec (result : option exn) (line : QInfinityMemoryLine) (s : System) :
  exists w',
    _persist_memory_line result line s = (Returned tt, mkSystem (engine s) w') /\
    files w' = files (world s) /\
    exists entry,
      trace w' = trace (world s) ++ [EInsert line; entry] /\
      is_commit_start entry = false.
Proof.
  destruct s as [e [db fs tr]].
  destruct result as [err|]; cbn;
    (eexists; split; [reflexivity|]; cbn; split; [reflexivity|];
     eexists; rewrite <- app_assoc; split; reflexivity).
Qed.

Section Runtime.
Variable json_loads : string -> outcome json.
Variable py_str : json -> outcome string.
Variable repr_lines : list QInfinityMemoryLine -> string.

Lemma status_spec s : exists st, get_runtime_status repr_lines s = (Returned st, s).
Proof. destruct s as [e w]. cbn. eexists. reflexivity. Qed.

Lemma paths_distinct : APP_PATH <> MNT_PATH.
Proof. discriminate. Qed.

Lemma commit_effects (env : commit_env) (s : System) :
  exists b w' new,
    commit_memory_snapshot repr_lines env s
    = (Returned b, mkSystem (engine s) w') /\
    db_pandora_memory w' = db_pandora_memory (world s) /\
    trace w' = trace (world s) ++ new /\
    commit_invocations new = 1%nat /\
    attempted MNT_PATH new = true /\
    attempted APP_PATH new
    = match target_result env MNT_PATH with WriteOk => true | _ => false end /\
    b = match target_result env MNT_PATH, target_result env APP_PATH with
        | WriteOk, WriteOk => true
        | _, _ => false
        end /\
    (exists rest, new = EMkdir MNT_PATH :: rest) /\
    (target_result env MNT_PATH = WriteOk ->
     files w' !! MNT_PATH
     = Some (Complete (snapshot_of repr_lines env (engine s)))).
Proof.
  destruct s as [e [db fs tr]].
  unfold commit_memory_snapshot, snapshot_paths, for_each, write_snapshot.
  destruct (target_result env MNT_PATH) eqn:H1;
    [destruct (target_result env APP_PATH) eqn:H2|..]; cbn;
    rewrite ?H1, ?H2; cbn; rewrite ?H2; cbn.
  all: do 3 eexists; split; [reflexivity|]; cbn.
  all: split; [reflexivity|].
  all: repeat rewrite <- app_assoc; cbn.
  all: split; [reflexivity|].
  all: do 4 (split; [reflexivity|]).
  all: split; [eexists; reflexivity|].
  all: intros Hw; try discriminate.
  all: repeat (rewrite (lookup_insert_ne (M := gmap string))
                 by exact paths_distinct).
  all: apply lookup_insert_eq.
Qed.

Lemma collector_iter_q_spec (s : System) :
  collector_iter_q true s
  = (Returned (if reverse_order (collector (engine s))
               then rev (buffer (collector (engine s)))
               else buffer (collector (engine s))), s).
Proof.
  destruct s as [e w]. unfold collector_iter_q, mbind, gets, lift, modify.
  cbn [engine world]. rewrite CollectorFacts.iter_q_hybrid_returns.
  cbn. destruct e; reflexivity.
Qed.

#[local] Arguments collector_iter_q : simpl never.

Lemma op_step_refl s : op_step s s.
Proof. repeat split; try reflexivity; lia. Qed.

Lemma op_step_trans s1 s2 s3 : op_step s1 s2 -> op_step s2 s3 -> op_step s1 s3.
Proof.
  intros (A1 & B1 & C1 & D1) (A2 & B2 & C2 & D2).
  repeat split; [congruence | congruence | lia | congruence].
Qed.

Lemma filter_breath_snoc ls l :
  List.filter is_breath (ls ++ [l])
  = List.filter is_breath ls ++ (if is_breath l then [l] else []).
Proof. rewrite List.filter_app. reflexivity. Qed.

Lemma promise_effects (env : line_env) (input_data : json) (s : System) :
  exists r s',
    promise_then_this_chain json_loads py_str env input_data s = (Returned r, s') /\
    op_step s s'.
Proof.
  destruct s as [e [db fs tr]].
  unfold promise_then_this_chain, try_catch, mbind at 1, lift.
  destruct (py_str input_data) as [text|err]; cbn.
  - do 2 eexists. split; [reflexivity|]. unfold op_step. cbn.
    split; [reflexivity|].
    split; [rewrite filter_breath_snoc; cbn; apply app_nil_r|].
    split; [lia | reflexivity].
  - do 2 eexists. split; [reflexivity|]. unfold op_step. cbn.
    split; [reflexivity|]. split; [reflexivity|].
    split; [|reflexivity].
    unfold commit_invocations; rewrite !List.filter_app, !length_app; lia.
Qed.

Lemma traversal_effects (env : line_env) (query : string) (s : System) :
  exists r s',
    introspective_traversal env query s = (Returned r, s') /\
    op_step s s'.
Proof.
  destruct s as [e [db fs tr]].
  unfold introspective_traversal, mbind at 1 2. cbn.
  rewrite collector_iter_q_spec. cbn.
  destruct (insert_result env) as [err|]; cbn.
  all: do 2 eexists; (split; [reflexivity|]); unfold op_step; cbn.
  all: split; [reflexivity|]; split;
    [rewrite filter_breath_snoc; cbn; apply app_nil_r|].
  all: split;
    [unfold commit_invocations; rewrite !List.filter_app, !length_app; lia|].
  all: first [reflexivity | rewrite filter_breath_snoc; cbn; apply app_nil_r].
Qed.

Lemma run_op_effects (o : op) (s : System) :
  exists s', run_op json_loads py_str repr_lines o s = (Returned tt, s') /\ op_step s s'.
Proof.
  destruct o as [env x|env q|env|]; unfold run_op, mbind.
  - destruct (promise_effects env x s) as (r & s' & -> & H). eauto.
  - destruct (traversal_effects env q s) as (r & s' & -> & H). eauto.
  - destruct (commit_effects env s) as (b & w' & new & -> & Hdb & Ht & Hc & _).
    eexists. split; [reflexivity|]. unfold op_step. cbn.
    rewrite Ht, commit_invocations_app, Hdb.
    repeat split; try reflexivity; lia.
  - destruct (status_spec s) as (st & ->). eexists. split; [reflexivity|].
    apply op_step_refl.
Qed.

Lemma run_ops_effects (os : list op) (s : System) :
  exists s', for_each (run_op json_loads py_str repr_lines) os s = (Returned tt, s')
             /\ op_step s s'.
Proof.
  revert s. induction os as [|o os IH]; intros s.
  - exists s. split; [reflexivity | apply op_step_refl].
  - cbn [for_each]. unfold mbind.
    destruct (run_op_effects o s) as (s1 & -> & H1).
    destruct (IH s1) as (s2 & -> & H2).
    exists s2. split; [reflexivity|]. eapply op_step_trans; eauto.
Qed.

Lemma tick_begin_effects (env : tick_env) (s : System) :
  exists w' entry,
    tick_begin env s
    = (Returned tt,
       mkSystem
         (set_memory_lines
            (memory_lines (engine s)
             ++ [breath_line (tick_line env) (breath_cycle_count (engine s) + 1)])
            (set_breath_cycle_count (breath_cycle_count (engine s) + 1) (engine s)))
         w') /\
    commit_invocations (trace w') = commit_invocations (trace (world s)) /\
    files w' = files (world s) /\
    trace w'
    = trace (world s)
      ++ [ELog INFO
            ("Breath cycle " +:+ str_int (breath_cycle_count (engine s) + 1)
             +:+ " - Memory lines: "
             +:+ str_int (Z.of_nat (length (memory_lines (engine s)))));
          EInsert (breath_line (tick_line env)
                     (breath_cycle_count (engine s) + 1));
          entry].
Proof.
  destruct s as [e [db fs tr]]. unfold tick_begin, tick_issue. cbn.
  destruct (insert_result (tick_line env)); cbn.
  all: do 2 eexists; split; [reflexivity|]; cbn.
  all: split;
    [unfold commit_invocations; rewrite !List.filter_app, !length_app; cbn; lia|].
  all: split; [reflexivity|].
  all: repeat rewrite <- app_assoc; reflexivity.
Qed.

Lemma tick_end_effects (env : tick_env) (s : System) :
  exists w' rest,
    tick_end repr_lines env s = (Returned tt, mkSystem (engine s) w') /\
    commit_invocations (trace w')
    = (commit_invocations (trace (world s))
       + if (breath_cycle_count (engine s) mod 10 =? 0)%Z then 1 else 0)%nat /\
    trace w' = trace (world s) ++ rest ++ [ESleep BreathInterval] /\
    (if breath_cycle_count (engine s) mod 10 =? 0
     then exists rest', rest = EMkdir MNT_PATH :: rest'
     else rest = []) /\
    (breath_cycle_count (engine s) mod 10 = 0 ->
     target_result (tick_commit env) MNT_PATH = WriteOk ->
     files w' !! MNT_PATH
     = Some (Complete (snapshot_of repr_lines (tick_commit env) (engine s)))) /\
    db_pandora_memory w' = db_pandora_memory (world s).
Proof.
  unfold tick_end, mbind at 1, gets.
  destruct (breath_cycle_count (engine s) mod 10 =? 0) eqn:Hc.
  - unfold mbind.
    destruct (commit_effects (tick_commit env) s)
      as (b & w' & new & -> & Hdb & Ht & Hn & _ & _ & _ & Hrest & Hfile).
    cbn. exists (mkWorld (db_pandora_memory w') (files w')
                   (trace w' ++ [ESleep BreathInterval])), new.
    split; [reflexivity|]. cbn.
    rewrite Ht, !commit_invocations_app, Hn.
    split; [unfold commit_invocations; cbn; lia|].
    split; [rewrite <- app_assoc; reflexivity|].
    split; [exact Hrest|]. split; [|exact Hdb]. intros _ Hw. exact (Hfile Hw).
  - destruct s as [e [db fs tr]]. cbn. exists (mkWorld db fs (tr ++ [ESleep BreathInterval])), [].
    split; [reflexivity|]. cbn.
    split; [rewrite commit_invocations_app; unfold commit_invocations; cbn; lia|].
    split; [reflexivity|]. split; [reflexivity|]. split; [|reflexivity].
    intros Hm. cbn in Hc. apply Z.eqb_neq in Hc. contradiction.
Qed.

Lemma bootstrap_lines_length tags env start reel :
  length (bootstrap_lines tags env start reel) = length reel.
Proof. revert start. induction reel; intros; simpl; auto. Qed.

Lemma bootstrap_lines_lookup tags env start reel (i : nat) d :
  reel !! i = Some d ->
  bootstrap_lines tags env start reel !! i
  = Some (bootstrap_line tags (env (start + i)%nat) d).
Proof.
  revert start i. induction reel as [|x reel IH]; intros start [|i] H;
    try discriminate.
  - injection H as ->. simpl. rewrite Nat.add_0_r. reflexivity.
  - simpl. simpl in H. rewrite (IH (S start) i H).
    replace (S start + i)%nat with (start + S i)%nat by lia. reflexivity.
Qed.

Lemma bootstrap_step_effects (env : nat -> line_env) (i : nat)
    (stage_data : StageDescriptor) (s : System) :
  exists w',
    (tags <- gets semantic_tags ;;
     let memory_line := bootstrap_line tags (env i) stage_data in
     append_line memory_line ;;
     _persist_memory_line (insert_result (env i)) memory_line) s
    = (Returned tt,
       mkSystem
         (set_memory_lines
            (memory_lines (engine s)
             ++ [bootstrap_line (semantic_tags (engine s)) (env i) stage_data])
            (engine s))
         w').
Proof.
  destruct s as [e w].
  rewrite (mbind_returned _ _ _ (semantic_tags e) (mkSystem e w)) by reflexivity.
  cbv zeta.
  erewrite mbind_returned by reflexivity.
  match goal with |- context [_persist_memory_line ?r ?l ?s] =>
    destruct (persist_spec r l s) as (w1 & -> & _) end.
  exists w1. reflexivity.
Qed.

Lemma bootstrap_loop_effects (env : nat -> line_env) (reel : list StageDescriptor)
    (start : nat) (s : System) :
  exists w',
    for_each_from
      (fun i stage_data =>
         tags <- gets semantic_tags ;;
         let memory_line := bootstrap_line tags (env i) stage_data in
         append_line memory_line ;;
         _persist_memory_line (insert_result (env i)) memory_line)
      start reel s
    = (Returned tt,
       mkSystem
         (set_memory_lines
            (memory_lines (engine s)
             ++ bootstrap_lines (semantic_tags (engine s)) env start reel)
            (engine s))
         w').
Proof.
  revert start s. induction reel as [|d reel IH]; intros start s.
  - destruct s as [e w]. cbn. exists w. rewrite app_nil_r.
    destruct e; reflexivity.
  - change (for_each_from ?b start (d :: reel))
      with (mbind (b start d) (fun _ => for_each_from b (S start) reel)).
    destruct (bootstrap_step_effects env start d s) as (w1 & E1).
    rewrite (mbind_returned _ _ _ _ _ E1). cbv beta.
    match goal with |- context [for_each_from _ (S start) reel ?s1] =>
      destruct (IH (S start) s1) as (w2 & ->) end.
    exists w2. cbn. rewrite <- app_assoc. reflexivity.
Qed.

Lemma bootstrap_effects (env : nat -> line_env) (s : System) :
  exists w',
    bootstrap_memory env s
    = (Returned tt,
       mkSystem
         (set_memory_lines
            (memory_lines (engine s)
             ++ bootstrap_lines (semantic_tags (engine s)) env 0
                  (memory_reel (engine s)))
            (engine s))
         w').
Proof.
  unfold bootstrap_memory.
  erewrite mbind_returned by reflexivity.
  erewrite mbind_returned by reflexivity.
  cbv beta.
  match goal with |- context [mbind (for_each_from ?b ?i ?r) _ ?s1] =>
    destruct (bootstrap_loop_effects env r i s1) as (w1 & E) end.
  rewrite (mbind_returned _ _ _ _ _ E).
  erewrite mbind_returned by reflexivity.
  eexists. reflexivity.
Qed.

Lemma start_runtime_effects (env : nat -> line_env) (s : System) :
  exists s',
    start_runtime env s = (Returned tt, s') /\
    breath_cycle_count (engine s') = breath_cycle_count (engine s) /\
    is_running (engine s') = true.
Proof.
  unfold start_runtime.
  erewrite mbind_returned by reflexivity.
  erewrite mbind_returned by reflexivity.
  erewrite mbind_returned by reflexivity.
  cbn [engine set_is_running memory_lines].
  destruct (memory_lines (engine s)) eqn:Hl.
  - cbv beta.
    match goal with |- context [mbind (bootstrap_memory env) _ ?s1] =>
      destruct (bootstrap_effects env s1) as (w1 & E) end.
    rewrite (mbind_returned _ _ _ _ _ E).
    eexists. split; [reflexivity|]. split; reflexivity.
  - erewrite mbind_returned by reflexivity.
    eexists. split; [reflexivity|]. split; reflexivity.
Qed.

Lemma div10_step (c : Z) :
  ((c + 1) / 10 - c / 10 = if (c + 1) mod 10 =? 0 then 1 else 0)%Z.
Proof.
  destruct (Z.eqb_spec ((c + 1) mod 10) 0) as [H|H];
    Z.div_mod_to_equations; lia.
Qed.

Lemma filter_breath_stored (result : option exn) (env : line_env) (count : Z)
    (db : list QInfinityMemoryLine) :
  List.filter is_breath (db ++ stored result (breath_line env count))
  = List.filter is_breath db ++ stored result (breath_line env count).
Proof.
  rewrite List.filter_app. destruct result; reflexivity.
Qed.

Lemma run_round_effects (r : round) (s : System) :
  exists s',
    run_round json_loads py_str repr_lines r s = (Returned tt, s') /\
    breath_cycle_count (engine s') = breath_cycle_count (engine s) + 1 /\
    List.filter is_breath (memory_lines (engine s'))
    = List.filter is_breath (memory_lines (engine s))
      ++ [breath_line (tick_line (round_tick r)) (breath_cycle_count (engine s) + 1)] /\
    (commit_invocations (trace (world s))
     + (if ((breath_cycle_count (engine s) + 1) mod 10 =? 0)%Z then 1 else 0)
     <= commit_invocations (trace (world s')))%nat /\
    List.filter is_breath (db_pandora_memory (world s'))
    = List.filter is_breath (db_pandora_memory (world s))
      ++ stored (insert_result (tick_line (round_tick r)))
           (breath_line (tick_line (round_tick r))
              (breath_cycle_count (engine s) + 1)).
Proof.
  unfold run_round.
  destruct (run_ops_effects (before r) s) as (s1 & E1 & A1 & B1 & C1 & D1).
  rewrite (mbind_returned _ _ _ _ _ E1).
  rewrite (mbind_returned _ _ _ _ _ (tick_issue_effects (round_tick r) s1)).
  erewrite mbind_returned by reflexivity.
  match goal with |- context [mbind (for_each _ (racing r)) _ ?s2] =>
    destruct (run_ops_effects (racing r) s2) as (s3 & E3 & A3 & B3 & C3 & D3) end.
  rewrite (mbind_returned _ _ _ _ _ E3).
  rewrite (mbind_returned _ _ _ _ _ (persist_resume_effects _ _ s3)).
  match goal with |- context [mbind (for_each _ (during r)) _ ?s4] =>
    destruct (run_ops_effects (during r) s4) as (s5 & E5 & A5 & B5 & C5 & D5) end.
  rewrite (mbind_returned _ _ _ _ _ E5).
  destruct (tick_end_effects (round_tick r) s5)
    as (w6 & rest & E6 & C6 & _ & _ & _ & D6).
  rewrite E6. eexists. split; [reflexivity|].
  cbn [engine world breath_cycle_count memory_lines set_memory_lines
       set_breath_cycle_count db_pandora_memory trace files] in *.
  rewrite A5, A3, A1. split; [reflexivity|].
  rewrite B5, B3, filter_breath_snoc, B1, A1. split; [reflexivity|].
  split.
  - rewrite C6, A5, A3, A1.
    rewrite !commit_invocations_snoc in C3 by reflexivity.
    rewrite commit_invocations_snoc in C5 by (destruct (insert_result _); reflexivity).
    destruct (_ =? _)%Z; lia.
  - rewrite D6, D5, filter_breath_stored, D3, D1, A1. reflexivity.
Qed.

Lemma run_rounds_effects (rs : list round) (s : System) :
  exists s',
    run_rounds json_loads py_str repr_lines rs s = (Returned tt, s') /\
    breath_cycle_count (engine s')
    = breath_cycle_count (engine s) + Z.of_nat (length rs) /\
    List.filter is_breath (memory_lines (engine s'))
    = List.filter is_breath (memory_lines (engine s))
      ++ breath_lines (breath_cycle_count (engine s) + 1) (map round_tick rs) /\
    Z.of_nat (commit_invocations (trace (world s)))
    + ((breath_cycle_count (engine s) + Z.of_nat (length rs)) / 10
       - breath_cycle_count (engine s) / 10)
    <= Z.of_nat (commit_invocations (trace (world s'))) /\
    List.filter is_breath (db_pandora_memory (world s'))
    = List.filter is_breath (db_pandora_memory (world s))
      ++ stored_breath_lines (breath_cycle_count (engine s) + 1)
           (map round_tick rs).
Proof.
  revert s. induction rs as [|r rs IH]; intros s.
  - exists s. split; [reflexivity|]. cbn. rewrite Z.add_0_r, !app_nil_r.
    repeat split; lia.
  - unfold run_rounds. cbn [for_each]. unfold mbind.
    destruct (run_round_effects r s) as (s1 & -> & A1 & B1 & C1 & D1).
    destruct (IH s1) as (s2 & E2 & A2 & B2 & C2 & D2).
    unfold run_rounds in E2. rewrite E2.
    exists s2. split; [reflexivity|].
    rewrite A2, B2, B1, D2, D1, A1. cbn [length map breath_lines stored_breath_lines].
    split; [lia|]. split; [rewrite <- app_assoc; reflexivity|].
    split; [|rewrite <- app_assoc; reflexivity].
    rewrite A1 in C2. pose proof (div10_step (breath_cycle_count (engine s))) as D.
    replace (breath_cycle_count (engine s) + Z.of_nat (S (length rs)))
      with (breath_cycle_count (engine s) + 1 + Z.of_nat (length rs)) by lia.
    destruct ((breath_cycle_count (engine s) + 1) mod 10 =? 0); lia.
Qed.

Lemma has_tag_elem_of (tag : string) (l : QInfinityMemoryLine) :
  MemoryLine.has_tag tag l = true <-> tag ∈ MemoryLine.semantic_tags l.
Proof.
  unfold MemoryLine.has_tag. rewrite existsb_exists. split.
  - intros (x & Hin & Heq). apply String.eqb_eq in Heq. subst x.
    apply list_elem_of_In. exact Hin.
  - intros Hin. exists tag. split; [apply list_elem_of_In; exact Hin|].
    apply String.eqb_refl.
Qed.

(** The count that the source computes is the number of lines that carry
    the tag. *)
Lemma tag_count_spec (tag : string) (ls : list QInfinityMemoryLine) :
  tag_count tag ls
  = Z.of_nat (length (filter (fun l => tag ∈ MemoryLine.semantic_tags l) ls)).
Proof.
  unfold tag_count. f_equal. induction ls as [|l ls IH]; [reflexivity|].
  cbn [List.filter]. rewrite filter_cons.
  destruct (MemoryLine.has_tag tag l) eqn:Ht.
  - apply has_tag_elem_of in Ht. rewrite decide_True by exact Ht.
    cbn [length]. rewrite IH. reflexivity.
  - rewrite decide_False; [exact IH|].
    intros Hin. apply has_tag_elem_of in Hin. congruence.
Qed.

(** C10.  [get_runtime_status] returns a dictionary whose
    [last_checkpoint] is the stage of the last line of the ledger, or the
    string ["none"] when the ledger is empty; whose
    [semantic_distribution] gives, for each tag of the vocabulary, the
    number of ledger lines that carry the tag; and the call leaves the
    whole system (ledger, buffer and world) as it was. *)
Theorem get_runtime_status_spec (s : System) :
  exists status,
    get_runtime_status repr_lines s = (Returned status, s) /\
    (forall older line,
       memory_lines (engine s) = older ++ [line] ->
       dict_get "last_checkpoint" status = Some (JStr (MemoryLine.stage line))) /\
    (memory_lines (engine s) = [] ->
     dict_get "last_checkpoint" status = Some (JStr "none")) /\
    forall tag,
      tag ∈ ["ancestral"; "emotional"; "symbolic"] ->
      dict_get "semantic_distribution" status ≫= dict_get tag
      = Some (JInt (Z.of_nat (length
          (filter (fun l => tag ∈ MemoryLine.semantic_tags l)
                  (memory_lines (engine s)))))).
Proof.
  destruct s as [e w]. eexists. split; [reflexivity|].
  cbn [engine]. split; [|split].
  - intros older line H. cbn. rewrite H, last_snoc. reflexivity.
  - intros H. cbn. rewrite H. reflexivity.
  - intros tag Htag. rewrite <- tag_count_spec.
    apply elem_of_cons in Htag as [-> | Htag]; [reflexivity|].
    apply elem_of_cons in Htag as [-> | Htag]; [reflexivity|].
    apply elem_of_cons in Htag as [-> | Htag]; [reflexivity|].
    apply elem_of_nil in Htag. destruct Htag.
Qed.

Lemma last_ten_spec (items : list json) :
  last_ten items = drop (length items - 10) items.
Proof.
  unfold last_ten. destruct (Nat.ltb_spec 10 (length items)) as [H|H].
  - change (-10) with (Z.opp 10).
    rewrite CollectorFacts.slice_from_neg by lia. f_equal. lia.
  - replace (length items - 10)%nat with 0%nat by lia. reflexivity.
Qed.

(** C8, counterexample.  The returned items are not the most recent
    ones.  On the collector as [__init__] builds it ([reverse_order]
    set), after the items 1 to 11 were appended in this order, the most
    recent item is 11; the traversal runs newest first, and its last ten
    items, which [results] holds, are 10 down to 1: the most recent item
    is dropped and the oldest ten are returned. *)
Lemma traversal_drops_most_recent :
  let c := fold_left Collector.append
             (map JInt [1; 2; 3; 4; 5; 6; 7; 8; 9; 10; 11]) Collector.init in
  let s := mkSystem (set_collector c (init (JDict []) [])) empty_world in
  fst (Collector.peek c) = Some (JInt 11) /\
  exists r,
    fst (introspective_traversal
           (mkLineEnv "id" "2026-01-01T00:00:00+00:00" None) "q" s)
    = Returned r /\
    dict_get "traversal_items" r = Some (JInt 11) /\
    dict_get "results" r
    = Some (JList (map JInt [10; 9; 8; 7; 6; 5; 4; 3; 2; 1])).
Proof.
  cbv zeta. split; [reflexivity|]. eexists. split; [vm_compute; reflexivity|].
  split; reflexivity.
Qed.

(** C8, as the code has it.  [introspective_traversal(query)] appends
    exactly one line to the ledger, with stage [introspection] and tags
    [emotional] and [symbolic], leaves the buffer as it was, and returns
    the dictionary of the query, the number of traversal items, the id of
    the new line, the cycle counter and the [results]: the final ten
    items of the traversal sequence in traversal order, or the whole
    sequence when it has ten items or fewer.  With [reverse_order] set,
    as the constructor leaves it, the traversal runs newest first, so
    these are the ten oldest entries of the buffer, the newest of them
    first; with [reverse_order] clear they are the ten newest entries,
    oldest first. *)
Theorem introspective_traversal_spec (env : line_env) (query : string)
    (s : System) :
  exists items line w' results older,
    items = (if reverse_order (collector (engine s))
             then rev (buffer (collector (engine s)))
             else buffer (collector (engine s))) /\
    introspective_traversal env query s
    = (Returned (JDict
         [("query", JStr query);
          ("traversal_items", JInt (Z.of_nat (length items)));
          ("memory_line_id", JStr (MemoryLine.id line));
          ("breath_cycle", JInt (breath_cycle_count (engine s)));
          ("results", JList results)]),
       mkSystem
         (set_memory_lines (memory_lines (engine s) ++ [line]) (engine s))
         w') /\
    MemoryLine.stage line = "introspection" /\
    MemoryLine.semantic_tags line = ["emotional"; "symbolic"] /\
    items = older ++ results /\
    length results = Nat.min 10 (length items) /\
    results
    = (if reverse_order (collector (engine s))
       then rev (take 10 (buffer (collector (engine s))))
       else drop (length (buffer (collector (engine s))) - 10)
              (buffer (collector (engine s)))).
Proof.
  destruct s as [e [db fs tr]]. cbn [engine world].
  set (items := if reverse_order (collector e)
                then rev (buffer (collector e)) else buffer (collector e)).
  assert (Hpersist : exists w',
    introspective_traversal env query
      (mkSystem e (mkWorld db fs tr))
    = (Returned (JDict
         [("query", JStr query);
          ("traversal_items", JInt (Z.of_nat (length items)));
          ("memory_line_id", JStr (fresh_id env));
          ("breath_cycle", JInt (breath_cycle_count e));
          ("results", JList (drop (length items - 10) items))]),
       mkSystem
         (set_memory_lines
            (memory_lines e
             ++ [traversal_line env query (length items) (breath_cycle_count e)])
            e)
         w')).
  { unfold introspective_traversal, mbind at 1 2. cbn.
    rewrite collector_iter_q_spec. cbn. fold items.
    rewrite last_ten_spec.
    destruct (insert_result env) as [err|]; cbn; eexists; reflexivity. }
  destruct Hpersist as (w' & E).
  exists items,
    (traversal_line env query (length items) (breath_cycle_count e)), w',
    (drop (length items - 10) items), (take (length items - 10) items).
  split; [reflexivity|]. split; [exact E|].
  split; [reflexivity|]. split; [reflexivity|].
  split; [symmetry; apply take_drop|].
  split; [rewrite length_drop; lia|].
  subst items. destruct (reverse_order (collector e)); [|reflexivity].
  rewrite length_rev, skipn_rev. f_equal.
  destruct (Nat.le_gt_cases 10 (length (buffer (collector e)))) as [H|H].
  - f_equal. lia.
  - replace (length (buffer (collector e))
             - (length (buffer (collector e)) - 10))%nat
      with (length (buffer (collector e))) by lia.
    rewrite firstn_all. symmetry. apply take_ge. lia.
Qed.

(** C4.  [promise_then_this_chain(x)] never raises.  When [str(x)]
    returns (as it does for the empty object), the ledger grows by
    exactly one line, whose stage is [promise_chain] and whose state is
    [completed], and the buffer grows by exactly one entry, the returned
    result.  When it raises, the call returns the dictionary
    [{error, status: failed}] and leaves the engine as it was. *)
Theorem promise_then_this_chain_spec (env : line_env) (input_data : json)
    (s : System) :
  exists result s',
    promise_then_this_chain json_loads py_str env input_data s
    = (Returned result, s') /\
    match py_str input_data with
    | Returned _ =>
        exists line,
          memory_lines (engine s') = memory_lines (engine s) ++ [line] /\
          MemoryLine.stage line = "promise_chain" /\
          MemoryLine.state line = "completed" /\
          buffer (collector (engine s'))
          = buffer (collector (engine s)) ++ [result] /\
          dict_get "error" result = None
    | Raised e =>
        result = JDict [("error", JStr (str_exn e)); ("status", JStr "failed")] /\
        engine s' = engine s
    end.
Proof.
  destruct s as [e [db fs tr]].
  unfold promise_then_this_chain, try_catch, mbind at 1, lift.
  destruct (py_str input_data) as [text|err]; cbn.
  - do 2 eexists. split; [reflexivity|]. cbn.
    eexists. repeat split; reflexivity.
  - do 2 eexists. split; [reflexivity|]. split; reflexivity.
Qed.

(** C7.  With the default vocabulary in [semantic_tags],
    [bootstrap_memory] on a reel of [N] descriptors appends exactly [N]
    lines to the ledger, in reel order: the line at position [i] has the
    stage, state, identity and memory of the descriptor at position [i]
    (the field default where the descriptor lacks the key) and the tags
    [ancestral], [emotional], [symbolic]. *)
Theorem bootstrap_memory_spec (env : nat -> line_env) (s : System) :
  semantic_tags (engine s) = ["ancestral"; "emotional"; "symbolic"] ->
  exists new w',
    bootstrap_memory env s
    = (Returned tt,
       mkSystem
         (set_memory_lines (memory_lines (engine s) ++ new) (engine s)) w') /\
    length new = length (memory_reel (engine s)) /\
    forall (i : nat) d,
      memory_reel (engine s) !! i = Some d ->
      exists line,
        new !! i = Some line /\
        MemoryLine.stage line = default EmptyString (sd_stage d) /\
        MemoryLine.state line = default EmptyString (sd_state d) /\
        MemoryLine.identity line = default EmptyString (sd_identity d) /\
        MemoryLine.memory line = default [] (sd_memory d) /\
        MemoryLine.semantic_tags line = ["ancestral"; "emotional"; "symbolic"].
Proof.
  intros Htags. destruct (bootstrap_effects env s) as (w' & E).
  exists (bootstrap_lines (semantic_tags (engine s)) env 0
            (memory_reel (engine s))), w'.
  split; [exact E|]. split; [apply bootstrap_lines_length|].
  intros i d Hd. eexists. split; [apply bootstrap_lines_lookup; exact Hd|].
  cbn. rewrite Htags. repeat split; reflexivity.
Qed.

(** The theorem at a freshly constructed engine with a reel of two
    descriptors, the second of which lacks its [memory] key. *)
Lemma bootstrap_memory_spec_witness :
  exists new w',
    bootstrap_memory (fun i => mkLineEnv "id" "2026-01-01T00:00:00+00:00" None)
      (mkSystem
         (init (JDict [])
            [mkStage (Some "genesis") (Some "dormant") (Some "Pandora")
               (Some ["spark"]);
             mkStage (Some "awakening") (Some "active") (Some "Pandora") None])
         empty_world)
    = (Returned tt,
       mkSystem
         (set_memory_lines new
            (init (JDict [])
               [mkStage (Some "genesis") (Some "dormant") (Some "Pandora")
                  (Some ["spark"]);
                mkStage (Some "awakening") (Some "active") (Some "Pandora")
                  None]))
         w') /\
    length new = 2%nat.
Proof.
  destruct (bootstrap_memory_spec
              (fun i => mkLineEnv "id" "2026-01-01T00:00:00+00:00" None)
              (mkSystem
                 (init (JDict [])
                    [mkStage (Some "genesis") (Some "dormant") (Some "Pandora")
                       (Some ["spark"]);
                     mkStage (Some "awakening") (Some "active") (Some "Pandora")
                       None])
                 empty_world)
              eq_refl) as (new & w' & E & Hlen & _).
  exists new, w'. split; [exact E | exact Hlen].
Defined.

(** C1, counterexample.  The two snapshot targets are not written
    independently: when [mkdir] for the first target raises, the commit
    returns false, the second target is never attempted and no file
    exists at its path. *)
Lemma commit_skips_second_target :
  fst (commit_memory_snapshot (fun _ => EmptyString) first_target_unwritable
         (mkSystem (init (JDict []) []) empty_world))
  = Returned false /\
  attempted APP_PATH
    (trace (world (snd (commit_memory_snapshot (fun _ => EmptyString)
                          first_target_unwritable
                          (mkSystem (init (JDict []) []) empty_world)))))
  = false /\
  files (world (snd (commit_memory_snapshot (fun _ => EmptyString)
                       first_target_unwritable
                       (mkSystem (init (JDict []) []) empty_world))))
    !! APP_PATH = None.
Proof. vm_compute. repeat split; reflexivity. Qed.

(** C1, as the code has it.  [commit_memory_snapshot] never raises and
    leaves the engine as it was.  Its writes run in order under one
    handler: the first target is always attempted, the second target is
    attempted exactly when the write to the first one raised nothing, and
    the call returns true exactly when both writes succeed, so any
    exception in either write makes it return false. *)
Theorem commit_memory_snapshot_spec (env : commit_env) (s : System) :
  exists b w' new,
    commit_memory_snapshot repr_lines env s
    = (Returned b, mkSystem (engine s) w') /\
    trace w' = trace (world s) ++ new /\
    attempted MNT_PATH new = true /\
    (attempted APP_PATH new = true <-> target_result env MNT_PATH = WriteOk) /\
    (b = true <->
     target_result env MNT_PATH = WriteOk /\
     target_result env APP_PATH = WriteOk).
Proof.
  destruct (commit_effects env s)
    as (b & w' & new & E & _ & Ht & _ & H1 & H2 & Hb & _).
  exists b, w', new. split; [exact E|]. split; [exact Ht|].
  split; [exact H1|]. rewrite H2, Hb. split.
  - destruct (target_result env MNT_PATH); split; intros H;
      try reflexivity; discriminate.
  - destruct (target_result env MNT_PATH), (target_result env APP_PATH);
      split; try (intros [? ?]); try intros ?;
      try (split; reflexivity); try reflexivity; discriminate.
Qed.

Lemma breath_lines_lookup (first : Z) (envs : list tick_env) (k : nat) env :
  envs !! k = Some env ->
  breath_lines first envs !! k
  = Some (breath_line (tick_line env) (first + Z.of_nat k)).
Proof.
  revert first k. induction envs as [|x envs IH]; intros first [|k] H;
    try discriminate.
  - injection H as ->. cbn. rewrite Z.add_0_r. reflexivity.
  - cbn [breath_lines]. rewrite lookup_cons.
    rewrite (IH (first + 1) k H). do 2 f_equal. lia.
Qed.

Lemma breath_lines_length (first : Z) (envs : list tick_env) :
  length (breath_lines first envs) = length envs.
Proof. revert first. induction envs; intros; cbn; auto. Qed.

(** One pass of the loop never raises, so its handler stays idle. *)
Lemma breath_iteration_returns (env : tick_env) (s : System) :
  exists s1 w',
    tick_begin env s = (Returned tt, s1) /\
    tick_end repr_lines env s1 = (Returned tt, mkSystem (engine s1) w') /\
    breath_iteration repr_lines env s = (Returned tt, mkSystem (engine s1) w').
Proof.
  destruct (tick_begin_effects env s) as (w1 & entry & E1 & _).
  match type of E1 with _ = (_, ?s1) =>
    destruct (tick_end_effects env s1) as (w2 & rest & E2 & _);
    exists s1, w2 end.
  split; [exact E1|]. split; [exact E2|].
  unfold breath_iteration, try_catch.
  rewrite (mbind_returned _ _ _ _ _ E1), E2. reflexivity.
Qed.

(** One pass of the loop, step by step: increment and append, then
    persist, then the commit when it is due, then the sleep. *)
Lemma breath_iteration_steps (env : tick_env) (s : System) :
  let count := breath_cycle_count (engine s) + 1 in
  let line := breath_line (tick_line env) count in
  let e1 := set_memory_lines (memory_lines (engine s) ++ [line])
              (set_breath_cycle_count count (engine s)) in
  exists w1 w2 w3 rest,
    tick_issue env s = (Returned line, mkSystem e1 w1) /\
    db_pandora_memory w1 = db_pandora_memory (world s) /\
    trace w1
    = trace (world s)
      ++ [ELog INFO
            ("Breath cycle " +:+ str_int count +:+ " - Memory lines: "
             +:+ str_int (Z.of_nat (length (memory_lines (engine s)))))] /\
    _persist_memory_line (insert_result (tick_line env)) line (mkSystem e1 w1)
    = (Returned tt, mkSystem e1 w2) /\
    db_pandora_memory w2
    = db_pandora_memory w1 ++ stored (insert_result (tick_line env)) line /\
    trace w2
    = trace w1
      ++ [EInsert line; persist_log (insert_result (tick_line env)) line] /\
    tick_end repr_lines env (mkSystem e1 w2) = (Returned tt, mkSystem e1 w3) /\
    db_pandora_memory w3 = db_pandora_memory w2 /\
    trace w3 = trace w2 ++ rest ++ [ESleep BreathInterval] /\
    (if count mod 10 =? 0
     then exists rest', rest = EMkdir MNT_PATH :: rest'
     else rest = []) /\
    (count mod 10 = 0 ->
     target_result (tick_commit env) MNT_PATH = WriteOk ->
     exists snap,
       files w3 !! MNT_PATH = Some (Complete snap) /\
       snap_breath_cycle snap = count /\
       snap_memory_lines snap = memory_lines (engine s) ++ [line]) /\
    breath_iteration repr_lines env s = (Returned tt, mkSystem e1 w3).
Proof.
  intros count line e1.
  pose proof (tick_issue_effects env s) as E1. fold count line e1 in E1.
  match type of E1 with _ = (_, mkSystem _ ?w) => set (w1 := w) in * end.
  pose proof (persist_effects (insert_result (tick_line env)) line
                (mkSystem e1 w1)) as E2.
  cbn [engine world] in E2.
  match type of E2 with _ = (_, mkSystem _ ?w) => set (w2 := w) in * end.
  destruct (tick_end_effects env (mkSystem e1 w2))
    as (w3 & rest & E3 & _ & Ht & Hr & Hf & Hdb).
  cbn [engine world] in E3, Ht, Hr, Hf, Hdb.
  exists w1, w2, w3, rest.
  split; [exact E1|]. split; [reflexivity|]. split; [reflexivity|].
  split; [exact E2|]. split; [reflexivity|]. split; [reflexivity|].
  split; [exact E3|]. split; [exact Hdb|]. split; [exact Ht|].
  split; [exact Hr|]. split.
  - intros Hm Hw. eexists. split; [exact (Hf Hm Hw)|]. split; reflexivity.
  - unfold breath_iteration, try_catch, tick_begin.
    rewrite (mbind_returned _ _ _ _ _
               (mbind_returned_eq _ _ _ _ _ _ E1 E2)).
    rewrite E3. reflexivity.
Qed.

(** The schedule of one tick with nothing interleaved is one pass of the
    loop. *)
Lemma run_round_alone (env : tick_env) (s : System) :
  run_round json_loads py_str repr_lines (mkRound [] env [] []) s
  = breath_iteration repr_lines env s.
Proof.
  destruct (breath_iteration_steps env s)
    as (w1 & w2 & w3 & rest & E1 & _ & _ & E2 & _ & _ & E3 & _ & _ & _ & _ & ->).
  unfold run_round. cbn [before round_tick racing during for_each].
  rewrite (mbind_returned _ _ _ tt s) by reflexivity.
  rewrite (mbind_returned _ _ _ _ _ E1).
  erewrite mbind_returned by reflexivity.
  erewrite mbind_returned by reflexivity.
  rewrite (mbind_returned _ _ _ _ _ (persist_resume_effects _ _ _)).
  erewrite mbind_returned by reflexivity.
  rewrite persist_effects in E2. injection E2 as E2.
  cbn [engine world db_pandora_memory files trace] in *.
  rewrite <- app_assoc. cbn [app]. rewrite E2. exact E3.
Qed.

(** The loop of [breath_cycle] on a running engine is the schedule of its
    ticks with nothing interleaved. *)
Lemma breath_cycle_as_rounds (envs : list tick_env) (s : System) :
  is_running (engine s) = true ->
  breath_cycle repr_lines envs s
  = run_rounds json_loads py_str repr_lines
      (map (fun env => mkRound [] env [] []) envs) s.
Proof.
  revert s. induction envs as [|env envs IH]; intros s Hrun; [reflexivity|].
  cbn [breath_cycle map]. unfold run_rounds. cbn [for_each].
  fold (run_rounds json_loads py_str repr_lines).
  erewrite mbind_returned by reflexivity. cbv beta. rewrite Hrun.
  destruct (breath_iteration_returns env s) as (s1 & w' & E1 & _ & E).
  rewrite (mbind_returned _ _ _ _ _ E).
  rewrite (mbind_returned _ _ _ tt _ (eq_trans (run_round_alone env s) E)).
  apply IH. cbn [engine].
  destruct (tick_begin_effects env s) as (w1 & entry & E1' & _).
  rewrite E1 in E1'. injection E1' as ->. exact Hrun.
Qed.

Lemma stored_breath_lines_all (first : Z) (envs : list tick_env) :
  Forall (fun env => insert_result (tick_line env) = None) envs ->
  stored_breath_lines first envs = breath_lines first envs.
Proof.
  intros H. revert first. induction H as [|env envs Hx _ IH]; intros first;
    [reflexivity|].
  cbn [stored_breath_lines breath_lines]. rewrite Hx, IH. reflexivity.
Qed.

(** [stop_runtime] clears [is_running] and commits once more. *)
Lemma stop_runtime_effects (env : commit_env) (s : System) :
  exists s',
    stop_runtime repr_lines env s = (Returned tt, s') /\
    engine s' = set_is_running false (engine s) /\
    commit_invocations (trace (world s'))
    = S (commit_invocations (trace (world s))).
Proof.
  unfold stop_runtime.
  erewrite mbind_returned by reflexivity.
  erewrite mbind_returned by reflexivity.
  match goal with |- context [mbind (commit_memory_snapshot _ _) _ ?s1] =>
    destruct (commit_effects env s1)
      as (b & w' & new & E & _ & Ht & Hn & _) end.
  rewrite (mbind_returned _ _ _ _ _ E).
  eexists. split; [reflexivity|]. split; [reflexivity|].
  cbn. rewrite Ht. cbn. rewrite !commit_invocations_app, Hn.
  unfold commit_invocations. cbn. lia.
Qed.

(** C3.  Start a freshly constructed engine and let [T] rounds run, each
    one tick with any on-demand operations interleaved.  Then the schedule
    returns; [breath_cycle_count] is [T]; the ledger has gained exactly
    [T] lines of stage [breath] beyond those it had, in tick order, the
    line of tick [k] carrying the tag [ancestral] and the cycle index
    [k]; the store has gained, among its documents of stage [breath],
    exactly the lines of the ticks whose insert did not raise, in tick
    order (all [T] of them when no insert raises); and
    [commit_memory_snapshot] has been called at least [floor(T / 10)]
    times.  Each pass of the loop works in the order increment, append,
    persist, commit: first the counter is incremented and the new line,
    which carries the incremented counter, is appended, with nothing
    stored yet; then [_persist_memory_line] sends that line to the store,
    which gains it unless the insert raises, and logs the outcome; then,
    when the counter is a multiple of ten, the commit writes a snapshot
    that holds the new counter and the new line; then the task sleeps.
    The loop of [breath_cycle] itself is the schedule with nothing
    interleaved. *)
Theorem breath_cycle_spec (config : json) (reel : list StageDescriptor)
    (boot_env : nat -> line_env) (w0 : World) (rounds : list round) :
  exists s0 s' new,
    start_runtime boot_env (mkSystem (init config reel) w0) = (Returned tt, s0) /\
    run_rounds json_loads py_str repr_lines rounds s0 = (Returned tt, s') /\
    breath_cycle_count (engine s') = Z.of_nat (length rounds) /\
    List.filter is_breath (memory_lines (engine s'))
    = List.filter is_breath (memory_lines (engine s0)) ++ new /\
    length new = length rounds /\
    (forall (k : nat) r,
       rounds !! k = Some r ->
       exists line,
         new !! k = Some line /\
         MemoryLine.id line = fresh_id (tick_line (round_tick r)) /\
         MemoryLine.stage line = "breath" /\
         MemoryLine.semantic_tags line = ["ancestral"] /\
         MemoryLine.breath_cycle line = Z.of_nat k + 1) /\
    List.filter is_breath (db_pandora_memory (world s'))
    = List.filter is_breath (db_pandora_memory (world s0))
      ++ stored_breath_lines 1 (map round_tick rounds) /\
    (Forall (fun r => insert_result (tick_line (round_tick r)) = None) rounds ->
     stored_breath_lines 1 (map round_tick rounds) = new) /\
    (commit_invocations (trace (world s0)) + length rounds / 10
     <= commit_invocations (trace (world s')))%nat /\
    (forall envs,
       breath_cycle repr_lines envs s0
       = run_rounds json_loads py_str repr_lines
           (map (fun env => mkRound [] env [] []) envs) s0) /\
    (forall env s,
       let count := breath_cycle_count (engine s) + 1 in
       let line := breath_line (tick_line env) count in
       let e1 := set_memory_lines (memory_lines (engine s) ++ [line])
                   (set_breath_cycle_count count (engine s)) in
       exists w1 w2 w3 rest,
         tick_issue env s = (Returned line, mkSystem e1 w1) /\
         db_pandora_memory w1 = db_pandora_memory (world s) /\
         trace w1
         = trace (world s)
           ++ [ELog INFO
                 ("Breath cycle " +:+ str_int count +:+ " - Memory lines: "
                  +:+ str_int (Z.of_nat (length (memory_lines (engine s)))))] /\
         _persist_memory_line (insert_result (tick_line env)) line
           (mkSystem e1 w1)
         = (Returned tt, mkSystem e1 w2) /\
         db_pandora_memory w2
         = db_pandora_memory w1 ++ stored (insert_result (tick_line env)) line /\
         trace w2
         = trace w1
           ++ [EInsert line; persist_log (insert_result (tick_line env)) line] /\
         tick_end repr_lines env (mkSystem e1 w2)
         = (Returned tt, mkSystem e1 w3) /\
         db_pandora_memory w3 = db_pandora_memory w2 /\
         trace w3 = trace w2 ++ rest ++ [ESleep BreathInterval] /\
         (if count mod 10 =? 0
          then exists rest', rest = EMkdir MNT_PATH :: rest'
          else rest = []) /\
         (count mod 10 = 0 ->
          target_result (tick_commit env) MNT_PATH = WriteOk ->
          exists snap,
            files w3 !! MNT_PATH = Some (Complete snap) /\
            snap_breath_cycle snap = count /\
            snap_memory_lines snap = memory_lines (engine s) ++ [line]) /\
         breath_iteration repr_lines env s = (Returned tt, mkSystem e1 w3)).
Proof.
  destruct (start_runtime_effects boot_env (mkSystem (init config reel) w0))
    as (s0 & E0 & Hc0 & Hrun).
  cbn in Hc0.
  destruct (run_rounds_effects rounds s0) as (s' & E & Hc & Hl & Hn & Hdb).
  rewrite Hc0 in Hc, Hl, Hn, Hdb.
  exists s0, s', (breath_lines 1 (map round_tick rounds)).
  split; [exact E0|]. split; [exact E|]. split; [exact Hc|].
  split; [exact Hl|].
  split; [rewrite breath_lines_length, length_map; reflexivity|].
  split; [|split; [exact Hdb|split; [|split; [|split]]]].
  - intros k r Hk. eexists. split.
    + apply breath_lines_lookup. rewrite list_lookup_fmap, Hk. reflexivity.
    + cbn. repeat split; try reflexivity. lia.
  - intros Hok. apply stored_breath_lines_all. apply Forall_map. exact Hok.
  - apply Nat2Z.inj_le. rewrite Nat2Z.inj_add, Nat2Z.inj_div.
    rewrite Z.add_0_l in Hn. change (0 / 10) with 0 in Hn.
    change (Z.of_nat 10) with 10. lia.
  - intros envs. apply breath_cycle_as_rounds. exact Hrun.
  - apply breath_iteration_steps.
Qed.

End Runtime.

(** Ten rounds on a fresh engine, each with a status call before the
    tick, a traversal while the insert is under way and a promise chain
    after it: ten cycles, thirty lines, ten buffer entries, one commit,
    and the snapshot of that commit. *)
Example ten_rounds_example :
  let r :=
    run_rounds Json.loads (fun _ => Returned "{}") (fun _ => EmptyString)
      (repeat
         (mkRound [OpStatus]
            (mkTickEnv (mkLineEnv "b" "t" None)
               (mkCommitEnv "t" (fun _ => WriteOk)))
            [OpTraverse (mkLineEnv "q" "t" None) "why"]
            [OpPromise (mkLineEnv "p" "t" None) (JDict [])])
         10)
      (mkSystem (init (JDict []) []) empty_world) in
  breath_cycle_count (engine (snd r)) = 10 /\
  length (memory_lines (engine (snd r))) = 30%nat /\
  length (buffer (collector (engine (snd r)))) = 10%nat /\
  commit_invocations (trace (world (snd r))) = 1%nat /\
  (snap_semantic_state <$>
     (files (world (snd r)) !! APP_PATH ≫=
        fun c => match c with Complete snap => Some snap | Incomplete => None end))
  = Some [("ancestral", 20); ("emotional", 20); ("symbolic", 20)].
Proof. vm_compute. repeat split; reflexivity. Qed.

(** One round with a traversal that starts while the tick's insert is
    under way: the ledger has the tick's line first, the store has the
    line of the traversal first. *)
Example racing_round_example :
  let r :=
    run_round Json.loads (fun _ => Returned "{}") (fun _ => EmptyString)
      (mkRound []
         (mkTickEnv (mkLineEnv "b" "t" None)
            (mkCommitEnv "t" (fun _ => WriteOk)))
         [OpTraverse (mkLineEnv "q" "t" None) "why"] [])
      (mkSystem (init (JDict []) []) empty_world) in
  map MemoryLine.stage (memory_lines (engine (snd r)))
  = ["breath"; "introspection"] /\
  map MemoryLine.stage (db_pandora_memory (world (snd r)))
  = ["introspection"; "breath"].
Proof. vm_compute. split; reflexivity. Qed.

End EngineFacts.

(** ** More on the ingestion buffer *)

Module CollectorMore.

Import Collector Text TextFacts.

(** X1.  With [comment_strip] set, the text that [strip_comments] returns
    holds no [//] any more; and in either setting stripping a stripped
    text changes nothing. *)
Theorem strip_comments_idempotent (self : FloJsonOutputCollector)
    (text : string) :
  (comment_strip self = true -> slash_free (strip_comments self text)) /\
  strip_comments self (strip_comments self text) = strip_comments self text.
Proof.
  unfold strip_comments. destruct (comment_strip self); cbn [negb].
  - split.
    + intros _. apply slash_free_join. apply Forall_map.
      apply Forall_forall. intros l _. apply strip_line_slash_free.
    + rewrite stripped_lines_split, map_map. f_equal.
      apply map_ext. intros l. apply strip_line_id, strip_line_slash_free.
  - split; [discriminate | reflexivity].
Qed.

(** X2.  [strip_comments] returns the text as it is when [comment_strip]
    is clear, and also when the text holds no [//]: line breaks and
    everything else are kept. *)
Theorem strip_comments_identity (self : FloJsonOutputCollector)
    (text : string) :
  comment_strip self = false \/ slash_free text ->
  strip_comments self text = text.
Proof.
  unfold strip_comments. intros [-> | H]; [reflexivity|].
  destruct (comment_strip self); [|reflexivity]. cbn [negb].
  rewrite <- (join_split_lines text) at 2. f_equal.
  rewrite <- (map_id (split_lines text)) at 2.
  apply Forall_fmap_ext_1.
  eapply Forall_impl; [apply split_lines_slash_free; exact H|].
  intros l Hl. apply strip_line_id. exact Hl.
Qed.

(** The theorem at the default collector and a text without a marker. *)
Lemma strip_comments_identity_witness :
  strip_comments Collector.init "[1, 2]" = "[1, 2]".
Proof.
  apply (strip_comments_identity Collector.init "[1, 2]").
  right. reflexivity.
Defined.

(** *** Access at the tail *)

Lemma set_buffer_same (self : FloJsonOutputCollector) :
  set_buffer self (buffer self) = self.
Proof. destruct self; reflexivity. Qed.

(** X3.  On an empty buffer [peek] and [pop] return [None] and change
    nothing.  On a buffer that ends in [x], both return [x]; [peek]
    changes nothing and [pop] leaves exactly the items before [x]. *)
Theorem peek_pop_spec (self : FloJsonOutputCollector) :
  (buffer self = [] -> peek self = (None, self) /\ pop self = (None, self)) /\
  (forall rest x,
     buffer self = rest ++ [x] ->
     peek self = (Some x, self) /\
     pop self = (Some x, set_buffer self rest)).
Proof.
  unfold peek, pop. split.
  - intros ->. split; reflexivity.
  - intros rest x ->. rewrite last_snoc, removelast_last. split; reflexivity.
Qed.

(** X4.  Whenever [collect] returns true, the collector has gained
    exactly one item at the tail, which [peek] shows and which [pop]
    takes away again, giving back the collector as it was before;
    whenever it returns false the collector is unchanged. *)
Theorem collect_then_pop
    (json_loads : string -> outcome json) (py_str : json -> outcome string)
    (self self' : FloJsonOutputCollector) (data : collect_input) (b : bool) :
  collect json_loads py_str self data = Returned (b, self') ->
  if b then
    exists x,
      buffer self' = buffer self ++ [x] /\
      peek self' = (Some x, self') /\
      pop self' = (Some x, self)
  else self' = self.
Proof.
  assert (Hok : forall x, exists y,
             buffer (append self x) = buffer self ++ [y] /\
             peek (append self x) = (Some y, append self x) /\
             pop (append self x) = (Some y, self)).
  { intros x. exists x. split; [reflexivity|].
    split; [apply CollectorFacts.peek_append | apply CollectorFacts.pop_append]. }
  unfold collect, try_except_json, bind, str_input.
  destruct (as_text data) as [text|].
  - destruct (json_loads (strip_comments self text)) as [v|e].
    + intros H. injection H as <- <-. apply Hok.
    + destruct (is_JSONDecodeError e); [|discriminate].
      destruct (strict_mode self); cbn.
      * intros H. injection H as <- <-. reflexivity.
      * intros H. injection H as <- <-. apply Hok.
  - intros H. injection H as <- <-. apply Hok.
Qed.

(** The theorem at a structured value collected by the default
    collector. *)
Lemma collect_then_pop_witness :
  exists x,
    buffer (mkCollector [JInt 7] false true true) = [] ++ [x] /\
    peek (mkCollector [JInt 7] false true true)
    = (Some x, mkCollector [JInt 7] false true true) /\
    pop (mkCollector [JInt 7] false true true) = (Some x, Collector.init).
Proof.
  exact (collect_then_pop Json.loads (fun _ => Returned EmptyString)
           Collector.init (mkCollector [JInt 7] false true true)
           (Value (JInt 7)) true eq_refl).
Defined.

(** X5.  [collect] tests the value itself with [isinstance(data, str)].
    A value that is no string is appended as it is and [collect] returns
    true, whatever [strict_mode] says and without a call of [json.loads].
    A string is parsed also when it arrives as a value: [collect] then
    appends what the parse of the stripped text returned, not the
    string, and in strict mode a string that does not parse is refused. *)
Theorem collect_by_type
    (json_loads : string -> outcome json) (py_str : json -> outcome string)
    (self : FloJsonOutputCollector) :
  (forall v,
     (forall s, v <> JStr s) ->
     collect json_loads py_str self (Value v) = Returned (true, append self v)) /\
  (forall s,
     collect json_loads py_str self (Value (JStr s))
     = collect json_loads py_str self (Text s)) /\
  (forall s parsed,
     json_loads (strip_comments self s) = Returned parsed ->
     collect json_loads py_str self (Value (JStr s))
     = Returned (true, append self parsed)) /\
  (forall s e,
     json_loads (strip_comments self s) = Raised e ->
     is_JSONDecodeError e = true ->
     strict_mode self = true ->
     collect json_loads py_str self (Value (JStr s)) = Returned (false, self)).
Proof.
  split; [|split; [|split]].
  - intros v Hv. destruct v; try reflexivity. destruct (Hv s eq_refl).
  - reflexivity.
  - intros s parsed H. unfold collect. cbn [as_text]. rewrite H. reflexivity.
  - intros s e H He Hs. unfold collect. cbn [as_text]. rewrite H. cbn.
    rewrite He, Hs. reflexivity.
Qed.

(** A number written as a string is collected as the number. *)
Example collect_string_value :
  collect Json.loads (fun _ => Returned EmptyString) Collector.init
    (Value (JStr "42"))
  = Returned (true, mkCollector [JInt 42] false true true).
Proof. reflexivity. Qed.

(** *** Slices of the buffer *)

Lemma slice_to_pos {A} (l : list A) (depth : Z) :
  0 < depth -> slice_to l depth = take (Nat.min (Z.to_nat depth) (length l)) l.
Proof.
  intros Hd. unfold slice_to, slice_bound.
  destruct (Z.ltb_spec depth 0); [lia|]. f_equal. lia.
Qed.

(** X6.  With [reverse_order] clear and [depth > 0], [fetch(depth)]
    returns the first [min(depth, M)] items of a buffer of size [M], in
    buffer order, and leaves the collector as it was. *)
Theorem fetch_forward_spec (self : FloJsonOutputCollector) (depth : Z) :
  reverse_order self = false ->
  0 < depth ->
  exists newer,
    buffer self = fst (fetch self depth) ++ newer /\
    length (fst (fetch self depth))
    = Nat.min (Z.to_nat depth) (length (buffer self)) /\
    snd (fetch self depth) = self.
Proof.
  intros Hr Hd. unfold fetch. rewrite Hr.
  destruct (Z.leb_spec depth 0); [lia|]. cbn [orb].
  destruct (buffer self) as [|x xs] eqn:Hb.
  - exists []. cbn. repeat split. lia.
  - rewrite <- Hb. cbn [fst snd]. rewrite slice_to_pos by lia.
    exists (drop (Nat.min (Z.to_nat depth) (length (buffer self))) (buffer self)).
    split; [symmetry; apply take_drop|]. split; [|reflexivity].
    rewrite length_take. lia.
Qed.

Lemma fetch_forward_spec_witness :
  exists newer,
    [JInt 1; JInt 2; JInt 3]
    = fst (fetch (mkCollector [JInt 1; JInt 2; JInt 3] false true false) 2)
      ++ newer /\
    length (fst (fetch (mkCollector [JInt 1; JInt 2; JInt 3] false true false) 2))
    = 2%nat /\
    snd (fetch (mkCollector [JInt 1; JInt 2; JInt 3] false true false) 2)
    = mkCollector [JInt 1; JInt 2; JInt 3] false true false.
Proof.
  apply (fetch_forward_spec
           (mkCollector [JInt 1; JInt 2; JInt 3] false true false) 2);
    [reflexivity | lia].
Defined.

(** X7.  [rewind] never changes the collector and ignores
    [reverse_order].  With [depth = -1] it returns the whole buffer, with
    [depth > 0] the last [min(depth, M)] items in buffer order, and with
    any other depth nothing; the callback, when given, is applied to each
    returned item. *)
Theorem rewind_spec (self : FloJsonOutputCollector)
    (callback : option (json -> json)) (depth : Z) :
  exists items,
    rewind self callback depth
    = (match callback with Some f => map f items | None => items end, self) /\
    (depth = -1 -> items = buffer self) /\
    (0 < depth ->
     exists older,
       buffer self = older ++ items /\
       length items = Nat.min (Z.to_nat depth) (length (buffer self))) /\
    (depth = 0 \/ depth < -1 -> items = []).
Proof.
  unfold rewind.
  destruct (Z.eqb_spec depth (-1)) as [->|Hne].
  - exists (buffer self). split; [destruct callback; reflexivity|].
    split; [reflexivity|]. split; [lia|]. intros [?|?]; lia.
  - destruct (Z.ltb_spec 0 depth) as [Hd|Hd].
    + exists (slice_from (buffer self) (- depth)).
      split; [destruct callback; reflexivity|].
      split; [lia|]. split; [|intros [?|?]; lia].
      intros _. rewrite CollectorFacts.slice_from_neg by lia.
      eexists. split; [symmetry; apply take_drop|].
      rewrite length_drop. lia.
    + exists []. split; [destruct callback; reflexivity|].
      split; [lia|]. split; [lia|]. reflexivity.
Qed.

(** X8.  With [reverse_order] set, [fetch] and [iter_q] disagree on the
    direction: [fetch] with a depth of at least the buffer size returns
    the buffer oldest first, [iter_q] returns the same items newest
    first; and [rewind] with that depth returns what [fetch] returns. *)
Theorem fetch_rewind_iter_q (self : FloJsonOutputCollector) (depth : Z) :
  reverse_order self = true ->
  0 < depth ->
  Z.of_nat (length (buffer self)) <= depth ->
  fst (fetch self depth) = buffer self /\
  fst (rewind self None depth) = buffer self /\
  iter_q self true = Returned (rev (fst (fetch self depth)), self).
Proof.
  intros Hr Hd Hlen.
  assert (Hf : fst (fetch self depth) = buffer self).
  { unfold fetch. rewrite Hr. destruct (Z.leb_spec depth 0); [lia|].
    cbn [orb]. destruct (buffer self) as [|x xs] eqn:Hb; [reflexivity|].
    rewrite <- Hb in *. cbn [fst].
    rewrite CollectorFacts.slice_from_neg by lia.
    replace (length (buffer self)
             - Nat.min (Z.to_nat depth) (length (buffer self)))%nat
      with 0%nat by lia.
    reflexivity. }
  split; [exact Hf|]. split.
  - unfold rewind. destruct (Z.eqb_spec depth (-1)); [lia|].
    destruct (Z.ltb_spec 0 depth); [|lia]. cbn [fst].
    rewrite CollectorFacts.slice_from_neg by lia.
    replace (length (buffer self)
             - Nat.min (Z.to_nat depth) (length (buffer self)))%nat
      with 0%nat by lia.
    reflexivity.
  - rewrite Hf, CollectorFacts.iter_q_hybrid_returns, Hr. reflexivity.
Qed.

Lemma fetch_rewind_iter_q_witness :
  fst (fetch (mkCollector [JInt 1; JInt 2] false true true) 5)
  = [JInt 1; JInt 2] /\
  fst (rewind (mkCollector [JInt 1; JInt 2] false true true) None 5)
  = [JInt 1; JInt 2] /\
  iter_q (mkCollector [JInt 1; JInt 2] false true true) true
  = Returned
      (rev (fst (fetch (mkCollector [JInt 1; JInt 2] false true true) 5)),
       mkCollector [JInt 1; JInt 2] false true true).
Proof.
  apply (fetch_rewind_iter_q (mkCollector [JInt 1; JInt 2] false true true) 5);
    [reflexivity | lia | cbn; lia].
Defined.

End CollectorMore.

(** ** More on the engine *)

Module EngineMore.

Import Engine Schedule Growth.
Local Open Scope engine_scope.

#[local] Arguments String.append : simpl never.
#[local] Arguments str_int : simpl never.
#[local] Arguments str_exn : simpl never.
#[local] Arguments collector_iter_q : simpl never.

(** *** Growth *)

Lemma same_settings_refl (e : PandoraMemoryEngine) : same_settings e e.
Proof. repeat split. Qed.

Lemma grows_refl (s : System) : grows s s.
Proof.
  split; [repeat split|]. split; [lia|].
  split; [exists []; symmetry; apply app_nil_r|].
  exists [], []. rewrite !app_nil_r.
  repeat split; [intros d Hin; exact Hin | constructor].
Qed.

Lemma grows_trans (s1 s2 s3 : System) : grows s1 s2 -> grows s2 s3 -> grows s1 s3.
Proof.
  intros (S1 & C1 & (i1 & B1) & n1 & d1 & L1 & D1 & U1 & T1)
         (S2 & C2 & (i2 & B2) & n2 & d2 & L2 & D2 & U2 & T2).
  destruct S1 as (a1 & a2 & a3 & a4 & a5 & a6 & a7 & a8).
  destruct S2 as (b1 & b2 & b3 & b4 & b5 & b6 & b7 & b8).
  split; [repeat split; congruence|]. split; [lia|].
  split; [exists (i1 ++ i2); rewrite B2, B1, app_assoc; reflexivity|].
  exists (n1 ++ n2), (d1 ++ d2).
  split; [rewrite L2, L1, app_assoc; reflexivity|].
  split; [rewrite D2, D1, app_assoc; reflexivity|].
  split.
  { intros d Hd. apply elem_of_app. apply elem_of_app in Hd as [Hd'|Hd'];
      [left; apply U1, Hd' | right; apply U2, Hd']. }
  apply Forall_app. split; [exact T1|]. rewrite a3 in T2. exact T2.
Qed.

(** A step that touches neither the engine nor the store. *)
Lemma grows_outside (s s' : System) :
  engine s' = engine s ->
  db_pandora_memory (world s') = db_pandora_memory (world s) ->
  grows s s'.
Proof.
  intros He Hd. unfold grows. rewrite He, Hd.
  split; [repeat split|]. split; [lia|].
  split; [exists []; symmetry; apply app_nil_r|].
  exists [], []. rewrite !app_nil_r.
  repeat split; [intros d Hin; exact Hin | constructor].
Qed.

Lemma keeps_ret {A} (a : A) : keeps (ret a).
Proof. intros s. exists a, s. split; [reflexivity | apply grows_refl]. Qed.

Lemma keeps_gets {A} (f : PandoraMemoryEngine -> A) : keeps (gets f).
Proof. intros s. eexists _, s. split; [reflexivity | apply grows_refl]. Qed.

Lemma keeps_logger (level : log_level) (msg : string) : keeps (logger level msg).
Proof.
  intros s. eexists _, _. split; [reflexivity|].
  apply grows_outside; reflexivity.
Qed.

Lemma keeps_emit (ev : effect) : keeps (emit ev).
Proof.
  intros s. eexists _, _. split; [reflexivity|].
  apply grows_outside; reflexivity.
Qed.

Lemma keeps_bind {A B} (m : M A) (k : A -> M B) :
  keeps m -> (forall a, keeps (k a)) -> keeps (mbind m k).
Proof.
  intros Hm Hk s. destruct (Hm s) as (a & s1 & E1 & G1).
  destruct (Hk a s1) as (b & s2 & E2 & G2).
  exists b, s2. split; [|eapply grows_trans; eassumption].
  unfold mbind. rewrite E1. exact E2.
Qed.

Lemma keeps_try_catch {A} (m : M A) (h : exn -> M A) :
  keeps m -> keeps (try_catch m h).
Proof.
  intros Hm s. destruct (Hm s) as (a & s1 & E1 & G1).
  exists a, s1. split; [|exact G1]. unfold try_catch. rewrite E1. reflexivity.
Qed.

Lemma keeps_for_each {A} (body : A -> M unit) (xs : list A) :
  (forall x, keeps (body x)) -> keeps (for_each body xs).
Proof.
  intros Hb. induction xs as [|x xs IH]; [apply keeps_ret|].
  cbn [for_each]. apply keeps_bind; [apply Hb | intros _; exact IH].
Qed.

Lemma keeps_for_each_from {A} (body : nat -> A -> M unit) (start : nat)
    (xs : list A) :
  (forall i x, keeps (body i x)) -> keeps (for_each_from body start xs).
Proof.
  intros Hb. revert start. induction xs as [|x xs IH]; intros start;
    [apply keeps_ret|].
  cbn [for_each_from]. apply keeps_bind; [apply Hb | intros _; apply IH].
Qed.

Lemma tags_within_vocabulary (allowed tags : list string) l :
  MemoryLine.semantic_tags l = tags ->
  (forall t, t ∈ tags -> t ∈ allowed) ->
  tags_within allowed l.
Proof. intros <- H. exact H. Qed.

(** Appending a line and then persisting it. *)
Lemma append_persist_grows (result : option exn) (line : QInfinityMemoryLine)
    (s : System) :
  tags_within (vocabulary ++ semantic_tags (engine s)) line ->
  exists a s',
    (append_line line ;; _persist_memory_line result line) s = (Returned a, s') /\
    grows s s'.
Proof.
  intros Ht. destruct s as [e [db fs tr]].
  destruct result as [err|]; cbn.
  - eexists _, _. split; [reflexivity|]. unfold grows. cbn.
    split; [repeat split|]. split; [lia|].
    split; [exists []; symmetry; apply app_nil_r|].
    exists [line], []. rewrite app_nil_r.
    repeat split;
      [intros d Hin; apply elem_of_nil in Hin; destruct Hin
      | constructor; [exact Ht|constructor]].
  - eexists _, _. split; [reflexivity|]. unfold grows. cbn.
    split; [repeat split|]. split; [lia|].
    split; [exists []; symmetry; apply app_nil_r|].
    exists [line], [line].
    repeat split;
      [intros d Hin; exact Hin | constructor; [exact Ht|constructor]].
Qed.

Section Runtime.

Variable json_loads : string -> outcome json.
Variable py_str : json -> outcome string.
Variable repr_lines : list QInfinityMemoryLine -> string.

Lemma keeps_commit (env : commit_env) :
  keeps (commit_memory_snapshot repr_lines env).
Proof.
  intros s.
  destruct (EngineFacts.commit_effects repr_lines env s)
    as (b & w' & new & E & Hd & _).
  exists b, (mkSystem (engine s) w'). split; [exact E|].
  apply grows_outside; [reflexivity | exact Hd].
Qed.

Lemma keeps_status : keeps (get_runtime_status repr_lines).
Proof.
  intros s. destruct (EngineFacts.status_spec repr_lines s) as (st & E).
  exists st, s. split; [exact E | apply grows_refl].
Qed.

Lemma keeps_promise (env : line_env) (input_data : json) :
  keeps (promise_then_this_chain json_loads py_str env input_data).
Proof.
  intros s. destruct s as [e [db fs tr]].
  unfold promise_then_this_chain, try_catch, mbind at 1, lift.
  destruct (py_str input_data) as [text|err]; cbn.
  - eexists _, _. split; [reflexivity|]. unfold grows. cbn.
    split; [repeat split|]. split; [lia|].
    split; [eexists; reflexivity|].
    eexists [_], []. rewrite app_nil_r.
    repeat split; [intros d Hin; apply elem_of_nil in Hin; destruct Hin|].
    constructor; [|constructor].
    intros t Ht. cbn in Ht. rewrite !elem_of_cons. tauto.
  - eexists _, _. split; [reflexivity|].
    apply grows_outside; reflexivity.
Qed.

Lemma keeps_traversal (env : line_env) (query : string) :
  keeps (introspective_traversal env query).
Proof.
  intros s. destruct s as [e [db fs tr]].
  unfold introspective_traversal, mbind at 1 2. cbn.
  rewrite EngineFacts.collector_iter_q_spec. cbn.
  match goal with |- context [traversal_line env query ?n ?c] =>
    set (line := traversal_line env query n c) end.
  assert (Ht : tags_within (vocabulary ++ semantic_tags e) line).
  { intros t Hin. apply elem_of_app. left. revert Hin.
    unfold vocabulary. cbn [MemoryLine.semantic_tags line breath_line traversal_line].
    rewrite !elem_of_cons, elem_of_nil. tauto. }
  destruct (insert_result env) as [err|]; cbn.
  - eexists _, _. split; [reflexivity|]. unfold grows. cbn.
    split; [repeat split|]. split; [lia|].
    split; [exists []; symmetry; apply app_nil_r|].
    exists [line], []. rewrite app_nil_r.
    repeat split;
      [intros d Hin; apply elem_of_nil in Hin; destruct Hin
      | constructor; [exact Ht|constructor]].
  - eexists _, _. split; [reflexivity|]. unfold grows. cbn.
    split; [repeat split|]. split; [lia|].
    split; [exists []; symmetry; apply app_nil_r|].
    exists [line], [line].
    repeat split;
      [intros d Hin; exact Hin | constructor; [exact Ht|constructor]].
Qed.

Lemma keeps_run_op (o : op) : keeps (run_op json_loads py_str repr_lines o).
Proof.
  destruct o; cbn [run_op]; apply keeps_bind;
    auto using keeps_promise, keeps_traversal, keeps_commit, keeps_status;
    intros; apply keeps_ret.
Qed.

Lemma keeps_tick_end (env : tick_env) : keeps (tick_end repr_lines env).
Proof.
  unfold tick_end. apply keeps_bind; [apply keeps_gets|]. intros count.
  apply keeps_bind; [|intros; apply keeps_emit].
  destruct (count mod 10 =? 0); [|apply keeps_ret].
  apply keeps_bind; [apply keeps_commit | intros; apply keeps_ret].
Qed.

(** The tick from its increment to the answer of its insert, with the
    operations that run while the insert is under way. *)
Lemma keeps_tick_window (env : tick_env) (os : list op) :
  keeps (breath_memory <- tick_issue env ;;
         emit (EInsert breath_memory) ;;
         for_each (run_op json_loads py_str repr_lines) os ;;
         persist_resume (insert_result (tick_line env)) breath_memory).
Proof.
  intros s.
  rewrite (EngineFacts.mbind_returned _ _ _ _ _
             (EngineFacts.tick_issue_effects env s)).
  erewrite EngineFacts.mbind_returned by reflexivity.
  match goal with |- context [mbind (for_each _ os) _ ?s2] =>
    destruct (keeps_for_each _ os keeps_run_op s2)
      as ([] & s3 & E3 & S3 & C3 & (i3 & B3) & n3 & d3 & L3 & D3 & U3 & T3) end.
  rewrite (EngineFacts.mbind_returned _ _ _ _ _ E3).
  rewrite EngineFacts.persist_resume_effects.
  eexists _, _. split; [reflexivity|].
  cbn [engine world memory_lines set_memory_lines set_breath_cycle_count
       breath_cycle_count collector db_pandora_memory semantic_tags] in *.
  set (line := breath_line (tick_line env) (breath_cycle_count (engine s) + 1))
    in *.
  unfold grows. cbn [engine world db_pandora_memory].
  split; [exact S3|]. split; [lia|]. split; [exists i3; exact B3|].
  exists (line :: n3), (d3 ++ stored (insert_result (tick_line env)) line).
  split; [rewrite L3, <- app_assoc; reflexivity|].
  split; [rewrite D3, <- app_assoc; reflexivity|].
  split.
  - intros d Hd. apply elem_of_app in Hd as [Hd'|Hd'].
    + apply elem_of_cons. right. apply U3, Hd'.
    + destruct (insert_result (tick_line env)); cbn in Hd'.
      * apply elem_of_nil in Hd'. destruct Hd'.
      * apply list_elem_of_singleton in Hd' as ->. apply elem_of_cons. left.
        reflexivity.
  - constructor; [|exact T3].
    intros t Hin. apply elem_of_app. left. revert Hin.
    unfold vocabulary. cbn [MemoryLine.semantic_tags line breath_line].
    rewrite !elem_of_cons, elem_of_nil. tauto.
Qed.

Lemma keeps_run_rounds (rs : list round) :
  keeps (run_rounds json_loads py_str repr_lines rs).
Proof.
  apply keeps_for_each. intros r. unfold run_round.
  apply keeps_bind; [apply keeps_for_each, keeps_run_op|]. intros _.
  intros s.
  destruct (keeps_tick_window (round_tick r) (racing r) s)
    as ([] & s1 & E1 & G1).
  destruct (keeps_bind _ (fun _ => tick_end repr_lines (round_tick r))
              (keeps_for_each _ (during r) keeps_run_op)
              (fun _ => keeps_tick_end (round_tick r)) s1)
    as ([] & s2 & E2 & G2).
  exists tt, s2. split; [|eapply grows_trans; eassumption].
  rewrite <- E2. revert E1. unfold mbind.
  destruct (tick_issue (round_tick r) s) as [[line|e] s0]; [|discriminate].
  cbn. destruct (for_each _ (racing r) _) as [[[]|e] s3]; [|discriminate].
  intros ->. reflexivity.
Qed.

Lemma keeps_modify_running (b : bool) : keeps (modify (set_is_running b)).
Proof.
  intros s. eexists _, _. split; [reflexivity|]. destruct s as [e w].
  unfold grows. cbn.
  split; [repeat split|]. split; [lia|].
  split; [exists []; symmetry; apply app_nil_r|].
  exists [], []. rewrite !app_nil_r.
  repeat split; [intros d Hin; exact Hin | constructor].
Qed.

Lemma keeps_bootstrap (env : nat -> line_env) : keeps (bootstrap_memory env).
Proof.
  unfold bootstrap_memory.
  apply keeps_bind; [apply keeps_logger|]. intros _.
  apply keeps_bind; [apply keeps_gets|]. intros reel.
  apply keeps_bind.
  - apply keeps_for_each_from. intros i d s.
    unfold mbind at 1, gets at 1. cbv zeta.
    apply (append_persist_grows (insert_result (env i))
             (bootstrap_line (semantic_tags (engine s)) (env i) d) s).
    intros t Ht. cbn in Ht. apply elem_of_app. right. exact Ht.
  - intros _. apply keeps_bind; [apply keeps_gets|]. intros n.
    apply keeps_logger.
Qed.

Lemma keeps_start (env : nat -> line_env) : keeps (start_runtime env).
Proof.
  unfold start_runtime.
  apply keeps_bind; [apply keeps_logger|]. intros _.
  apply keeps_bind; [apply keeps_modify_running|]. intros _.
  apply keeps_bind; [apply keeps_gets|]. intros ls.
  apply keeps_bind; [|intros; apply keeps_logger].
  destruct ls; [apply keeps_bootstrap | apply keeps_ret].
Qed.

Lemma keeps_stop (env : commit_env) : keeps (stop_runtime repr_lines env).
Proof.
  unfold stop_runtime.
  apply keeps_bind; [apply keeps_logger|]. intros _.
  apply keeps_bind; [apply keeps_modify_running|]. intros _.
  apply keeps_bind; [apply keeps_commit|]. intros _.
  apply keeps_logger.
Qed.

Lemma grows_appends_only (s s' : System) : grows s s' -> appends_only s s'.
Proof.
  intros (S & _ & (items & B) & new & stored & L & D & _).
  split; [exists new; exact L|]. split; [exists items; exact B|].
  split; [exists stored; exact D | exact S].
Qed.

(** X9.  The ledger, the buffer and the document store are append-only,
    and the settings are fixed: any schedule of ticks and on-demand
    operations, and [stop_runtime], return, keep what was in the ledger,
    the buffer and the store as their front part, and leave the
    configuration, the reel, the tag vocabulary, the checkpoints, the
    window size and the three collector flags as they were. *)
Theorem engine_only_appends (s : System) :
  (forall rounds, exists s',
     run_rounds json_loads py_str repr_lines rounds s = (Returned tt, s') /\
     appends_only s s') /\
  (forall env, exists s',
     stop_runtime repr_lines env s = (Returned tt, s') /\ appends_only s s').
Proof.
  split.
  - intros rounds. destruct (keeps_run_rounds rounds s) as ([] & s' & E & G).
    exists s'. split; [exact E | apply grows_appends_only, G].
  - intros env. destruct (keeps_stop env s) as ([] & s' & E & G).
    exists s'. split; [exact E | apply grows_appends_only, G].
Qed.

(** X10.  The store never holds a document that the ledger lacks: if
    every document of the store is a line of the ledger, this still
    holds after every schedule of ticks and on-demand operations, in
    whatever order the inserts that are under way together reach the
    store. *)
Theorem store_mirrors_ledger_kept (rounds : list round) (s : System) :
  store_mirrors_ledger s ->
  exists s',
    run_rounds json_loads py_str repr_lines rounds s = (Returned tt, s') /\
    store_mirrors_ledger s'.
Proof.
  unfold store_mirrors_ledger. intros H.
  destruct (keeps_run_rounds rounds s)
    as ([] & s' & E & _ & _ & _ & n1 & d1 & L1 & D1 & U1 & _).
  exists s'. split; [exact E|].
  intros d Hd. rewrite D1 in Hd. rewrite L1. apply elem_of_app.
  apply elem_of_app in Hd as [Hd'|Hd'];
    [left; apply H, Hd' | right; apply U1, Hd'].
Qed.

Lemma tags_within_twice (l : QInfinityMemoryLine) :
  tags_within (vocabulary ++ vocabulary) l -> tags_within vocabulary l.
Proof.
  intros H t Ht. specialize (H t Ht). apply elem_of_app in H. tauto.
Qed.

(** X11.  Start a freshly constructed engine and run any schedule: every
    line of the ledger carries only tags of the vocabulary [ancestral],
    [emotional], [symbolic]. *)
Theorem ledger_tags_in_vocabulary (config : json) (reel : list StageDescriptor)
    (boot_env : nat -> line_env) (w0 : World) (rounds : list round) :
  exists s0 s',
    start_runtime boot_env (mkSystem (init config reel) w0) = (Returned tt, s0) /\
    run_rounds json_loads py_str repr_lines rounds s0 = (Returned tt, s') /\
    Forall (fun line =>
              forall t, t ∈ MemoryLine.semantic_tags line ->
                        t ∈ ["ancestral"; "emotional"; "symbolic"])
           (memory_lines (engine s')).
Proof.
  destruct (keeps_start boot_env (mkSystem (init config reel) w0))
    as ([] & s0 & E0 & S0 & _ & _ & n0 & d0 & L0 & _ & _ & T0).
  destruct (keeps_run_rounds rounds s0)
    as ([] & s' & E & _ & _ & _ & n1 & d1 & L1 & _ & _ & T1).
  exists s0, s'. split; [exact E0|]. split; [exact E|].
  destruct S0 as (_ & _ & Htags & _). rewrite Htags in T1.
  cbn in L0, T0, T1. rewrite L1, L0.
  apply Forall_app. split; eapply Forall_impl; try eassumption;
    intros l Hl; apply tags_within_twice; exact Hl.
Qed.

(** *** Snapshot files *)

(** X12.  After [commit_memory_snapshot] each target file holds the
    complete snapshot if its write succeeded, is left incomplete if its
    [json.dump] raised, and is untouched if [mkdir] or [open] raised; the
    second target is untouched whenever the write to the first one
    failed; no other path and no document of the store is touched.  So
    when both writes succeed the two files hold the same snapshot, taken
    from the engine as it is at the call. *)
Theorem commit_files_spec (env : commit_env) (s : System) :
  exists b w',
    commit_memory_snapshot repr_lines env s
    = (Returned b, mkSystem (engine s) w') /\
    files w' !! MNT_PATH
    = file_after (target_result env MNT_PATH)
        (snapshot_of repr_lines env (engine s))
        (files (world s) !! MNT_PATH) /\
    files w' !! APP_PATH
    = match target_result env MNT_PATH with
      | WriteOk =>
          file_after (target_result env APP_PATH)
            (snapshot_of repr_lines env (engine s))
            (files (world s) !! APP_PATH)
      | _ => files (world s) !! APP_PATH
      end /\
    (forall path, path <> MNT_PATH -> path <> APP_PATH ->
                  files w' !! path = files (world s) !! path) /\
    db_pandora_memory w' = db_pandora_memory (world s).
Proof.
  destruct s as [e [db fs tr]].
  unfold commit_memory_snapshot, snapshot_paths, for_each, write_snapshot.
  pose proof EngineFacts.paths_distinct as Hpd.
  assert (Hpd' : MNT_PATH <> APP_PATH) by congruence.
  destruct (target_result env MNT_PATH) eqn:H1;
    [destruct (target_result env APP_PATH) eqn:H2|..]; cbn;
    rewrite ?H1, ?H2; cbn; rewrite ?H2; cbn.
  all: do 2 eexists; split; [reflexivity|]; cbn [files db_pandora_memory].
  all: split;
    [repeat (rewrite (lookup_insert_ne (M := gmap string)) by exact Hpd);
     try rewrite (lookup_insert_eq (M := gmap string)); reflexivity|].
  all: split;
    [repeat first
       [rewrite (lookup_insert_eq (M := gmap string))
       |rewrite (lookup_insert_ne (M := gmap string)) by exact Hpd'];
     reflexivity|].
  all: split; [|reflexivity].
  all: intros path Hm Ha;
    repeat (rewrite (lookup_insert_ne (M := gmap string)) by congruence);
    reflexivity.
Qed.

(** *** What is persisted and what is not *)

(** X13.  [promise_then_this_chain] never writes to the document store
    or to a file: the store and the files are as before and the trace
    gains no insert.  On success the line it appends has the fresh id,
    which is also the [memory_line_id] of the returned result, and carries
    the cycle counter and a preview of the input: the text of the input
    cut after its first 100 characters, however many bytes they take. *)
Theorem promise_not_persisted (env : line_env) (input_data : json)
    (s : System) :
  exists result s',
    promise_then_this_chain json_loads py_str env input_data s
    = (Returned result, s') /\
    db_pandora_memory (world s') = db_pandora_memory (world s) /\
    files (world s') = files (world s) /\
    List.filter is_insert (trace (world s'))
    = List.filter is_insert (trace (world s)) /\
    forall text,
      py_str input_data = Returned text ->
      dict_get "final" result ≫= dict_get "memory_line_id"
      = Some (JStr (fresh_id env)) /\
      exists line,
        last (memory_lines (engine s')) = Some line /\
        MemoryLine.id line = fresh_id env /\
        MemoryLine.breath_cycle line = breath_cycle_count (engine s) /\
        exists preview rest,
          MemoryLine.memory line
          = ["Processing input: " +:+ preview +:+ "...";
             "Promise chain resolved successfully"] /\
          preview = str_slice_to 100 text /\
          text = preview +:+ rest /\
          str_len preview = Nat.min 100 (str_len text).
Proof.
  destruct s as [e [db fs tr]].
  unfold promise_then_this_chain, try_catch, mbind at 1, lift.
  destruct (py_str input_data) as [text|err]; cbn.
  - eexists _, _. split; [reflexivity|]. cbn.
    do 3 (split; [reflexivity|]).
    intros text' H. injection H as <-. split; [reflexivity|].
    eexists. rewrite last_snoc. do 3 (split; [reflexivity|]).
    destruct (TextFacts.str_slice_to_prefix 100 text) as [rest E].
    exists (str_slice_to 100 text), rest.
    split; [reflexivity|]. split; [reflexivity|]. split; [exact E|].
    apply TextFacts.str_slice_to_len.
  - eexists _, _. split; [reflexivity|]. cbn.
    do 2 (split; [reflexivity|]).
    split; [rewrite List.filter_app; cbn; apply app_nil_r|].
    intros text H. discriminate.
Qed.

Lemma traversal_explicit (env : line_env) (query : string) (s : System) :
  let items := if reverse_order (collector (engine s))
               then rev (buffer (collector (engine s)))
               else buffer (collector (engine s)) in
  let line := traversal_line env query (length items)
                (breath_cycle_count (engine s)) in
  exists w',
    introspective_traversal env query s
    = (Returned (JDict
         [("query", JStr query);
          ("traversal_items", JInt (Z.of_nat (length items)));
          ("memory_line_id", JStr (fresh_id env));
          ("breath_cycle", JInt (breath_cycle_count (engine s)));
          ("results", JList (last_ten items))]),
       mkSystem
         (set_memory_lines (memory_lines (engine s) ++ [line]) (engine s)) w') /\
    db_pandora_memory w'
    = db_pandora_memory (world s)
      ++ match insert_result env with None => [line] | Some _ => [] end /\
    files w' = files (world s).
Proof.
  destruct s as [e [db fs tr]].
  unfold introspective_traversal, mbind at 1 2. cbn.
  rewrite EngineFacts.collector_iter_q_spec. cbn.
  destruct (insert_result env) as [err|]; cbn.
  all: eexists; split; [reflexivity|]; cbn.
  all: rewrite ?app_nil_r; split; reflexivity.
Qed.

(** X14.  A failing insert is not surfaced by
    [introspective_traversal]: the returned summary and the engine
    afterwards are the same whether the insert succeeds or raises.  The
    store gains the new line exactly when the insert succeeds, and the
    files are never touched. *)
Theorem traversal_insert_failure_hidden (env : line_env) (query : string)
    (s : System) (fate : option exn) :
  exists result e' w' w'' line,
    introspective_traversal env query s = (Returned result, mkSystem e' w') /\
    introspective_traversal
      (mkLineEnv (fresh_id env) (now env) fate) query s
    = (Returned result, mkSystem e' w'') /\
    last (memory_lines e') = Some line /\
    db_pandora_memory w'
    = db_pandora_memory (world s)
      ++ match insert_result env with None => [line] | Some _ => [] end /\
    files w' = files (world s).
Proof.
  destruct (traversal_explicit env query s) as (w' & E & D & F).
  destruct (traversal_explicit (mkLineEnv (fresh_id env) (now env) fate)
              query s) as (w'' & E' & _).
  eexists _, _, w', w'', _. split; [exact E|]. split; [exact E'|].
  cbn [memory_lines set_memory_lines]. rewrite last_snoc.
  split; [reflexivity|]. split; [exact D | exact F].
Qed.

(** *** Starting and stopping *)

Lemma start_explicit (env : nat -> line_env) (s : System) :
  exists w',
    start_runtime env s = (Returned tt, mkSystem (started env (engine s)) w') /\
    (memory_lines (engine s) <> [] \/ memory_reel (engine s) = [] ->
     db_pandora_memory w' = db_pandora_memory (world s)).
Proof.
  unfold start_runtime, started.
  erewrite EngineFacts.mbind_returned by reflexivity.
  erewrite EngineFacts.mbind_returned by reflexivity.
  erewrite EngineFacts.mbind_returned by reflexivity.
  cbn [engine set_is_running memory_lines].
  destruct (memory_lines (engine s)) as [|l ls] eqn:Hl.
  - cbv beta.
    match goal with |- context [mbind (bootstrap_memory env) _ ?s1] =>
      destruct (EngineFacts.bootstrap_effects env s1) as (w1 & E);
      pose proof E as E' end.
    rewrite (EngineFacts.mbind_returned _ _ _ _ _ E).
    cbn [engine set_is_running memory_lines semantic_tags memory_reel] in *.
    rewrite Hl in *. cbn [app] in *.
    eexists. split; [reflexivity|]. cbn [db_pandora_memory].
    intros [H|Hr]; [congruence|].
    clear E. unfold bootstrap_memory in E'.
    destruct s as [e [db fs tr]]. cbn in Hr. cbn in E'. rewrite Hr in E'.
    cbn in E'. injection E' as _ <-. reflexivity.
  - erewrite EngineFacts.mbind_returned by reflexivity.
    eexists. split; [reflexivity|]. intros _. reflexivity.
Qed.

Lemma started_twice (env1 env2 : nat -> line_env) (e : PandoraMemoryEngine) :
  started env2 (started env1 e) = started env1 e /\
  (memory_lines (started env1 e) <> [] \/ memory_reel (started env1 e) = []).
Proof.
  unfold started. destruct (memory_lines e) as [|l ls] eqn:Hl.
  - destruct (memory_reel e) as [|d ds] eqn:Hr; cbn; rewrite ?Hr; cbn.
    + split; [reflexivity | right; reflexivity].
    + split; [reflexivity | left; discriminate].
  - cbn. rewrite Hl. split; [reflexivity | left; discriminate].
Qed.

(** X15.  Starting a started engine again bootstraps nothing: after a
    first [start_runtime], a second one leaves the engine (ledger
    included) and the document store exactly as they are, also when the
    reel is empty and the first start appended nothing. *)
Theorem start_runtime_twice (env1 env2 : nat -> line_env) (s : System) :
  exists s1 s2,
    start_runtime env1 s = (Returned tt, s1) /\
    start_runtime env2 s1 = (Returned tt, s2) /\
    is_running (engine s1) = true /\
    engine s2 = engine s1 /\
    db_pandora_memory (world s2) = db_pandora_memory (world s1).
Proof.
  destruct (start_explicit env1 s) as (w1 & E1 & _).
  destruct (start_explicit env2 (mkSystem (started env1 (engine s)) w1))
    as (w2 & E2 & D2).
  destruct (started_twice env1 env2 (engine s)) as (He & Hc).
  cbn [engine world] in *. rewrite He in E2.
  eexists _, _. split; [exact E1|]. split; [exact E2|].
  cbn [engine world]. split.
  - unfold started. destruct (memory_lines (engine s)); reflexivity.
  - split; [reflexivity | exact (D2 Hc)].
Qed.

(** X16.  After [stop_runtime] the loop of [breath_cycle] does nothing:
    the call clears [is_running] and commits once, and from the state it
    leaves, [breath_cycle] returns at once with the system unchanged,
    however many ticks the environment offers. *)
Theorem stop_runtime_ends_loop (env : commit_env) (s : System) :
  exists s',
    stop_runtime repr_lines env s = (Returned tt, s') /\
    engine s' = set_is_running false (engine s) /\
    commit_invocations (trace (world s'))
    = S (commit_invocations (trace (world s))) /\
    forall envs, breath_cycle repr_lines envs s' = (Returned tt, s').
Proof.
  destruct (EngineFacts.stop_runtime_effects repr_lines env s)
    as (s' & E & He & Hc).
  exists s'. split; [exact E|]. split; [exact He|]. split; [exact Hc|].
  intros [|tick envs]; [reflexivity|].
  cbn [breath_cycle]. unfold mbind, gets. rewrite He. reflexivity.
Qed.

End Runtime.

(** The theorem at a fresh engine with an empty store: one round with a
    promise chain before the tick and a traversal that starts while the
    tick's insert is under way. *)
Lemma store_mirrors_ledger_kept_witness :
  exists s',
    run_rounds Json.loads (fun _ => Returned "{}") (fun _ => EmptyString)
      [mkRound [OpPromise (mkLineEnv "p" "t" None) (JDict [])]
         (mkTickEnv (mkLineEnv "b" "t" None)
            (mkCommitEnv "t" (fun _ => WriteOk)))
         [OpTraverse (mkLineEnv "q" "t" None) "why"]
         []]
      (mkSystem (init (JDict []) []) empty_world)
    = (Returned tt, s') /\
    store_mirrors_ledger s'.
Proof.
  apply (store_mirrors_ledger_kept Json.loads (fun _ => Returned "{}")
           (fun _ => EmptyString)).
  intros d Hd. apply elem_of_nil in Hd. destruct Hd.
Defined.

End EngineMore.

(** ** The loaders *)

Module LoaderFacts.

Import Engine Loader.
Local Open Scope engine_scope.

#[local] Arguments String.append : simpl never.
#[local] Arguments str_int : simpl never.
#[local] Arguments str_exn : simpl never.

(** X17.  [_load_memory_reel] never raises and touches only the log.  It
    returns the parsed document exactly when the file is there, can be
    read, parses, and the document has a length; in every other case
    (file absent, any step raising, a document such as a number that has
    no [len]) it returns the empty list. *)
Theorem load_memory_reel_spec (json_loads : string -> outcome json)
    (env : file_env) (s : System) :
  exists reel w',
    _load_memory_reel json_loads env s = (Returned reel, mkSystem (engine s) w') /\
    db_pandora_memory w' = db_pandora_memory (world s) /\
    files w' = files (world s) /\
    (forall text doc n,
       path_exists env = Returned true ->
       file_text env = Returned text ->
       json_loads text = Returned doc ->
       py_len doc = Returned n ->
       reel = doc) /\
    (reel <> JList [] ->
     exists text n,
       path_exists env = Returned true /\
       file_text env = Returned text /\
       json_loads text = Returned reel /\
       py_len reel = Returned n).
Proof.
  destruct s as [e [db fs tr]].
  unfold _load_memory_reel, try_catch, mbind at 1, lift.
  destruct (path_exists env) as [[|]|e0]; cbn;
    [destruct (file_text env) as [text|e1]; cbn;
     [destruct (json_loads text) as [doc|e2] eqn:Hj; cbn;
      [destruct (py_len doc) as [n|e3] eqn:Hn; cbn|]|]|..].
  all: eexists _, _; split; [reflexivity|]; cbn.
  all: do 2 (split; [reflexivity|]).
  all: split; [intros t d m H1 H2 H3 H4; try discriminate|
               intros Hne; try congruence].
  - injection H2 as <-. congruence.
  - exists text, n. repeat split; assumption.
  - injection H2 as <-. congruence.
  - injection H2 as <-. congruence.
Qed.

(** X18.  [_load_this_then_config] never raises and touches only the
    log.  When the file is there, can be read and parses, it returns what
    the parser returned, whatever that is (for an empty file, [None]);
    when the file is absent or a step raises it returns the empty
    dictionary. *)
Theorem load_config_spec (yaml_safe_load : string -> outcome json)
    (env : file_env) (s : System) :
  exists config w',
    _load_this_then_config yaml_safe_load env s
    = (Returned config, mkSystem (engine s) w') /\
    db_pandora_memory w' = db_pandora_memory (world s) /\
    files w' = files (world s) /\
    (forall text doc,
       path_exists env = Returned true ->
       file_text env = Returned text ->
       yaml_safe_load text = Returned doc ->
       config = doc) /\
    (config <> JDict [] ->
     exists text,
       path_exists env = Returned true /\
       file_text env = Returned text /\
       yaml_safe_load text = Returned config).
Proof.
  destruct s as [e [db fs tr]].
  unfold _load_this_then_config, try_catch, mbind at 1, lift.
  destruct (path_exists env) as [[|]|e0]; cbn;
    [destruct (file_text env) as [text|e1]; cbn;
     [destruct (yaml_safe_load text) as [doc|e2] eqn:Hj; cbn|]|..].
  all: eexists _, _; split; [reflexivity|]; cbn.
  all: do 2 (split; [reflexivity|]).
  all: split; [intros t d H1 H2 H3; try discriminate|
               intros Hne; try congruence].
  - injection H2 as <-. congruence.
  - exists text. repeat split; assumption.
  - injection H2 as <-. congruence.
Qed.

(** A reel file that holds a number: the parse succeeds, [len] raises,
    and the loader returns the empty list with an error in the log. *)
Example load_memory_reel_number :
  _load_memory_reel Json.loads
    (mkFileEnv (Returned true) (Returned "42"))
    (mkSystem (init (JDict []) []) Schedule.empty_world)
  = (Returned (JList []),
     mkSystem (init (JDict []) [])
       (mkWorld [] ∅
          [ELog ERROR
             "Error loading memory reel: object of type 'int' has no len()"])).
Proof. vm_compute. reflexivity. Qed.

End LoaderFacts.

(** ** The request handlers *)

Module ServerFacts.

Import Engine Server.
Local Open Scope engine_scope.

#[local] Arguments String.append : simpl never.
#[local] Arguments str_int : simpl never.
#[local] Arguments str_exn : simpl never.

Section Handlers.

Variable json_loads : string -> outcome json.
Variable py_str : json -> outcome string.
Variable repr_lines : list QInfinityMemoryLine -> string.
Variable str_http : http_exn -> string.

(** X19.  [pandora_query] answers an unknown action with status 500 and
    never with 400: the [HTTPException] with status 400 that the handler
    raises is caught by its own [except Exception] and wrapped.  The
    engine is untouched in that case.  The actions [introspect] and
    [status] always succeed, with what the engine returned. *)
Theorem pandora_query_spec (env : line_env) (query action : string)
    (s : System) :
  (action <> "introspect" -> action <> "status" ->
   pandora_query repr_lines str_http env query action s
   = (inl (HTTPException 500
             ("Query error: "
              +:+ str_http (HTTPException 400 ("Unknown action: " +:+ action)))),
      s)) /\
  (exists r s',
     introspective_traversal env query s = (Returned r, s') /\
     pandora_query repr_lines str_http env query "introspect" s = (inr r, s')) /\
  (exists r,
     get_runtime_status repr_lines s = (Returned r, s) /\
     pandora_query repr_lines str_http env query "status" s = (inr r, s)).
Proof.
  split; [|split].
  - intros H1 H2. unfold pandora_query, guarded.
    apply String.eqb_neq in H1, H2. rewrite H1, H2. reflexivity.
  - destruct (EngineFacts.traversal_effects env query s) as (r & s' & E & _).
    exists r, s'. split; [exact E|].
    unfold pandora_query, guarded, of_engine.
    change (String.eqb "introspect" "introspect") with true. cbv beta iota.
    rewrite E. reflexivity.
  - destruct (EngineFacts.status_spec repr_lines s) as (r & E).
    exists r. split; [exact E|].
    unfold pandora_query, guarded, of_engine.
    change (String.eqb "status" "introspect") with false.
    change (String.eqb "status" "status") with true. cbv beta iota.
    rewrite E. reflexivity.
Qed.

(** X20.  [commit_pandora_snapshot] answers [committed] exactly when both
    snapshot writes succeed; in every other case it answers with status
    500, the detail being the wrapped "Snapshot commit failed".  It never
    lets an exception of the engine through. *)
Theorem commit_pandora_snapshot_spec (env : commit_env) (s : System) :
  exists s',
    engine s' = engine s /\
    commit_pandora_snapshot repr_lines str_http env s
    = (match target_result env MNT_PATH, target_result env APP_PATH with
       | WriteOk, WriteOk =>
           inr (JDict [("status", JStr "committed");
                       ("message", JStr "Memory snapshot committed successfully");
                       ("location", JStr "/mnt/data/qinfinity_memory.json")])
       | _, _ =>
           inl (HTTPException 500
                  ("Snapshot error: "
                   +:+ str_http (HTTPException 500 "Snapshot commit failed")))
       end, s').
Proof.
  destruct (EngineFacts.commit_effects repr_lines env s)
    as (b & w' & new & E & _ & _ & _ & _ & _ & Hb & _).
  exists (mkSystem (engine s) w'). split; [reflexivity|].
  unfold commit_pandora_snapshot, guarded, hbind, of_engine. cbv beta.
  rewrite E.
  rewrite Hb.
  destruct (target_result env MNT_PATH), (target_result env APP_PATH);
    reflexivity.
Qed.

(** X21.  [get_pandora_memory(limit)] never fails and never changes the
    system.  For [limit > 0] it returns the last [min(limit, N)] lines of
    a ledger of [N] lines, in ledger order.  For [limit = 0] it returns
    the whole ledger, not an empty list, and for a negative limit the
    ledger without its first [-limit] lines.  [returned_lines] is the
    number of lines in the answer. *)
Theorem get_pandora_memory_spec (limit : Z) (s : System) :
  exists recent,
    get_pandora_memory str_http limit s
    = (inr (JDict
         [("total_memory_lines",
           JInt (Z.of_nat (length (memory_lines (engine s)))));
          ("returned_lines", JInt (Z.of_nat (length recent)));
          ("memory_lines", JList (map to_dict recent))]),
       s) /\
    (0 < limit ->
     exists older,
       memory_lines (engine s) = older ++ recent /\
       length recent
       = Nat.min (Z.to_nat limit) (length (memory_lines (engine s)))) /\
    (limit = 0 -> recent = memory_lines (engine s)) /\
    (limit < 0 -> recent = drop (Z.to_nat (- limit)) (memory_lines (engine s))).
Proof.
  destruct s as [e w].
  unfold get_pandora_memory, guarded, of_engine. cbn.
  destruct (Z.ltb_spec limit (Z.of_nat (length (memory_lines e)))) as [Hl|Hl].
  - exists (slice_from (memory_lines e) (- limit)).
    split; [reflexivity|]. split; [|split].
    + intros Hp. rewrite CollectorFacts.slice_from_neg by lia.
      eexists. split; [symmetry; apply take_drop|].
      rewrite length_drop. lia.
    + intros ->. unfold slice_from, slice_bound.
      change (- 0) with 0. change (0 <? 0) with false. cbv iota.
      rewrite Z.min_l by lia. reflexivity.
    + intros Hn. unfold slice_from, slice_bound.
      destruct (Z.ltb_spec (- limit) 0); [lia|].
      destruct (Z.le_gt_cases (- limit) (Z.of_nat (length (memory_lines e)))).
      * rewrite Z.min_l by lia. reflexivity.
      * rewrite Z.min_r by lia. rewrite Nat2Z.id.
        rewrite (drop_ge _ (Z.to_nat (- limit))) by lia.
        rewrite drop_ge by lia. reflexivity.
  - exists (memory_lines e). split; [reflexivity|]. split; [|split].
    + intros Hp. exists []. split; [reflexivity|]. lia.
    + reflexivity.
    + intros Hn. lia.
Qed.

(** X22.  [pandora_promise_chain] never answers with an error status:
    the engine's method catches its own failures, so the handler always
    returns a body, which on an internal failure is the dictionary
    [{error, status: failed}]. *)
Theorem pandora_promise_chain_spec (env : line_env) (data : json)
    (s : System) :
  exists body s',
    pandora_promise_chain json_loads py_str str_http env data s
    = (inr body, s') /\
    promise_then_this_chain json_loads py_str env data s
    = (Returned body, s') /\
    forall e, py_str data = Raised e -> body = error_result e.
Proof.
  destruct (EngineFacts.promise_effects json_loads py_str env data s)
    as (r & s' & E & _).
  exists r, s'. split; [|split; [exact E|]].
  - unfold pandora_promise_chain, guarded, of_engine. cbv beta.
    rewrite E. reflexivity.
  - intros e He. revert E. destruct s as [en [db fs tr]].
    unfold promise_then_this_chain, try_catch, mbind at 1, lift.
    rewrite He. cbn. intros E. injection E as <- _. reflexivity.
Qed.

(** X23.  [stop_pandora_runtime] always answers [stopped] with
    [final_snapshot: committed], also when the final snapshot failed: the
    result of the commit is dropped by [stop_runtime]. *)
Theorem stop_pandora_runtime_spec (env : commit_env) (s : System) :
  exists s',
    stop_pandora_runtime repr_lines str_http env s
    = (inr (JDict [("status", JStr "stopped");
                   ("message", JStr "Pandora 5o runtime has been stopped");
                   ("final_snapshot", JStr "committed")]),
       s') /\
    is_running (engine s') = false.
Proof.
  destruct (EngineFacts.stop_runtime_effects repr_lines env s)
    as (s' & E & He & _).
  exists s'. split.
  - unfold stop_pandora_runtime, guarded, hbind, of_engine. cbv beta.
    rewrite E. reflexivity.
  - rewrite He. reflexivity.
Qed.

End Handlers.

(** The handlers on a small system: a query with an unknown action, and
    the memory endpoint with a limit of zero. *)
Example pandora_query_unknown_example :
  fst (pandora_query (fun _ => EmptyString)
         (fun h => match h with HTTPException c d => (str_int c +:+ ": " +:+ d) end)
         (mkLineEnv "q" "t" None) "why" "explain"
         (mkSystem (init (JDict []) []) Schedule.empty_world))
  = inl (HTTPException 500 "Query error: 400: Unknown action: explain").
Proof. vm_compute. reflexivity. Qed.

End ServerFacts.
